(** * OTP login, signed sessions and consent grants of the two Flask servers

    Shallow embedding of [src/api/app.py] (doctor OTP login with hashed
    OTP records, JWT sessions and a jti blacklist) and of the OTP and
    patient-consent endpoints of [src/healthcare_app.py].

    Conventions of the embedding:
    - every handler is a function of the request, of the server state and
      of what it reads from its environment (the clock and the random
      draws), and it returns the response with the new state;
    - a handler reads the clock once: the successive [now_ts()] /
      [datetime.utcnow()] calls of one request are one reading [now];
    - module-level dictionaries are [gmap]s inside the state record;
    - [jsonify(body), status] is a pair of a [json] value and a status;
    - HMAC-SHA256, PyJWT and the ISO-8601 printer/parser of [datetime] are
      external libraries and enter as Section variables. *)

From Stdlib Require Import ZArith Ascii DecimalString DecimalZ.
From stdpp Require Import base numbers option list strings gmap pretty.

#[local] Open Scope Z_scope.
#[local] Open Scope string_scope.

(** ** Python values and string methods used by the handlers *)

Module Py.

(** [str.isspace] on one character, restricted to the ASCII range:
    TAB, LF, VT, FF, CR, the separators 0x1c-0x1f and the space. Text is
    held as a string of bytes, so the spaces that Python knows outside
    ASCII (U+0085, U+00A0, U+2000 and the like) are not single characters
    here and are not stripped or split on: identifiers, secrets and
    headers are taken to be ASCII. *)
Definition isspace (c : ascii) : bool :=
  let n := N_of_ascii c in
  ((9 <=? n) && (n <=? 13) || (28 <=? n) && (n <=? 32))%N.

Fixpoint lstrip (s : string) : string :=
  match s with
  | EmptyString => EmptyString
  | String c r => if isspace c then lstrip r else s
  end.

Fixpoint rstrip (s : string) : string :=
  match s with
  | EmptyString => EmptyString
  | String c r =>
      match rstrip r with
      | EmptyString => if isspace c then EmptyString else String c EmptyString
      | r' => String c r'
      end
  end.

(** [s.strip()] *)
Definition strip (s : string) : string := rstrip (lstrip s).

(** [s.split()] with no argument: the maximal runs of non-space
    characters, in order; [cur] is the run being read. *)
Fixpoint split_go (cur : string) (s : string) : list string :=
  match s with
  | EmptyString => if decide (cur = "") then [] else [cur]
  | String c r =>
      if isspace c
      then (if decide (cur = "") then split_go "" r else cur :: split_go "" r)
      else split_go (cur +:+ String c "") r
  end.

Definition split (s : string) : list string := split_go "" s.

Definition lower_char (c : ascii) : ascii :=
  let n := N_of_ascii c in
  if ((65 <=? n) && (n <=? 90))%N then ascii_of_N (n + 32) else c.

(** [s.lower()] on ASCII letters *)
Fixpoint lower (s : string) : string :=
  match s with
  | EmptyString => EmptyString
  | String c r => String (lower_char c) (lower r)
  end.

(** [x or ""] for a JSON field that is absent, null or a string *)
Definition or_empty (x : option string) : string := default "" x.

(** [not s] for a string *)
Definition falsy (s : string) : bool := bool_decide (s = "").

(** [not x] for an optional string field ([None], or the empty string) *)
Definition missing (x : option string) : bool :=
  match x with
  | None => true
  | Some s => falsy s
  end.

(** [str(n)] for an integer *)
Definition str_int (n : Z) : string := pretty n.

(** A JSON scalar as the handlers of healthcare_app.py receive it in the
    [otp] field: a string, or a number that [str()] prints. *)
Inductive scalar :=
  | SStr (s : string)
  | SInt (n : Z).

Definition str (v : scalar) : string :=
  match v with
  | SStr s => s
  | SInt n => str_int n
  end.

Definition scalar_falsy (v : scalar) : bool :=
  match v with
  | SStr s => falsy s
  | SInt n => bool_decide (n = 0)
  end.

Definition scalar_missing (x : option scalar) : bool :=
  match x with
  | None => true
  | Some v => scalar_falsy v
  end.

(** No character of [s] is a space. *)
Fixpoint nospace (s : string) : bool :=
  match s with
  | EmptyString => true
  | String c r => negb (isspace c) && nospace r
  end.

(** A JSON document as [jsonify] receives it. *)
#[local] Unset Elimination Schemes.
Inductive json :=
  | JNull
  | JBool (b : bool)
  | JInt (n : Z)
  | JStr (s : string)
  | JList (l : list json)
  | JObj (fields : list (string * json)).

#[local] Set Elimination Schemes.

(** What a view function hands back to Flask: [jsonify(body), status]
    (status 200 when the view gives none), or the HTTP error raised by
    [abort(status, description)]. *)
Inductive response :=
  | Jsonify (body : json) (status : Z)
  | Abort (status : Z) (description : string).

Definition status (r : response) : Z :=
  match r with
  | Jsonify _ st => st
  | Abort st _ => st
  end.


End Py.

(** ** src/api/app.py: doctor OTP login, JWT session, jti blacklist

    The in-process backend ([USE_REDIS] false, the default) is the one
    embedded: [_otp_store] and [_session_blacklist] are dictionaries. *)

Module ApiApp.
Import Py.

(** Module-level configuration, read from the environment at import. *)
Record Config := {
  JWT_SECRET : string;
  OTP_LENGTH : Z;
  OTP_VALIDITY_SECONDS : Z;
  SESSION_EXPIRY_SECONDS : Z
}.

Definition default_config : Config := {|
  JWT_SECRET := "replace_this_with_strong_secret";
  OTP_LENGTH := 6;
  OTP_VALIDITY_SECONDS := 120;
  SESSION_EXPIRY_SECONDS := 120
|}.

(** [{"h": h, "salt": salt, "expires_at": expires_at}] *)
Record OtpRecord := {
  h : string;
  salt : string;
  expires_at : Z
}.

(** [{"sub": doctor_id, "exp": exp, "iat": iat, "jti": jti}], the times as
    the integer seconds PyJWT writes into the token. *)
Record Claims := {
  sub : string;
  exp : Z;
  iat : Z;
  jti : string
}.

(** [_otp_store], [_session_blacklist] and the lines written to
    [app.logger], newest first. *)
Record State := {
  otp_store : gmap string OtpRecord;
  session_blacklist : gmap string Z;
  logged : list string
}.

Definition set_otp_store (f : gmap string OtpRecord → gmap string OtpRecord)
    (st : State) : State :=
  {| otp_store := f (otp_store st);
     session_blacklist := session_blacklist st;
     logged := logged st |}.

Definition set_session_blacklist (f : gmap string Z → gmap string Z)
    (st : State) : State :=
  {| otp_store := otp_store st;
     session_blacklist := f (session_blacklist st);
     logged := logged st |}.

Definition log_info (line : string) (st : State) : State :=
  {| otp_store := otp_store st;
     session_blacklist := session_blacklist st;
     logged := line :: logged st |}.

(** The JSON body of [/api/request_otp] and [/api/verify_otp]: each field
    is absent (or null), or a string. *)
Record OtpRequest := {
  req_doctor_id : option string;
  req_otp : option string
}.

(** What [jwt.decode] does: return the payload, or raise. *)
Inductive Decoded :=
  | Payload (c : Claims)
  | ExpiredSignatureError
  | InvalidTokenError.

Section Server.

(** [hmac.new(key, msg, hashlib.sha256).hexdigest()] *)
Variable hmac_sha256_hexdigest : string → string → string.

(** [jwt.encode(payload, key, algorithm="HS256")] *)
Variable jwt_encode : Claims → string → string.

(** The first half of [jwt.decode(token, key, algorithms=["HS256"])]: the
    payload of [token] when it is well formed and its HS256 signature
    verifies under [key], nothing otherwise. *)
Variable jwt_verify_signature : string → string → option Claims.

(** Offset of the server's local time from UTC, in seconds:
    [exp.timestamp()] reads the naive [utcnow()] value as local time. *)
Variable local_utc_offset : Z.

Variable cfg : Config.

Definition hash_otp (otp salt : string) : string :=
  hmac_sha256_hexdigest salt otp.

(** [store_otp]; [salt] is the draw of [secrets.token_hex(16)]. *)
Definition store_otp (doctor_id otp : string) (ttl : Z)
    (salt : string) (now : Z) (st : State) : State :=
  let h := hash_otp otp salt in
  let expires_at := now + ttl in
  let payload := {| h := h; salt := salt; expires_at := expires_at |} in
  let key := "otp:" +:+ doctor_id in
  set_otp_store <[key := payload]> st.

Definition get_otp_record (doctor_id : string) (st : State) : option OtpRecord :=
  let key := "otp:" +:+ doctor_id in
  otp_store st !! key.

Definition remove_otp (doctor_id : string) (st : State) : State :=
  let key := "otp:" +:+ doctor_id in
  set_otp_store (delete key) st.

(** [create_session_token]; [jti] is the draw of [secrets.token_hex(16)]. *)
Definition create_session_token (doctor_id : string) (expiry_seconds : Z)
    (jti : string) (now : Z) : string * string * Z :=
  let exp := now + expiry_seconds in
  let payload := {| sub := doctor_id; exp := exp; iat := now; jti := jti |} in
  let token := jwt_encode payload (JWT_SECRET cfg) in
  (token, jti, exp - local_utc_offset).

Definition blacklist_session (jti : string) (expires_at_ts : Z) (st : State) : State :=
  set_session_blacklist <[jti := expires_at_ts]> st.

Definition is_blacklisted (jti : string) (now : Z) (st : State) : bool * State :=
  match session_blacklist st !! jti with
  | None => (false, st)
  | Some exp =>
      if bool_decide (exp = 0) then (false, st)
      else if bool_decide (now >= exp)
      then (false, set_session_blacklist (delete jti) st)
      else (true, st)
  end.

(** [generate_otp]; [randbelow i] is the result of the [i]-th call of
    [secrets.randbelow(10)]. *)
Definition generate_otp (length : Z) (randbelow : nat → Z) : string :=
  foldr (λ i digits, str_int (randbelow i) +:+ digits) ""
        (seq 0 (Z.to_nat length)).

Definition send_otp_demo (doctor_id otp : string) (st : State) : State :=
  log_info ("[DEMO OTP] OTP for " +:+ doctor_id +:+ " is: " +:+ otp) st.

Definition api_request_otp (data : OtpRequest) (randbelow : nat → Z)
    (salt : string) (now : Z) (st : State) : response * State :=
  let doctor_id := strip (or_empty (req_doctor_id data)) in
  if falsy doctor_id
  then (Jsonify (JObj [("error", JStr "doctor_id required")]) 400, st)
  else
    let otp := generate_otp (OTP_LENGTH cfg) randbelow in
    let st := store_otp doctor_id otp (OTP_VALIDITY_SECONDS cfg) salt now st in
    let st := send_otp_demo doctor_id otp st in
    (Jsonify (JObj [("ok", JBool true);
                    ("message", JStr "OTP generated and sent (demo)");
                    ("otp_validity_seconds", JInt (OTP_VALIDITY_SECONDS cfg))]) 200,
     st).

Definition api_verify_otp (data : OtpRequest) (jti : string) (now : Z)
    (st : State) : response * State :=
  let doctor_id := strip (or_empty (req_doctor_id data)) in
  let otp_in := strip (or_empty (req_otp data)) in
  if falsy doctor_id || falsy otp_in
  then (Jsonify (JObj [("error", JStr "doctor_id and otp required")]) 400, st)
  else
    match get_otp_record doctor_id st with
    | None =>
        (Jsonify (JObj [("error",
            JStr "no valid otp found for this identifier or it expired")]) 400, st)
    | Some rec =>
        if bool_decide (now > expires_at rec)
        then (Jsonify (JObj [("error", JStr "otp expired")]) 400,
              remove_otp doctor_id st)
        else
          let expected_hash := h rec in
          let salt := salt rec in
          if negb (bool_decide (expected_hash = hash_otp otp_in salt))
          then (Jsonify (JObj [("error", JStr "invalid otp")]) 401, st)
          else
            let st := remove_otp doctor_id st in
            let '(token, jti, expires_at_ts) :=
              create_session_token doctor_id (SESSION_EXPIRY_SECONDS cfg) jti now in
            (Jsonify (JObj [("ok", JBool true);
                            ("token", JStr token);
                            ("expires_at", JInt expires_at_ts);
                            ("session_expires_in_seconds",
                             JInt (SESSION_EXPIRY_SECONDS cfg))]) 200,
             st)
    end.

(** [jwt.decode(token, JWT_SECRET, algorithms=[JWT_ALG])] at time [now]:
    the signature is verified first, then the registered claims the
    payload carries, in PyJWT's order: [iat], which is refused as not yet
    valid when [iat > now] (an [ImmatureSignatureError], which the caller
    catches with [except Exception]), then [exp], which is refused when
    [exp <= now]. *)
Definition jwt_decode (token key : string) (now : Z) : Decoded :=
  match jwt_verify_signature token key with
  | None => InvalidTokenError
  | Some payload =>
      if bool_decide (iat payload > now) then InvalidTokenError
      else if bool_decide (exp payload <= now) then ExpiredSignatureError
      else Payload payload
  end.

(** [decode_token_and_validate]: the payload, or the response of the
    [abort] it raises; [is_blacklisted] may drop an expired entry. *)
Definition decode_token_and_validate (auth_header : option string) (now : Z)
    (st : State) : (Claims + response) * State :=
  if missing auth_header
  then (inr (Abort 401 "missing authorization header"), st)
  else
    match split (or_empty auth_header) with
    | [scheme; token] =>
        if negb (bool_decide (lower scheme = "bearer"))
        then (inr (Abort 401 "invalid authorization header"), st)
        else
          match jwt_decode token (JWT_SECRET cfg) now with
          | ExpiredSignatureError => (inr (Abort 401 "token expired"), st)
          | InvalidTokenError => (inr (Abort 401 "invalid token"), st)
          | Payload payload =>
              let jti := jti payload in
              if falsy jti
              then (inr (Abort 401 "invalid token payload"), st)
              else
                let '(black, st) := is_blacklisted jti now st in
                if black
                then (inr (Abort 401 "session invalidated"), st)
                else (inl payload, st)
          end
    | _ => (inr (Abort 401 "invalid authorization header"), st)
    end.

Definition api_logout (auth_header : option string) (now : Z)
    (st : State) : response * State :=
  match decode_token_and_validate auth_header now st with
  | (inr aborted, st) => (aborted, st)
  | (inl payload, st) =>
      let jti := jti payload in
      let exp_ts := exp payload in
      let st := if falsy jti then st else blacklist_session jti exp_ts st in
      (Jsonify (JObj [("ok", JBool true); ("message", JStr "logged out")]) 200, st)
  end.

(** A client posting to [/api/verify_otp] once per element of [guesses],
    always for the same [doctor_id] field: each element is the [otp]
    field, the [jti] the server would draw, and the clock at arrival. *)
Fixpoint verify_otp_calls (doctor_id : option string)
    (guesses : list (option string * string * Z)) (st : State)
    : list response * State :=
  match guesses with
  | [] => ([], st)
  | (otp_in, jti, now) :: rest =>
      let '(r, st) :=
        api_verify_otp {| req_doctor_id := doctor_id; req_otp := otp_in |}
                       jti now st in
      let '(rs, st) := verify_otp_calls doctor_id rest st in
      (r :: rs, st)
  end.

End Server.

(** The responses of [/api/verify_otp], by name. *)
Definition otp_required : response :=
  Jsonify (JObj [("error", JStr "doctor_id and otp required")]) 400.

Definition otp_not_found : response :=
  Jsonify (JObj [("error",
    JStr "no valid otp found for this identifier or it expired")]) 400.

Definition otp_expired : response :=
  Jsonify (JObj [("error", JStr "otp expired")]) 400.

Definition otp_invalid : response :=
  Jsonify (JObj [("error", JStr "invalid otp")]) 401.

Definition otp_verified (cfg : Config) (token : string) (expires_at_ts : Z)
    : response :=
  Jsonify (JObj [("ok", JBool true);
                 ("token", JStr token);
                 ("expires_at", JInt expires_at_ts);
                 ("session_expires_in_seconds",
                  JInt (SESSION_EXPIRY_SECONDS cfg))]) 200.

(** What [/api/verify_otp] answers a candidate that does not match a live
    record: the missing-field failure for an empty field, the invalid-otp
    failure otherwise. *)
Definition rejected (doctor_id : string) (guess : option string * string * Z)
    : response :=
  if falsy doctor_id || falsy (strip (or_empty guess.1.1))
  then otp_required else otp_invalid.

(** The success response of [/api/request_otp]. *)
Definition otp_requested (cfg : Config) : response :=
  Jsonify (JObj [("ok", JBool true);
                 ("message", JStr "OTP generated and sent (demo)");
                 ("otp_validity_seconds", JInt (OTP_VALIDITY_SECONDS cfg))]) 200.

(** The value [is_blacklisted] treats as a revocation in force at [now]:
    an entry that is neither falsy nor expired. *)
Definition live_entry (jti : string) (now : Z) (st : State) : Prop :=
  ∃ exp, session_blacklist st !! jti = Some exp ∧ exp ≠ 0 ∧ now < exp.

End ApiApp.

(** ** src/healthcare_app.py: employee OTP login and patient consent *)

Module HealthcareApp.
Import Py.

Record Config := {
  OTP_TTL_SECONDS : Z;
  MAX_OTP_ATTEMPTS : Z;
  PATIENT_OTP_TTL_SECONDS : Z;
  PATIENT_ACCESS_SECONDS : Z
}.

Definition default_config : Config := {|
  OTP_TTL_SECONDS := 300;
  MAX_OTP_ATTEMPTS := 5;
  PATIENT_OTP_TTL_SECONDS := 300;
  PATIENT_ACCESS_SECONDS := 120
|}.

(** A naive [datetime] is its count of microseconds since the epoch. *)
Definition datetime : Type := Z.

(** [timedelta(seconds=n)] *)
Definition timedelta_seconds (n : Z) : Z := n * 1000000.

(** An entry of [USERS['employee']] or [USERS['patient']]; the
    [patient_id] of a session user may be a number or a string. *)
Record UserData := {
  password : string;
  name : string;
  role : option string;
  employee_id : option Z;
  user_patient_id : option scalar
}.

(** An entry of [otp_store]: [{'otp', 'expires_at', 'attempts'}]. *)
Record OtpRecord := {
  otp : string;
  expires_at : datetime;
  attempts : Z
}.

(** An entry of [patient_otp_store]:
    [{'otp', 'expires_at', 'attempts', 'patient_id'}]. *)
Record PatientOtpRecord := {
  p_otp : string;
  p_expires_at : datetime;
  p_attempts : Z;
  p_patient_id : string
}.

(** An entry of [healthcare_data['patients']]: the two keys the access
    checks read, and the remaining fields of the dictionary. *)
Record Patient := {
  id : Z;
  patient_id : string;
  details : list (string * json)
}.

Definition patient_json (p : Patient) : json :=
  JObj (("id", JInt (id p)) :: ("patient_id", JStr (patient_id p)) :: details p).

(** The server globals the OTP and consent endpoints touch, and the lines
    printed on the console, newest first. *)
Record State := {
  USERS_employee : gmap string UserData;
  USERS_patient : gmap string UserData;
  otp_store : gmap string OtpRecord;
  patient_otp_store : gmap string PatientOtpRecord;
  patients : list Patient;
  console : list string
}.

Definition set_otp_store (f : gmap string OtpRecord → gmap string OtpRecord)
    (st : State) : State :=
  {| USERS_employee := USERS_employee st;
     USERS_patient := USERS_patient st;
     otp_store := f (otp_store st);
     patient_otp_store := patient_otp_store st;
     patients := patients st;
     console := console st |}.

Definition set_patient_otp_store
    (f : gmap string PatientOtpRecord → gmap string PatientOtpRecord)
    (st : State) : State :=
  {| USERS_employee := USERS_employee st;
     USERS_patient := USERS_patient st;
     otp_store := otp_store st;
     patient_otp_store := f (patient_otp_store st);
     patients := patients st;
     console := console st |}.

Definition print (line : string) (st : State) : State :=
  {| USERS_employee := USERS_employee st;
     USERS_patient := USERS_patient st;
     otp_store := otp_store st;
     patient_otp_store := patient_otp_store st;
     patients := patients st;
     console := line :: console st |}.

(** The keys [user_type], [username] and [user_data] of the Flask session
    are always written together. *)
Record Login := {
  user_type : string;
  username : string;
  user_data : UserData
}.

(** [session['patient_access']]: [{'patient_id', 'expires_at'}], the
    expiry as the ISO string written by [isoformat()]. *)
Record Access := {
  access_patient_id : string;
  access_expires_at : string
}.

(** The Flask session of one client. *)
Record Session := {
  login : option Login;
  patient_access : option Access
}.

(** ['user_type' not in session or session['user_type'] != 'employee'] *)
Definition not_employee (sess : Session) : bool :=
  match login sess with
  | None => true
  | Some l => negb (bool_decide (user_type l = "employee"))
  end.

(** The JSON body of [/api/request-otp] and [/api/verify-otp]: the
    identifier is absent or a string, the otp absent, a string or a
    number. *)
Record OtpRequest := {
  req_identifier : option string;
  req_otp : option scalar
}.

(** The JSON body of [/api/request-patient-otp] and
    [/api/verify-patient-otp]. *)
Record PatientOtpRequest := {
  req_phone : option string;
  req_patient_id : option string;
  req_patient_otp : option scalar
}.

Definition fail (error : string) (code : Z) : response :=
  Jsonify (JObj [("ok", JBool false); ("error", JStr error)]) code.

Section Server.

(** [datetime.isoformat] and [datetime.fromisoformat]; the parser gives
    nothing where Python raises. *)
Variable isoformat : datetime → string.
Variable fromisoformat : string → option datetime.

Variable cfg : Config.

(** [_generate_otp] and [_gen_otp]; [randint] is the result of
    [random.randint(100000, 999999)]. *)
Definition _generate_otp (randint : Z) : string := str_int randint.
Definition _gen_otp (randint : Z) : string := str_int randint.

Definition send_otp_dev_log (identifier otp : string) (st : State) : State :=
  print ("[DEV-OTP] Identifier=" +:+ identifier +:+ " OTP=" +:+ otp +:+
         " (valid " +:+ str_int (OTP_TTL_SECONDS cfg) +:+ "s)") st.

Definition request_otp_for (identifier : string) (randint : Z)
    (now : datetime) (st : State) : string * State :=
  let otp := _generate_otp randint in
  let expires_at := now + timedelta_seconds (OTP_TTL_SECONDS cfg) in
  let st := set_otp_store
    <[identifier := {| otp := otp; expires_at := expires_at; attempts := 0 |}]> st in
  let st := send_otp_dev_log identifier otp st in
  (otp, st).

Definition send_patient_otp_dev_log (phone otp : string) (st : State) : State :=
  print ("[DEV-PATIENT-OTP] Phone=" +:+ phone +:+ " OTP=" +:+ otp +:+
         " (valid " +:+ str_int (PATIENT_OTP_TTL_SECONDS cfg) +:+ "s)") st.

(** One pass of the loop body of [otp_cleanup_task]. *)
Definition otp_cleanup_pass (now : datetime) (st : State) : State :=
  set_otp_store (filter (λ kv, ¬ (expires_at kv.2 < now))) st.

(** One pass of the loop body of [patient_otp_cleanup_task]. *)
Definition patient_otp_cleanup_pass (now : datetime) (st : State) : State :=
  set_patient_otp_store (filter (λ kv, ¬ (p_expires_at kv.2 < now))) st.

(** [/api/request-otp]. Nothing in [request_otp_for] raises here, so the
    [except] branch (status 500) has no counterpart. *)
Definition api_request_otp (data : OtpRequest) (randint : Z) (now : datetime)
    (st : State) : response * State :=
  if missing (req_identifier data)
  then (fail "identifier required" 400, st)
  else
    let identifier := or_empty (req_identifier data) in
    if negb (bool_decide (is_Some (USERS_employee st !! identifier)))
    then (fail "unknown employee identifier" 404, st)
    else
      let '(_, st) := request_otp_for identifier randint now st in
      (Jsonify (JObj [("ok", JBool true);
                      ("message", JStr "OTP generated (dev-log).")]) 200, st).

(** [/api/verify-otp]. [record] aliases the dictionary held by
    [otp_store], so [record['attempts'] += 1] is a write to the store. *)
Definition api_verify_otp (data : OtpRequest) (sess : Session) (now : datetime)
    (st : State) : response * Session * State :=
  if missing (req_identifier data) || scalar_missing (req_otp data)
  then (fail "identifier and otp required" 400, sess, st)
  else
    let identifier := or_empty (req_identifier data) in
    let otp_in := default (SStr "") (req_otp data) in
    match otp_store st !! identifier with
    | None => (fail "no OTP requested for this identifier" 400, sess, st)
    | Some record =>
        let record := {| otp := otp record; expires_at := expires_at record;
                         attempts := attempts record + 1 |} in
        let st := set_otp_store <[identifier := record]> st in
        if bool_decide (attempts record > MAX_OTP_ATTEMPTS cfg)
        then (fail "too many attempts" 429, sess, set_otp_store (delete identifier) st)
        else if bool_decide (now > expires_at record)
        then (fail "otp expired" 400, sess, set_otp_store (delete identifier) st)
        else if negb (bool_decide (otp record = strip (str otp_in)))
        then (fail "invalid otp" 400, sess, st)
        else
          let st := set_otp_store (delete identifier) st in
          match USERS_employee st !! identifier with
          | None => (fail "employee not found" 404, sess, st)
          | Some user_data =>
              let sess := {| login := Some {| user_type := "employee";
                                              username := identifier;
                                              user_data := user_data |};
                             patient_access := patient_access sess |} in
              (Jsonify (JObj [("ok", JBool true);
                              ("message", JStr "OTP verified");
                              ("redirect", JStr "/employee_dashboard")]) 200,
               sess, st)
          end
    end.

(** [/api/request-patient-otp] *)
Definition api_request_patient_otp (data : PatientOtpRequest) (sess : Session)
    (randint : Z) (now : datetime) (st : State) : response * State :=
  if not_employee sess
  then (fail "unauthorized" 403, st)
  else if missing (req_phone data) || missing (req_patient_id data)
  then (fail "phone and patient_id required" 400, st)
  else
    let phone := or_empty (req_phone data) in
    let patient_id_in := or_empty (req_patient_id data) in
    let patient_exists :=
      existsb (λ p, bool_decide (patient_id p = patient_id_in)) (patients st) in
    if negb patient_exists
    then (fail "patient not found" 404, st)
    else
      let otp := _gen_otp randint in
      let expires_at := now + timedelta_seconds (PATIENT_OTP_TTL_SECONDS cfg) in
      let st := set_patient_otp_store
        <[phone := {| p_otp := otp; p_expires_at := expires_at;
                      p_attempts := 0; p_patient_id := patient_id_in |}]> st in
      let st := send_patient_otp_dev_log phone otp st in
      (Jsonify (JObj [("ok", JBool true);
                      ("message", JStr "OTP sent (dev mode log)")]) 200, st).

(** [/api/verify-patient-otp] *)
Definition api_verify_patient_otp (data : PatientOtpRequest) (sess : Session)
    (now : datetime) (st : State) : response * Session * State :=
  if not_employee sess
  then (fail "unauthorized" 403, sess, st)
  else if missing (req_phone data) || scalar_missing (req_patient_otp data)
  then (fail "phone and otp required" 400, sess, st)
  else
    let phone := or_empty (req_phone data) in
    let otp_in := default (SStr "") (req_patient_otp data) in
    match patient_otp_store st !! phone with
    | None => (fail "otp not requested for this phone" 400, sess, st)
    | Some record =>
        if bool_decide (now > p_expires_at record)
        then (fail "otp expired" 400, sess, set_patient_otp_store (delete phone) st)
        else if negb (bool_decide (p_otp record = strip (str otp_in)))
        then
          let record := {| p_otp := p_otp record;
                           p_expires_at := p_expires_at record;
                           p_attempts := p_attempts record + 1;
                           p_patient_id := p_patient_id record |} in
          let st := set_patient_otp_store <[phone := record]> st in
          if bool_decide (p_attempts record > 5)
          then (fail "too many attempts" 429, sess,
                set_patient_otp_store (delete phone) st)
          else (fail "invalid otp" 400, sess, st)
        else
          let access_expires_at :=
            now + timedelta_seconds (PATIENT_ACCESS_SECONDS cfg) in
          let sess := {| login := login sess;
                         patient_access := Some {|
                           access_patient_id := p_patient_id record;
                           access_expires_at := isoformat access_expires_at |} |} in
          let st := set_patient_otp_store (delete phone) st in
          (Jsonify (JObj [("ok", JBool true);
                          ("message", JStr "OTP verified");
                          ("access_expires_in",
                           JInt (PATIENT_ACCESS_SECONDS cfg))]) 200,
           sess, st)
    end.

(** [next((p for p in patients if p['patient_id'] == patient_id
          or str(p['id']) == str(patient_id)), None)] *)
Definition find_patient (patient_id_in : string) (ps : list Patient) : option Patient :=
  List.find (λ p, bool_decide (patient_id p = patient_id_in)
                  || bool_decide (str_int (id p) = patient_id_in)) ps.

Definition drop_patient_access (sess : Session) : Session :=
  {| login := login sess; patient_access := None |}.

Definition unauthorized : response :=
  Jsonify (JObj [("error", JStr "Unauthorized")]) 403.

Definition access_required : response :=
  Jsonify (JObj [("error", JStr "access_required");
                 ("message", JStr "OTP verification required")]) 401.

Definition access_expired : response :=
  Jsonify (JObj [("error", JStr "access_expired");
                 ("message", JStr "Access expired")]) 401.

Definition access_mismatch : response :=
  Jsonify (JObj [("error", JStr "access_mismatch");
                 ("message", JStr "OTP was for a different patient")]) 403.

(** [/api/get-patient/<patient_id>] *)
Definition api_get_patient (patient_id_in : string) (sess : Session)
    (now : datetime) (st : State) : response * Session :=
  match login sess with
  | None => (unauthorized, sess)
  | Some l =>
      match find_patient patient_id_in (patients st) with
      | None => (Jsonify (JObj [("error", JStr "Not found")]) 404, sess)
      | Some patient =>
          if bool_decide (user_type l = "patient")
          then
            match user_patient_id (user_data l) with
            | Some (SInt sess_pid) =>
                if bool_decide (sess_pid = id patient)
                then (Jsonify (JObj [("patient", patient_json patient)]) 200, sess)
                else (unauthorized, sess)
            | Some (SStr sess_pid) =>
                if bool_decide (sess_pid = patient_id patient)
                then (Jsonify (JObj [("patient", patient_json patient)]) 200, sess)
                else (unauthorized, sess)
            | None => (unauthorized, sess)
            end
          else if bool_decide (user_type l = "employee")
          then
            match patient_access sess with
            | None => (access_required, sess)
            | Some access =>
                match fromisoformat (access_expires_at access) with
                | None => (access_required, drop_patient_access sess)
                | Some expires_at =>
                    if bool_decide (now > expires_at)
                    then (access_expired, drop_patient_access sess)
                    else if negb (bool_decide
                                    (access_patient_id access = patient_id patient))
                    then (access_mismatch, sess)
                    else (Jsonify (JObj [("patient", patient_json patient);
                                         ("access_expires_at",
                                          JStr (access_expires_at access))]) 200,
                          sess)
                end
            end
          else (unauthorized, sess)
      end
  end.

(** [/api/revoke-patient-access] *)
Definition api_revoke_patient_access (sess : Session) : response * Session :=
  if not_employee sess
  then (fail "unauthorized" 403, sess)
  else (Jsonify (JObj [("ok", JBool true)]) 200, drop_patient_access sess).

(** A client posting to [/api/verify-otp] once per element of [guesses]
    for the same [identifier]: each element is the [otp] field and the
    clock at arrival. *)
Fixpoint verify_otp_calls (identifier : string)
    (guesses : list (scalar * datetime)) (sess : Session) (st : State)
    : list response * Session * State :=
  match guesses with
  | [] => ([], sess, st)
  | (otp_in, now) :: rest =>
      let '(r, sess, st) :=
        api_verify_otp {| req_identifier := Some identifier;
                          req_otp := Some otp_in |}
                       sess now st in
      let '(rs, sess, st) := verify_otp_calls identifier rest sess st in
      (r :: rs, sess, st)
  end.

End Server.

(** The record after [n] more counted attempts. *)
Definition add_attempts (n : Z) (record : OtpRecord) : OtpRecord :=
  {| otp := otp record; expires_at := expires_at record;
     attempts := attempts record + n |}.

(** The success responses of the OTP endpoints, by name. *)
Definition otp_generated : response :=
  Jsonify (JObj [("ok", JBool true);
                 ("message", JStr "OTP generated (dev-log).")]) 200.

Definition otp_verified : response :=
  Jsonify (JObj [("ok", JBool true);
                 ("message", JStr "OTP verified");
                 ("redirect", JStr "/employee_dashboard")]) 200.

Definition patient_otp_verified (cfg : Config) : response :=
  Jsonify (JObj [("ok", JBool true);
                 ("message", JStr "OTP verified");
                 ("access_expires_in", JInt (PATIENT_ACCESS_SECONDS cfg))]) 200.

(** The response of [/api/get-patient] to an employee whose grant covers
    [patient]. *)
Definition patient_disclosed (patient : Patient) (access : Access) : response :=
  Jsonify (JObj [("patient", patient_json patient);
                 ("access_expires_at", JStr (access_expires_at access))]) 200.

Definition employee_session (identifier : string) (user : UserData)
    (access : option Access) : Session :=
  {| login := Some {| user_type := "employee"; username := identifier;
                      user_data := user |};
     patient_access := access |}.

End HealthcareApp.

(** ** Stand-ins for the external libraries, to run the embedding *)

Module Demo.

(** A keyed digest that is injective in the message. *)
Definition hmac (key msg : string) : string := key +:+ msg.

Definition claims_a : ApiApp.Claims :=
  {| ApiApp.sub := "dr-rao"; ApiApp.exp := 1120; ApiApp.iat := 1000;
     ApiApp.jti := "a1" |}.

Definition claims_b : ApiApp.Claims :=
  {| ApiApp.sub := "dr-rao"; ApiApp.exp := 1150; ApiApp.iat := 1030;
     ApiApp.jti := "b2" |}.

Definition jwt_encode (c : ApiApp.Claims) (key : string) : string :=
  "jwt." +:+ ApiApp.jti c.

(** Two tokens verify under the default key. *)
Definition jwt_verify_signature (token key : string) : option ApiApp.Claims :=
  if bool_decide (key = "replace_this_with_strong_secret") then
    if bool_decide (token = "jwt.a1") then Some claims_a
    else if bool_decide (token = "jwt.b2") then Some claims_b
    else None
  else None.

(** Decimal microseconds in place of the ISO-8601 text. *)
Definition isoformat (t : Z) : string :=
  NilZero.string_of_int (Z.to_int t).

Definition fromisoformat (s : string) : option Z :=
  Z.of_int <$> NilZero.int_of_string s.

Definition api_state : ApiApp.State :=
  {| ApiApp.otp_store := ∅; ApiApp.session_blacklist := ∅;
     ApiApp.logged := [] |}.

Definition dr_smith : HealthcareApp.UserData :=
  {| HealthcareApp.password := "emp123";
     HealthcareApp.name := "Dr. John Smith";
     HealthcareApp.role := Some "Doctor";
     HealthcareApp.employee_id := Some 1;
     HealthcareApp.user_patient_id := None |}.

Definition pat7 : HealthcareApp.Patient :=
  {| HealthcareApp.id := 7; HealthcareApp.patient_id := "PAT0007";
     HealthcareApp.details := [("status", Py.JStr "Active")] |}.

Definition pat99 : HealthcareApp.Patient :=
  {| HealthcareApp.id := 99; HealthcareApp.patient_id := "PAT0099";
     HealthcareApp.details := [("status", Py.JStr "Recovered")] |}.

Definition hc_state : HealthcareApp.State :=
  {| HealthcareApp.USERS_employee := {[ "emp001" := dr_smith ]};
     HealthcareApp.USERS_patient := ∅;
     HealthcareApp.otp_store := ∅;
     HealthcareApp.patient_otp_store := ∅;
     HealthcareApp.patients := [pat7; pat99];
     HealthcareApp.console := [] |}.

Definition anonymous : HealthcareApp.Session :=
  {| HealthcareApp.login := None; HealthcareApp.patient_access := None |}.

Definition operator : HealthcareApp.Session :=
  HealthcareApp.employee_session "emp001" dr_smith None.

End Demo.

(** ** More of the Python text methods *)

Module PyText.

(** A character in ['0' .. '9']. *)
Definition isdigit (c : ascii) : bool :=
  let n := N_of_ascii c in ((48 <=? n) && (n <=? 57))%N.

(** Every character of [s] is a decimal digit. *)
Fixpoint all_digits (s : string) : bool :=
  match s with
  | EmptyString => true
  | String c r => isdigit c && all_digits r
  end.

Fixpoint zeros (n : nat) : string :=
  match n with
  | O => ""
  | S n => String "0" (zeros n)
  end.

(** [s.zfill(width)]: zeros on the left up to [width] characters, put
    after a leading sign. *)
Definition zfill (width : nat) (s : string) : string :=
  let pad := zeros (width - String.length s) in
  match s with
  | String "+" r => String "+" (pad +:+ r)
  | String "-" r => String "-" (pad +:+ r)
  | _ => pad +:+ s
  end.

End PyText.

(** ** src/api/app.py: the protected endpoints *)

Module ApiPatient.
Import Py ApiApp.

(** [PATIENT_DB] *)
Definition PATIENT_DB : gmap string json :=
  {[ "ramesh" := JObj [("name", JStr "Ramesh Kumar");
                       ("dob", JStr "1990-05-12");
                       ("last_visit", JStr "2025-11-21");
                       ("notes", JStr "Hypertension â€” controlled")] ]}.

Section Server.

Variable jwt_verify_signature : string → string → option Claims.
Variable cfg : Config.

(** [/api/patient/<patient_id>] *)
Definition api_get_patient (patient_id : string) (auth_header : option string)
    (now : Z) (st : State) : response * State :=
  match decode_token_and_validate jwt_verify_signature cfg auth_header now st with
  | (inr aborted, st) => (aborted, st)
  | (inl payload, st) =>
      match PATIENT_DB !! patient_id with
      | None => (Jsonify (JObj [("error", JStr "patient not found")]) 404, st)
      | Some rec =>
          (Jsonify (JObj [("ok", JBool true); ("patient", rec)]) 200, st)
      end
  end.

End Server.

(** [/api/health] *)
Definition health (now : Z) : response :=
  Jsonify (JObj [("ok", JBool true); ("time", JInt now)]) 200.

(** The header a client sends with a token. *)
Definition bearer (token : string) : option string :=
  Some ("Bearer " +:+ token).

End ApiPatient.

(** ** src/healthcare_app.py: age, directory, patient login, employees *)

Module HealthcareSite.
Import Py PyText HealthcareApp.

(** The year, month and day of a [datetime]. *)
Record date := {
  year : Z;
  month : Z;
  day : Z
}.

(** [(a1, a2) < (b1, b2)] on tuples of integers *)
Definition tuple_lt (a b : Z * Z) : bool :=
  bool_decide (a.1 < b.1) || bool_decide (a.1 = b.1) && bool_decide (a.2 < b.2).

(** A [bool] used as a number. *)
Definition int_of_bool (b : bool) : Z := if b then 1 else 0.

(** [calculate_age]; [dob] is what [strptime] reads from [dob_str] and
    [today] what [datetime.now()] returns. *)
Definition calculate_age (dob today : date) : Z :=
  year today - year dob
  - int_of_bool (tuple_lt (month today, day today) (month dob, day dob)).

(** Calendar order, and the anniversary [n] years after a date. *)
Definition date_le (a b : date) : Prop :=
  year a < year b
  ∨ year a = year b ∧ (month a < month b ∨ month a = month b ∧ day a <= day b).

Definition date_lt (a b : date) : Prop :=
  year a < year b
  ∨ year a = year b ∧ (month a < month b ∨ month a = month b ∧ day a < day b).

Definition anniversary (n : Z) (d : date) : date :=
  {| year := year d + n; month := month d; day := day d |}.

(** [generate_patient_data]: the keys ['id'] and ['patient_id'] as the
    loop computes them; [fields i] stands for the remaining keys of the
    [i]-th record, which the loop fills from random draws and the clock. *)
Definition generate_patient_data (count : Z)
    (fields : nat → list (string * json)) : list Patient :=
  (λ i, {| id := Z.of_nat i + 1;
           patient_id := "PAT" +:+ zfill 4 (str_int (Z.of_nat i + 1));
           details := fields i |}) <$> seq 0 (Z.to_nat count).

(** An entry of [healthcare_data['employees']], with the keys that
    [generate_employee_data] and [api_add_employee] both write. *)
Record Employee := {
  e_id : Z;
  e_employee_id : string;
  e_name : string;
  e_role : string;
  e_department : string;
  e_email : string;
  e_phone : string;
  e_joining_date : string;
  e_notice_period_days : Z;
  e_previous_hospital : string;
  e_previous_experience_years : Z;
  e_current_salary : Z;
  e_status : string;
  e_last_updated : string
}.

Definition employee_json (e : Employee) : json :=
  JObj [("id", JInt (e_id e));
        ("employee_id", JStr (e_employee_id e));
        ("name", JStr (e_name e));
        ("role", JStr (e_role e));
        ("department", JStr (e_department e));
        ("email", JStr (e_email e));
        ("phone", JStr (e_phone e));
        ("joining_date", JStr (e_joining_date e));
        ("notice_period_days", JInt (e_notice_period_days e));
        ("previous_hospital", JStr (e_previous_hospital e));
        ("previous_experience_years", JInt (e_previous_experience_years e));
        ("current_salary", JInt (e_current_salary e));
        ("status", JStr (e_status e));
        ("last_updated", JStr (e_last_updated e))].

(** The globals of the OTP and consent endpoints, with
    [healthcare_data['employees']] and [patient_login_otp_store]. *)
Record Site := {
  app : State;
  employees : list Employee;
  patient_login_otp_store : gmap string OtpRecord
}.

Definition set_app (f : State → State) (site : Site) : Site :=
  {| app := f (app site);
     employees := employees site;
     patient_login_otp_store := patient_login_otp_store site |}.

Definition set_employees (f : list Employee → list Employee) (site : Site) : Site :=
  {| app := app site;
     employees := f (employees site);
     patient_login_otp_store := patient_login_otp_store site |}.

Definition set_patient_login_otp_store
    (f : gmap string OtpRecord → gmap string OtpRecord) (site : Site) : Site :=
  {| app := app site;
     employees := employees site;
     patient_login_otp_store := f (patient_login_otp_store site) |}.

Definition set_USERS_employee
    (f : gmap string UserData → gmap string UserData) (st : State) : State :=
  {| USERS_employee := f (USERS_employee st);
     USERS_patient := USERS_patient st;
     otp_store := otp_store st;
     patient_otp_store := patient_otp_store st;
     patients := patients st;
     console := console st |}.

(** The JSON body of [POST /api/employees] and [PUT /api/employees/<id>]:
    each field is absent or a string. *)
Record EmployeeForm := {
  f_name : option string;
  f_role : option string;
  f_department : option string;
  f_email : option string;
  f_phone : option string;
  f_status : option string;
  f_password : option string
}.

Inductive Method := PUT | DELETE.

Definition refused (error : string) (code : Z) : response :=
  Jsonify (JObj [("success", JBool false); ("error", JStr error)]) code.

(** [_is_admin_session] *)
Definition _is_admin_session (sess : Session) : bool :=
  match login sess with
  | None => false
  | Some l =>
      bool_decide (user_type l = "employee")
      && bool_decide (role (user_data l) = Some "Administrator")
  end.

(** [max((e.get('id', 0) for e in employees), default=0)] *)
Definition max_id (es : list Employee) : Z :=
  match es with
  | [] => 0
  | e :: rest => foldl (λ m e', Z.max m (e_id e')) (e_id e) rest
  end.

(** [POST /api/employees]; [today] and [now_iso] are
    [datetime.now().strftime('%Y-%m-%d')] and [datetime.now().isoformat()]. *)
Definition api_add_employee (data : EmployeeForm) (sess : Session)
    (today now_iso : string) (site : Site) : response * Site :=
  if negb (_is_admin_session sess)
  then (refused "unauthorized" 403, site)
  else if missing (f_name data) || missing (f_role data)
  then (refused "name and role required" 400, site)
  else
    let name := or_empty (f_name data) in
    let role := or_empty (f_role data) in
    let new_id := max_id (employees site) + 1 in
    let emp_code := "EMP" +:+ zfill 4 (str_int new_id) in
    let new_emp := {|
      e_id := new_id;
      e_employee_id := emp_code;
      e_name := name;
      e_role := role;
      e_department := or_empty (f_department data);
      e_email := or_empty (f_email data);
      e_phone := or_empty (f_phone data);
      e_joining_date := today;
      e_notice_period_days := 30;
      e_previous_hospital := "";
      e_previous_experience_years := 0;
      e_current_salary := 0;
      e_status := "Active";
      e_last_updated := now_iso |} in
    let site := set_employees (λ es, es ++ [new_emp])%list site in
    let site :=
      if missing (f_password data) then site
      else
        let username := "emp" +:+ zfill 3 (str_int new_id) in
        set_app (set_USERS_employee
                   <[username := {| password := or_empty (f_password data);
                                    name := name;
                                    role := Some role;
                                    employee_id := Some new_id;
                                    user_patient_id := None |}]>) site in
    (Jsonify (JObj [("success", JBool true);
                    ("employee", employee_json new_emp)]) 200, site).

(** [next((i for i, e in enumerate(employees) if e.get('id') == emp_id),
          None)] followed by [employees.pop(idx)] *)
Fixpoint pop_first (emp_id : Z) (es : list Employee)
    : option (Employee * list Employee) :=
  match es with
  | [] => None
  | e :: rest =>
      if bool_decide (e_id e = emp_id) then Some (e, rest)
      else
        match pop_first emp_id rest with
        | Some (removed, rest') => Some (removed, e :: rest')
        | None => None
        end
  end.

(** The first employee with this id, rewritten in place by [f]. *)
Fixpoint update_first (emp_id : Z) (f : Employee → Employee) (es : list Employee)
    : option (Employee * list Employee) :=
  match es with
  | [] => None
  | e :: rest =>
      if bool_decide (e_id e = emp_id) then Some (f e, f e :: rest)
      else
        match update_first emp_id f rest with
        | Some (emp, rest') => Some (emp, e :: rest')
        | None => None
        end
  end.

(** The loop [for k in ('name', ..., 'status'): if k in data: emp[k] =
    data[k]] and the stamp that follows it. *)
Definition apply_form (data : EmployeeForm) (now_iso : string) (e : Employee)
    : Employee :=
  {| e_id := e_id e;
     e_employee_id := e_employee_id e;
     e_name := default (e_name e) (f_name data);
     e_role := default (e_role e) (f_role data);
     e_department := default (e_department e) (f_department data);
     e_email := default (e_email e) (f_email data);
     e_phone := default (e_phone e) (f_phone data);
     e_joining_date := e_joining_date e;
     e_notice_period_days := e_notice_period_days e;
     e_previous_hospital := e_previous_hospital e;
     e_previous_experience_years := e_previous_experience_years e;
     e_current_salary := e_current_salary e;
     e_status := default (e_status e) (f_status data);
     e_last_updated := now_iso |}.

Definition is_login_of (emp_id : Z) (ud : UserData) : Prop :=
  employee_id ud = Some emp_id.

#[global] Instance is_login_of_dec (emp_id : Z) (ud : UserData) :
  Decision (is_login_of emp_id ud).
Proof. unfold is_login_of. apply _. Defined.

(** [ud['name'] = emp.get('name'); ud['role'] = emp.get('role')] on the
    logins of [emp_id] *)
Definition sync_login (emp_id : Z) (emp : Employee) (ud : UserData) : UserData :=
  if decide (is_login_of emp_id ud)
  then {| password := password ud; name := e_name emp; role := Some (e_role emp);
          employee_id := employee_id ud; user_patient_id := user_patient_id ud |}
  else ud.

(** [PUT] and [DELETE /api/employees/<int:emp_id>] *)
Definition api_modify_employee (emp_id : Z) (method : Method)
    (data : EmployeeForm) (sess : Session) (now_iso : string) (site : Site)
    : response * Site :=
  if negb (_is_admin_session sess)
  then (refused "unauthorized" 403, site)
  else
    match method with
    | DELETE =>
        match pop_first emp_id (employees site) with
        | None => (refused "not found" 404, site)
        | Some (removed, rest) =>
            let site := set_employees (λ _, rest) site in
            let site :=
              set_app (set_USERS_employee
                         (filter (λ kv, ¬ is_login_of emp_id kv.2))) site in
            (Jsonify (JObj [("success", JBool true);
                            ("removed", employee_json removed)]) 200, site)
        end
    | PUT =>
        match update_first emp_id (apply_form data now_iso) (employees site) with
        | None => (refused "not found" 404, site)
        | Some (emp, es) =>
            let site := set_employees (λ _, es) site in
            let site :=
              set_app (set_USERS_employee (fmap (sync_login emp_id emp))) site in
            (Jsonify (JObj [("success", JBool true);
                            ("employee", employee_json emp)]) 200, site)
        end
    end.

Definition set_password (emp_id : Z) (new_password : string) (ud : UserData)
    : UserData :=
  if decide (is_login_of emp_id ud)
  then {| password := new_password; name := name ud; role := role ud;
          employee_id := employee_id ud; user_patient_id := user_patient_id ud |}
  else ud.

(** [PATCH /api/employees/<int:emp_id>/password] *)
Definition api_change_employee_password (emp_id : Z) (new_password : option string)
    (sess : Session) (site : Site) : response * Site :=
  if negb (_is_admin_session sess)
  then (refused "unauthorized" 403, site)
  else if missing new_password
  then (refused "password required" 400, site)
  else
    let updated :=
      bool_decide (∃ uname ud, USERS_employee (app site) !! uname = Some ud
                               ∧ is_login_of emp_id ud) in
    let site :=
      set_app (set_USERS_employee
                 (fmap (set_password emp_id (or_empty new_password)))) site in
    if updated
    then (Jsonify (JObj [("success", JBool true)]) 200, site)
    else (Jsonify (JObj [("success", JBool true);
                         ("warning", JStr "no-login-for-employee")]) 200, site).

Section Server.

Variable isoformat : datetime → string.
Variable cfg : Config.

(** [PATIENT_LOGIN_OTP_TTL_SECONDS] *)
Variable PATIENT_LOGIN_OTP_TTL_SECONDS : Z.

(** [/api/request-patient-login-otp]; [randint] is the draw of
    [_generate_otp]. *)
Definition api_request_patient_login_otp (data : OtpRequest) (randint : Z)
    (now : datetime) (site : Site) : response * Site :=
  if missing (req_identifier data)
  then (fail "identifier required" 400, site)
  else
    let identifier := or_empty (req_identifier data) in
    if negb (bool_decide (is_Some (USERS_patient (app site) !! identifier)))
    then (fail "unknown patient identifier" 404, site)
    else
      let otp := _generate_otp randint in
      let expires_at := now + timedelta_seconds PATIENT_LOGIN_OTP_TTL_SECONDS in
      let site := set_patient_login_otp_store
        <[identifier := {| otp := otp; expires_at := expires_at;
                           attempts := 0 |}]> site in
      let site := set_app
        (print ("[DEV-PATIENT-LOGIN-OTP] Identifier=" +:+ identifier +:+
                " OTP=" +:+ otp +:+ " (valid " +:+
                str_int PATIENT_LOGIN_OTP_TTL_SECONDS +:+ "s)")) site in
      (otp_generated, site).

(** [/api/verify-patient-login-otp] *)
Definition api_verify_patient_login_otp (data : OtpRequest) (sess : Session)
    (now : datetime) (site : Site) : response * Session * Site :=
  if missing (req_identifier data) || scalar_missing (req_otp data)
  then (fail "identifier and otp required" 400, sess, site)
  else
    let identifier := or_empty (req_identifier data) in
    let otp_in := default (SStr "") (req_otp data) in
    match patient_login_otp_store site !! identifier with
    | None => (fail "no OTP requested for this identifier" 400, sess, site)
    | Some record =>
        let record := {| otp := otp record; expires_at := expires_at record;
                         attempts := attempts record + 1 |} in
        let site := set_patient_login_otp_store <[identifier := record]> site in
        if bool_decide (attempts record > MAX_OTP_ATTEMPTS cfg)
        then (fail "too many attempts" 429, sess,
              set_patient_login_otp_store (delete identifier) site)
        else if bool_decide (now > expires_at record)
        then (fail "otp expired" 400, sess,
              set_patient_login_otp_store (delete identifier) site)
        else if negb (bool_decide (otp record = strip (str otp_in)))
        then (fail "invalid otp" 400, sess, site)
        else
          let site := set_patient_login_otp_store (delete identifier) site in
          match USERS_patient (app site) !! identifier with
          | None => (fail "patient not found" 404, sess, site)
          | Some user_data =>
              let sess := {| login := Some {| user_type := "patient";
                                              username := identifier;
                                              user_data := user_data |};
                             patient_access := patient_access sess |} in
              (Jsonify (JObj [("ok", JBool true);
                              ("message", JStr "OTP verified");
                              ("redirect", JStr "/patient_dashboard")]) 200,
               sess, site)
          end
    end.

(** A client posting to [/api/verify-patient-otp] once per element of
    [guesses] for the same [phone]: each element is the [otp] field and
    the clock at arrival. *)
Fixpoint verify_patient_otp_calls (phone : string)
    (guesses : list (scalar * datetime)) (sess : Session) (st : State)
    : list response * Session * State :=
  match guesses with
  | [] => ([], sess, st)
  | (otp_in, now) :: rest =>
      let '(r, sess, st) :=
        api_verify_patient_otp isoformat cfg
          {| req_phone := Some phone; req_patient_id := None;
             req_patient_otp := Some otp_in |} sess now st in
      let '(rs, sess, st) := verify_patient_otp_calls phone rest sess st in
      (r :: rs, sess, st)
  end.

End Server.

(** The pending consent request after [n] more counted mismatches. *)
Definition add_mismatches (n : Z) (record : PatientOtpRecord) : PatientOtpRecord :=
  {| p_otp := p_otp record; p_expires_at := p_expires_at record;
     p_attempts := p_attempts record + n; p_patient_id := p_patient_id record |}.

(** Sample sessions and a sample site. *)
Definition admin_user : UserData :=
  {| password := "admin123"; name := "Admin User";
     role := Some "Administrator"; employee_id := Some 0;
     user_patient_id := None |}.

Definition pat001 : UserData :=
  {| password := "pat123"; name := "Michael Brown"; role := None;
     employee_id := None; user_patient_id := Some (SInt 7) |}.

Definition sample_site : Site :=
  {| app := {| USERS_employee := {[ "emp001" := Demo.dr_smith;
                                    "admin" := admin_user ]};
               USERS_patient := {[ "pat001" := pat001 ]};
               otp_store := ∅;
               patient_otp_store := ∅;
               patients := [Demo.pat7; Demo.pat99];
               console := [] |};
     employees := [];
     patient_login_otp_store := ∅ |}.

End HealthcareSite.

(** * Properties *)

(** ** Facts about the string methods *)

Module PyFacts.
Import Py.

Lemma app_cons (c : ascii) (s r : string) :
  String c s +:+ r = String c (s +:+ r).
Proof. reflexivity. Qed.

Lemma app_empty_r (s : string) : s +:+ "" = s.
Proof. induction s as [|c s IH]; [done | by rewrite app_cons, IH]. Qed.

Lemma app_snoc (s : string) (c : ascii) (r : string) :
  (s +:+ String c "") +:+ r = s +:+ String c r.
Proof. induction s as [|d s IH]; [done | by rewrite !app_cons, IH]. Qed.

Lemma app_empty_inv (s r : string) : s +:+ r = "" → s = "" ∧ r = "".
Proof. destruct s; [done | rewrite app_cons; discriminate]. Qed.

Lemma nospace_app (s r : string) :
  nospace (s +:+ r) = nospace s && nospace r.
Proof.
  induction s as [|c s IH]; [done |].
  rewrite app_cons. simpl. by rewrite IH, andb_assoc.
Qed.

Lemma lstrip_nospace (s : string) : nospace s = true → lstrip s = s.
Proof.
  destruct s as [|c s]; simpl; [done |].
  intros [Hc _]%andb_prop. by destruct (isspace c).
Qed.

Lemma rstrip_nospace (s : string) : nospace s = true → rstrip s = s.
Proof.
  induction s as [|c s IH]; simpl; [done |].
  intros [Hc Hs]%andb_prop. rewrite (IH Hs).
  destruct s; [by destruct (isspace c) | done].
Qed.

(** Stripping changes nothing in a string without spaces. *)
Lemma strip_nospace (s : string) : nospace s = true → strip s = s.
Proof.
  intros Hs. unfold strip. rewrite (lstrip_nospace s Hs).
  by apply rstrip_nospace.
Qed.

Lemma pretty_N_char_nospace (x : N) : isspace (pretty_N_char x) = false.
Proof. unfold pretty_N_char. by repeat case_match. Qed.

Lemma pretty_N_go_nospace (x : N) (s : string) :
  nospace s = true → nospace (pretty_N_go x s) = true.
Proof.
  revert s. induction (N.lt_wf_0 x) as [x _ IH]. intros s Hs.
  destruct (decide (x = 0%N)) as [->|Hx].
  - by rewrite pretty_N_go_0.
  - rewrite pretty_N_go_step by lia. apply IH.
    + apply N.div_lt; lia.
    + simpl. by rewrite pretty_N_char_nospace, Hs.
Qed.

Lemma pretty_N_nospace (x : N) : nospace (pretty x) = true.
Proof.
  unfold pretty, pretty_N. case_decide; [done |].
  by apply pretty_N_go_nospace.
Qed.

(** The decimal print of an integer holds no space ... *)
Lemma str_int_nospace (n : Z) : nospace (str_int n) = true.
Proof.
  unfold str_int, pretty, pretty_Z. destruct n as [|p|p]; [done | |].
  - apply (pretty_N_nospace (Npos p)).
  - rewrite nospace_app. simpl. apply (pretty_N_nospace (Npos p)).
Qed.

Lemma pretty_N_go_nonempty (x : N) (s : string) :
  s ≠ "" → pretty_N_go x s ≠ "".
Proof.
  revert s. induction (N.lt_wf_0 x) as [x _ IH]. intros s Hs.
  destruct (decide (x = 0%N)) as [->|Hx].
  - by rewrite pretty_N_go_0.
  - rewrite pretty_N_go_step by lia. apply IH; [apply N.div_lt; lia | done].
Qed.

(** ... and is never empty. *)
Lemma str_int_nonempty (n : Z) : str_int n ≠ "".
Proof.
  unfold str_int, pretty, pretty_Z. destruct n as [|p|p]; [done | | done].
  unfold pretty, pretty_positive, pretty, pretty_N.
  case_decide; [done |].
  rewrite pretty_N_go_step by lia. by apply pretty_N_go_nonempty.
Qed.

Lemma strip_str_int (n : Z) : strip (str_int n) = str_int n.
Proof. apply strip_nospace, str_int_nospace. Qed.

Lemma falsy_false (s : string) : s ≠ "" → falsy s = false.
Proof. intros Hs. unfold falsy. by rewrite bool_decide_eq_false. Qed.

Lemma split_go_word (cur w : string) :
  nospace w = true → cur +:+ w ≠ "" → split_go cur w = [cur +:+ w].
Proof.
  revert cur. induction w as [|c w IH]; intros cur Hw Hne; simpl.
  - rewrite app_empty_r in Hne. rewrite app_empty_r. by rewrite decide_False.
  - simpl in Hw. apply andb_prop in Hw as [Hc Hw].
    apply negb_true_iff in Hc. rewrite Hc.
    rewrite IH; [by rewrite app_snoc | done |].
    rewrite app_snoc. by intros [_ ?]%app_empty_inv.
Qed.

(** ["Bearer <token>".split()] is [["Bearer", token]] for a token that is
    one word. *)
Lemma split_bearer (token : string) :
  nospace token = true → token ≠ "" →
  split ("Bearer " +:+ token) = ["Bearer"; token].
Proof.
  intros Hw Hne. unfold split.
  change (split_go "" ("Bearer " +:+ token)) with ("Bearer" :: split_go "" token).
  by rewrite (split_go_word "" token Hw Hne).
Qed.

End PyFacts.

(** ** The stand-ins meet what is assumed of the libraries *)

Module DemoFacts.

Lemma hmac_inj (key a b : string) : Demo.hmac key a = Demo.hmac key b → a = b.
Proof. unfold Demo.hmac. intros Heq. exact (String.app_inj key a b Heq). Qed.

Lemma fromisoformat_isoformat (t : Z) :
  Demo.fromisoformat (Demo.isoformat t) = Some t.
Proof.
  unfold Demo.fromisoformat, Demo.isoformat.
  rewrite NilZero.isi.
  - simpl. by rewrite DecimalZ.of_to.
  - intros Hd. pose proof (f_equal Z.of_int Hd) as Hz.
    rewrite DecimalZ.of_to in Hz. simpl in Hz. subst t. discriminate Hd.
  - intros Hd. pose proof (f_equal Z.of_int Hd) as Hz.
    rewrite DecimalZ.of_to in Hz. simpl in Hz. subst t. discriminate Hd.
Qed.

End DemoFacts.

(** ** src/api/app.py *)

Module ApiFacts.
Import Py PyFacts ApiApp.

Lemma generate_otp_nospace (length : Z) (randbelow : nat → Z) :
  nospace (generate_otp length randbelow) = true.
Proof.
  unfold generate_otp. induction (seq 0 (Z.to_nat length)) as [|i l IH]; [done |].
  simpl. by rewrite nospace_app, str_int_nospace, IH.
Qed.

Lemma generate_otp_nonempty (length : Z) (randbelow : nat → Z) :
  0 < length → generate_otp length randbelow ≠ "".
Proof.
  intros Hlen. unfold generate_otp.
  destruct (Z.to_nat length) as [|n] eqn:Hn; [lia |].
  simpl. intros [Hd _]%app_empty_inv. by apply str_int_nonempty in Hd.
Qed.

(** The generated secret passes through [strip] unchanged. *)
Lemma strip_generate_otp (length : Z) (randbelow : nat → Z) :
  strip (generate_otp length randbelow) = generate_otp length randbelow.
Proof. apply strip_nospace, generate_otp_nospace. Qed.

Section Facts.

Variable hmac : string → string → string.
Variable jwt_encode : Claims → string → string.
Variable jwt_verify_signature : string → string → option Claims.
Variable local_utc_offset : Z.
Variable cfg : Config.

#[local] Abbreviation hash_otp := (hash_otp hmac).
#[local] Abbreviation store_otp := (store_otp hmac).
#[local] Abbreviation api_request_otp := (api_request_otp hmac cfg).
#[local] Abbreviation api_verify_otp :=
  (api_verify_otp hmac jwt_encode local_utc_offset cfg).
#[local] Abbreviation verify_otp_calls :=
  (verify_otp_calls hmac jwt_encode local_utc_offset cfg).
#[local] Abbreviation create_session_token :=
  (create_session_token jwt_encode local_utc_offset cfg).
#[local] Abbreviation decode_token_and_validate :=
  (decode_token_and_validate jwt_verify_signature cfg).
#[local] Abbreviation api_logout := (api_logout jwt_verify_signature cfg).

Lemma get_otp_record_store (doctor_id otp salt : string) (ttl now : Z) (st : State) :
  get_otp_record doctor_id (store_otp doctor_id otp ttl salt now st)
  = Some {| h := hash_otp otp salt; salt := salt; expires_at := now + ttl |}.
Proof. unfold get_otp_record, store_otp. simpl. apply lookup_insert_eq. Qed.

Lemma get_otp_record_remove (doctor_id : string) (st : State) :
  get_otp_record doctor_id (remove_otp doctor_id st) = None.
Proof. unfold get_otp_record, remove_otp. simpl. apply lookup_delete_eq. Qed.

Lemma get_otp_record_send (doctor_id d otp : string) (st : State) :
  get_otp_record doctor_id (send_otp_demo d otp st) = get_otp_record doctor_id st.
Proof. reflexivity. Qed.

(** The accepted request: the record is written, the secret is logged
    for delivery, and the response is the fixed success body. *)
Lemma api_request_otp_accepted (data : OtpRequest) (randbelow : nat → Z)
    (salt : string) (now : Z) (st : State) :
  let doctor_id := strip (or_empty (req_doctor_id data)) in
  let otp := generate_otp (OTP_LENGTH cfg) randbelow in
  doctor_id ≠ "" →
  api_request_otp data randbelow salt now st
  = (otp_requested cfg,
     send_otp_demo doctor_id otp
       (store_otp doctor_id otp (OTP_VALIDITY_SECONDS cfg) salt now st)).
Proof.
  intros doctor_id otp Hid. unfold ApiApp.api_request_otp.
  fold doctor_id. by rewrite (falsy_false _ Hid).
Qed.

(** No record: the "not found" failure, and nothing changes. *)
Lemma api_verify_otp_absent (data : OtpRequest) (jti : string) (now : Z) (st : State) :
  let doctor_id := strip (or_empty (req_doctor_id data)) in
  doctor_id ≠ "" → strip (or_empty (req_otp data)) ≠ "" →
  get_otp_record doctor_id st = None →
  api_verify_otp data jti now st = (otp_not_found, st).
Proof.
  intros doctor_id Hid Hotp Hget. unfold ApiApp.api_verify_otp.
  fold doctor_id. rewrite (falsy_false _ Hid), (falsy_false _ Hotp). simpl.
  by rewrite Hget.
Qed.

(** A record read strictly after its expiry: the "expired" failure, and
    the record is removed. *)
Lemma api_verify_otp_expired (data : OtpRequest) (jti : string) (now : Z)
    (st : State) (rec : OtpRecord) :
  let doctor_id := strip (or_empty (req_doctor_id data)) in
  doctor_id ≠ "" → strip (or_empty (req_otp data)) ≠ "" →
  get_otp_record doctor_id st = Some rec →
  now > expires_at rec →
  api_verify_otp data jti now st = (otp_expired, remove_otp doctor_id st).
Proof.
  intros doctor_id Hid Hotp Hget Hlate. unfold ApiApp.api_verify_otp.
  fold doctor_id. rewrite (falsy_false _ Hid), (falsy_false _ Hotp). simpl.
  rewrite Hget. by rewrite bool_decide_eq_true_2.
Qed.

(** A live record and a candidate with the stored digest: success, the
    record is removed and a session token is minted. *)
Lemma api_verify_otp_match (data : OtpRequest) (jti : string) (now : Z)
    (st : State) (rec : OtpRecord) :
  let doctor_id := strip (or_empty (req_doctor_id data)) in
  let otp_in := strip (or_empty (req_otp data)) in
  doctor_id ≠ "" → otp_in ≠ "" →
  get_otp_record doctor_id st = Some rec →
  now <= expires_at rec →
  h rec = hash_otp otp_in (salt rec) →
  api_verify_otp data jti now st
  = (otp_verified cfg
       (create_session_token doctor_id (SESSION_EXPIRY_SECONDS cfg) jti now).1.1
       (create_session_token doctor_id (SESSION_EXPIRY_SECONDS cfg) jti now).2,
     remove_otp doctor_id st).
Proof.
  intros doctor_id otp_in Hid Hotp Hget Hlive Hh. unfold ApiApp.api_verify_otp.
  fold doctor_id otp_in. rewrite (falsy_false _ Hid), (falsy_false _ Hotp). simpl.
  rewrite Hget. rewrite bool_decide_eq_false_2 by lia.
  by rewrite bool_decide_eq_true_2.
Qed.

(** A live record and a candidate with another digest, or no candidate:
    a failure, and the state is the one before the call. *)
Lemma api_verify_otp_mismatch (data : OtpRequest) (jti : string) (now : Z)
    (st : State) (rec : OtpRecord) :
  let doctor_id := strip (or_empty (req_doctor_id data)) in
  let otp_in := strip (or_empty (req_otp data)) in
  get_otp_record doctor_id st = Some rec →
  now <= expires_at rec →
  h rec ≠ hash_otp otp_in (salt rec) →
  api_verify_otp data jti now st
  = (if falsy doctor_id || falsy otp_in then otp_required else otp_invalid, st).
Proof.
  intros doctor_id otp_in Hget Hlive Hh. unfold ApiApp.api_verify_otp.
  fold doctor_id otp_in. destruct (falsy doctor_id || falsy otp_in); [done |].
  rewrite Hget. rewrite bool_decide_eq_false_2 by lia.
  by rewrite bool_decide_eq_false_2.
Qed.

Lemma verify_otp_calls_app (doctor_id : option string)
    (xs ys : list (option string * string * Z)) (st : State) :
  verify_otp_calls doctor_id (xs ++ ys)%list st
  = let '(rs, st1) := verify_otp_calls doctor_id xs st in
    let '(rs', st2) := verify_otp_calls doctor_id ys st1 in
    ((rs ++ rs')%list, st2).
Proof.
  revert st. induction xs as [|[[g j] t] xs IH]; intros st; simpl.
  - by destruct (verify_otp_calls doctor_id ys st).
  - destruct (api_verify_otp _ j t st) as [r st1]. rewrite IH.
    destruct (verify_otp_calls doctor_id xs st1) as [rs st2].
    by destruct (verify_otp_calls doctor_id ys st2).
Qed.

(** Any run of candidates with a digest other than the stored one, sent
    while the record is live, is rejected call by call and the state at
    the end is the state at the start. *)
Lemma verify_otp_calls_mismatch (doctor_id : option string)
    (guesses : list (option string * string * Z)) (st : State)
    (rec : OtpRecord) :
  let id := strip (or_empty doctor_id) in
  get_otp_record id st = Some rec →
  Forall (λ g, g.2 <= expires_at rec
               ∧ h rec ≠ hash_otp (strip (or_empty g.1.1)) (salt rec)) guesses →
  verify_otp_calls doctor_id guesses st = (rejected id <$> guesses, st).
Proof.
  intros id Hget Hall. induction Hall as [|[[g j] t] gs [Ht Hg] _ IH]; [done |].
  simpl in *.
  rewrite (api_verify_otp_mismatch
             {| req_doctor_id := doctor_id; req_otp := g |} j t st rec Hget Ht Hg).
  by rewrite IH.
Qed.

(** The same for a run in which a candidate may also be empty: what the
    endpoint compares is the digest of the candidate under the record's
    salt, and an empty candidate is refused before any comparison. *)
Lemma verify_otp_calls_wrong (doctor_id : option string)
    (guesses : list (option string * string * Z)) (st : State)
    (rec : OtpRecord) :
  let id := strip (or_empty doctor_id) in
  get_otp_record id st = Some rec →
  Forall (λ g, g.2 <= expires_at rec
               ∧ (strip (or_empty g.1.1) = ""
                  ∨ hash_otp (strip (or_empty g.1.1)) (salt rec) ≠ h rec)) guesses →
  verify_otp_calls doctor_id guesses st = (rejected id <$> guesses, st).
Proof.
  intros id Hget Hall. induction Hall as [|[[g j] t] gs [Ht Hg] _ IH]; [done |].
  simpl in *.
  assert (api_verify_otp {| req_doctor_id := doctor_id; req_otp := g |} j t st
          = (rejected id (g, j, t), st)) as ->; [|by rewrite IH].
  unfold rejected. simpl. destruct Hg as [Hempty | Hdigest].
  - unfold ApiApp.api_verify_otp. simpl. fold id. rewrite Hempty.
    by rewrite orb_true_r.
  - by apply (api_verify_otp_mismatch
                {| req_doctor_id := doctor_id; req_otp := g |} j t st rec).
Qed.

(** [is_blacklisted] answers yes exactly on a live entry. *)
Lemma is_blacklisted_true (jti : string) (now : Z) (st : State) :
  (is_blacklisted jti now st).1 = true ↔ live_entry jti now st.
Proof.
  unfold is_blacklisted, live_entry.
  destruct (session_blacklist st !! jti) as [e|] eqn:He; simpl.
  - repeat case_bool_decide; simpl; split; try done.
    + intros (e' & [= <-] & ? & ?). done.
    + intros (e' & [= <-] & ? & ?). lia.
    + intros _. exists e. split_and!; [done | done | lia].
  - split; [done |]. by intros (e' & ? & _).
Qed.

Lemma is_blacklisted_false (jti : string) (now : Z) (st : State) :
  ¬ live_entry jti now st → (is_blacklisted jti now st).1 = false.
Proof.
  intros Hn. destruct (is_blacklisted jti now st).1 eqn:Hb; [|done].
  by apply is_blacklisted_true in Hb.
Qed.

(** The only write of [is_blacklisted] is the removal of the entry it
    was asked about. *)
Lemma is_blacklisted_other (jti jti' : string) (now : Z) (st : State) :
  jti' ≠ jti →
  session_blacklist (is_blacklisted jti now st).2 !! jti'
  = session_blacklist st !! jti'.
Proof.
  intros Hne. unfold is_blacklisted.
  destruct (session_blacklist st !! jti) as [e|]; [|done].
  repeat case_bool_decide; simpl; try done.
  by rewrite lookup_delete_ne.
Qed.

Lemma live_entry_later (jti : string) (now now' : Z) (st : State) :
  now <= now' → live_entry jti now' st → live_entry jti now st.
Proof. intros Hle (e & He & Hz & Hlt). exists e. split_and!; [done | done | lia]. Qed.

(** What an accepted token went through. *)
Lemma decode_token_and_validate_accepted (auth_header : option string) (now : Z)
    (st st' : State) (payload : Claims) :
  decode_token_and_validate auth_header now st = (inl payload, st') →
  ∃ scheme token,
    split (or_empty auth_header) = [scheme; token]
    ∧ lower scheme = "bearer"
    ∧ jwt_verify_signature token (JWT_SECRET cfg) = Some payload
    ∧ now < exp payload
    ∧ jti payload ≠ ""
    ∧ ¬ live_entry (jti payload) now st
    ∧ st' = (is_blacklisted (jti payload) now st).2.
Proof.
  unfold ApiApp.decode_token_and_validate, jwt_decode.
  destruct (missing auth_header); [done |].
  destruct (split (or_empty auth_header)) as [|scheme [|token [|]]]; try done.
  case_bool_decide as Hs; simpl; [|done].
  destruct (jwt_verify_signature token (JWT_SECRET cfg)) as [c|] eqn:Hv; [|done].
  case_bool_decide as Hi; [done |].
  case_bool_decide as He; [done |].
  destruct (falsy (jti c)) eqn:Hj; [done |].
  destruct (is_blacklisted (jti c) now st) as [b st1] eqn:Hb.
  destruct b; [done |]. intros [= <- <-].
  exists scheme, token. split_and!; try done.
  - lia.
  - unfold falsy in Hj. by apply bool_decide_eq_false in Hj.
  - intros Hl%is_blacklisted_true. by rewrite Hb in Hl.
  - by rewrite Hb.
Qed.

(** An accepted token was issued no later than the clock reads. *)
Lemma decode_token_and_validate_issued (auth_header : option string) (now : Z)
    (st st' : State) (payload : Claims) :
  decode_token_and_validate auth_header now st = (inl payload, st') →
  iat payload <= now.
Proof.
  unfold ApiApp.decode_token_and_validate, jwt_decode.
  destruct (missing auth_header); [done |].
  destruct (split (or_empty auth_header)) as [|scheme [|token [|]]]; try done.
  case_bool_decide as Hs; simpl; [|done].
  destruct (jwt_verify_signature token (JWT_SECRET cfg)) as [c|] eqn:Hv; [|done].
  case_bool_decide as Hi; [done |].
  case_bool_decide as He; [done |].
  destruct (falsy (jti c)) eqn:Hj; [done |].
  destruct (is_blacklisted (jti c) now st) as [[] st1] eqn:Hb; [done |].
  intros [= <- <-]. lia.
Qed.

(** ... and conversely. *)
Lemma decode_token_and_validate_accepts (auth_header : option string) (now : Z)
    (st : State) (scheme token : string) (payload : Claims) :
  missing auth_header = false →
  split (or_empty auth_header) = [scheme; token] →
  lower scheme = "bearer" →
  jwt_verify_signature token (JWT_SECRET cfg) = Some payload →
  iat payload <= now →
  now < exp payload →
  jti payload ≠ "" →
  ¬ live_entry (jti payload) now st →
  decode_token_and_validate auth_header now st
  = (inl payload, (is_blacklisted (jti payload) now st).2).
Proof.
  intros Hm Hsplit Hs Hv Hi He Hj Hl.
  unfold ApiApp.decode_token_and_validate, jwt_decode.
  rewrite Hm, Hsplit, Hv. rewrite bool_decide_eq_true_2 by done. simpl.
  rewrite bool_decide_eq_false_2 by lia.
  rewrite bool_decide_eq_false_2 by lia. rewrite (falsy_false _ Hj).
  pose proof (is_blacklisted_false _ _ _ Hl) as Hb.
  destruct (is_blacklisted (jti payload) now st) as [b st1]. simpl in Hb.
  by subst b.
Qed.

(** An issued, unexpired token whose jti has a live entry is turned away
    as invalidated. *)
Lemma decode_token_and_validate_revoked (auth_header : option string) (now : Z)
    (st : State) (scheme token : string) (payload : Claims) :
  missing auth_header = false →
  split (or_empty auth_header) = [scheme; token] →
  lower scheme = "bearer" →
  jwt_verify_signature token (JWT_SECRET cfg) = Some payload →
  iat payload <= now →
  now < exp payload →
  jti payload ≠ "" →
  live_entry (jti payload) now st →
  decode_token_and_validate auth_header now st
  = (inr (Abort 401 "session invalidated"), st).
Proof.
  intros Hm Hsplit Hs Hv Hi He Hj Hl.
  unfold ApiApp.decode_token_and_validate, jwt_decode.
  rewrite Hm, Hsplit, Hv. rewrite bool_decide_eq_true_2 by done. simpl.
  rewrite bool_decide_eq_false_2 by lia.
  rewrite bool_decide_eq_false_2 by lia. rewrite (falsy_false _ Hj).
  pose proof Hl as Hb%is_blacklisted_true.
  unfold is_blacklisted in *. destruct Hl as (e & -> & Hz & Hlt).
  rewrite bool_decide_eq_false_2 by done.
  by rewrite bool_decide_eq_false_2 by lia.
Qed.

Lemma decode_token_and_validate_present (auth_header : option string) (now : Z)
    (st st' : State) (payload : Claims) :
  decode_token_and_validate auth_header now st = (inl payload, st') →
  missing auth_header = false.
Proof.
  unfold ApiApp.decode_token_and_validate.
  by destruct (missing auth_header).
Qed.

(** Logging out with an accepted token records its jti with the token's
    own expiry. *)
Lemma api_logout_accepted (auth_header : option string) (now : Z)
    (st st' : State) (payload : Claims) :
  decode_token_and_validate auth_header now st = (inl payload, st') →
  api_logout auth_header now st
  = (Jsonify (JObj [("ok", JBool true); ("message", JStr "logged out")]) 200,
     blacklist_session (jti payload) (exp payload) st').
Proof.
  intros Hd. unfold ApiApp.api_logout. rewrite Hd.
  apply decode_token_and_validate_accepted in Hd
    as (_ & _ & _ & _ & _ & _ & Hj & _).
  by rewrite (falsy_false _ Hj).
Qed.

End Facts.

End ApiFacts.

(** ** src/healthcare_app.py *)

Module HealthcareFacts.
Import Py PyFacts HealthcareApp.

Lemma set_otp_store_compose (f g : gmap string OtpRecord → gmap string OtpRecord)
    (st : State) :
  set_otp_store f (set_otp_store g st) = set_otp_store (f ∘ g) st.
Proof. reflexivity. Qed.

Lemma set_otp_store_ext (f g : gmap string OtpRecord → gmap string OtpRecord)
    (st : State) :
  f (otp_store st) = g (otp_store st) → set_otp_store f st = set_otp_store g st.
Proof. intros H. unfold set_otp_store. by rewrite H. Qed.

Lemma set_otp_store_insert_id (identifier : string) (record : OtpRecord) (st : State) :
  otp_store st !! identifier = Some record →
  set_otp_store <[identifier := record]> st = st.
Proof.
  intros H. destruct st. unfold set_otp_store. simpl in *.
  by rewrite insert_id.
Qed.

Lemma add_attempts_0 (record : OtpRecord) : add_attempts 0 record = record.
Proof. destruct record. unfold add_attempts. simpl. by rewrite Z.add_0_r. Qed.

Lemma add_attempts_add (n m : Z) (record : OtpRecord) :
  add_attempts n (add_attempts m record) = add_attempts (m + n) record.
Proof. unfold add_attempts. simpl. by rewrite Z.add_assoc. Qed.

(** What [find_patient] returns is a record of the directory. *)
Lemma find_patient_elem (url : string) (ps : list Patient) (p : Patient) :
  find_patient url ps = Some p → p ∈ ps.
Proof.
  unfold find_patient. intros [Hin _]%find_some. by apply list_elem_of_In.
Qed.

(** A record of the directory is found under its ['patient_id'], or a
    record listed before it with the same ['patient_id'] is, unless an
    ['id'] of the directory prints as that ['patient_id']. *)
Lemma find_patient_by_patient_id (ps : list Patient) (b : Patient) :
  b ∈ ps →
  (∀ p, p ∈ ps → str_int (id p) ≠ patient_id b) →
  ∃ p, find_patient (patient_id b) ps = Some p
       ∧ p ∈ ps ∧ patient_id p = patient_id b.
Proof.
  intros Hb Hno. unfold find_patient.
  destruct (find _ ps) as [p|] eqn:Hf.
  - apply find_some in Hf as [Hin Hp]. apply list_elem_of_In in Hin.
    exists p. apply orb_true_iff in Hp as [Hp|Hp]; apply bool_decide_eq_true in Hp.
    + done.
    + by destruct (Hno p Hin).
  - apply list_elem_of_In in Hb. pose proof (find_none _ _ Hf b Hb) as Hnone.
    simpl in Hnone. by rewrite bool_decide_eq_true_2 in Hnone.
Qed.

Section Facts.

Variable isoformat : datetime → string.
Variable fromisoformat : string → option datetime.
Variable cfg : Config.

#[local] Abbreviation request_otp_for := (request_otp_for cfg).
#[local] Abbreviation api_request_otp := (api_request_otp cfg).
#[local] Abbreviation api_verify_otp := (api_verify_otp cfg).
#[local] Abbreviation verify_otp_calls := (verify_otp_calls cfg).
#[local] Abbreviation api_request_patient_otp := (api_request_patient_otp cfg).
#[local] Abbreviation api_verify_patient_otp :=
  (api_verify_patient_otp isoformat cfg).
#[local] Abbreviation api_get_patient := (api_get_patient fromisoformat).

(** The accepted request writes the drawn secret itself, with a zeroed
    attempt counter. *)
Lemma hc_request_otp_accepted (identifier : string) (v : option scalar)
    (randint : Z) (now : datetime) (st : State) :
  identifier ≠ "" →
  is_Some (USERS_employee st !! identifier) →
  api_request_otp {| req_identifier := Some identifier; req_otp := v |}
                  randint now st
  = (otp_generated, (request_otp_for identifier randint now st).2).
Proof.
  intros Hid Hu. unfold HealthcareApp.api_request_otp. simpl.
  rewrite (falsy_false _ Hid). by rewrite bool_decide_eq_true_2.
Qed.

Lemma request_otp_for_record (identifier : string) (randint : Z)
    (now : datetime) (st : State) :
  otp_store (request_otp_for identifier randint now st).2 !! identifier
  = Some {| otp := str_int randint;
            expires_at := now + timedelta_seconds (OTP_TTL_SECONDS cfg);
            attempts := 0 |}.
Proof. unfold HealthcareApp.request_otp_for. simpl. apply lookup_insert_eq. Qed.

Lemma request_otp_for_users (identifier : string) (randint : Z)
    (now : datetime) (st : State) :
  USERS_employee (request_otp_for identifier randint now st).2 = USERS_employee st.
Proof. reflexivity. Qed.

Lemma hc_verify_otp_absent (identifier : string) (v : scalar) (sess : Session)
    (now : datetime) (st : State) :
  identifier ≠ "" → scalar_falsy v = false →
  otp_store st !! identifier = None →
  api_verify_otp {| req_identifier := Some identifier; req_otp := Some v |}
                 sess now st
  = (fail "no OTP requested for this identifier" 400, sess, st).
Proof.
  intros Hid Hv Hget. unfold HealthcareApp.api_verify_otp. simpl.
  rewrite (falsy_false _ Hid), Hv. simpl. by rewrite Hget.
Qed.

(** The counter is bumped before anything is checked: past the ceiling
    the record is dropped, whatever the candidate. *)
Lemma hc_verify_otp_too_many (identifier : string) (v : scalar) (sess : Session)
    (now : datetime) (st : State) (record : OtpRecord) :
  identifier ≠ "" → scalar_falsy v = false →
  otp_store st !! identifier = Some record →
  attempts record + 1 > MAX_OTP_ATTEMPTS cfg →
  api_verify_otp {| req_identifier := Some identifier; req_otp := Some v |}
                 sess now st
  = (fail "too many attempts" 429, sess, set_otp_store (delete identifier) st).
Proof.
  intros Hid Hv Hget Hmax. unfold HealthcareApp.api_verify_otp. simpl.
  rewrite (falsy_false _ Hid), Hv. simpl. rewrite Hget. simpl.
  rewrite bool_decide_eq_true_2 by done.
  rewrite set_otp_store_compose. f_equal.
  apply set_otp_store_ext. simpl. apply delete_insert_eq.
Qed.

Lemma hc_verify_otp_expired (identifier : string) (v : scalar) (sess : Session)
    (now : datetime) (st : State) (record : OtpRecord) :
  identifier ≠ "" → scalar_falsy v = false →
  otp_store st !! identifier = Some record →
  attempts record + 1 <= MAX_OTP_ATTEMPTS cfg →
  now > expires_at record →
  api_verify_otp {| req_identifier := Some identifier; req_otp := Some v |}
                 sess now st
  = (fail "otp expired" 400, sess, set_otp_store (delete identifier) st).
Proof.
  intros Hid Hv Hget Hmax Hlate. unfold HealthcareApp.api_verify_otp. simpl.
  rewrite (falsy_false _ Hid), Hv. simpl. rewrite Hget. simpl.
  rewrite bool_decide_eq_false_2 by lia.
  rewrite bool_decide_eq_true_2 by done.
  rewrite set_otp_store_compose. f_equal.
  apply set_otp_store_ext. simpl. apply delete_insert_eq.
Qed.

Lemma hc_verify_otp_invalid (identifier : string) (v : scalar) (sess : Session)
    (now : datetime) (st : State) (record : OtpRecord) :
  identifier ≠ "" → scalar_falsy v = false →
  otp_store st !! identifier = Some record →
  attempts record + 1 <= MAX_OTP_ATTEMPTS cfg →
  now <= expires_at record →
  otp record ≠ strip (str v) →
  api_verify_otp {| req_identifier := Some identifier; req_otp := Some v |}
                 sess now st
  = (fail "invalid otp" 400, sess,
     set_otp_store <[identifier := add_attempts 1 record]> st).
Proof.
  intros Hid Hv Hget Hmax Hlive Hne. unfold HealthcareApp.api_verify_otp. simpl.
  rewrite (falsy_false _ Hid), Hv. simpl. rewrite Hget. simpl.
  rewrite bool_decide_eq_false_2 by lia.
  rewrite bool_decide_eq_false_2 by lia.
  by rewrite bool_decide_eq_false_2.
Qed.

Lemma hc_verify_otp_match (identifier : string) (v : scalar) (sess : Session)
    (now : datetime) (st : State) (record : OtpRecord) (user : UserData) :
  identifier ≠ "" → scalar_falsy v = false →
  otp_store st !! identifier = Some record →
  attempts record + 1 <= MAX_OTP_ATTEMPTS cfg →
  now <= expires_at record →
  otp record = strip (str v) →
  USERS_employee st !! identifier = Some user →
  api_verify_otp {| req_identifier := Some identifier; req_otp := Some v |}
                 sess now st
  = (otp_verified, employee_session identifier user (patient_access sess),
     set_otp_store (delete identifier) st).
Proof.
  intros Hid Hv Hget Hmax Hlive Heq Hu. unfold HealthcareApp.api_verify_otp. simpl.
  rewrite (falsy_false _ Hid), Hv. simpl. rewrite Hget. simpl.
  rewrite bool_decide_eq_false_2 by lia.
  rewrite bool_decide_eq_false_2 by lia.
  rewrite bool_decide_eq_true_2 by done. simpl. rewrite Hu.
  rewrite set_otp_store_compose. f_equal.
  apply set_otp_store_ext. simpl. apply delete_insert_eq.
Qed.

(** The matching candidate for a login that is no longer in [USERS]:
    the record is used up and the answer is 404. *)
Lemma hc_verify_otp_match_gone (identifier : string) (v : scalar) (sess : Session)
    (now : datetime) (st : State) (record : OtpRecord) :
  identifier ≠ "" → scalar_falsy v = false →
  otp_store st !! identifier = Some record →
  attempts record + 1 <= MAX_OTP_ATTEMPTS cfg →
  now <= expires_at record →
  otp record = strip (str v) →
  USERS_employee st !! identifier = None →
  api_verify_otp {| req_identifier := Some identifier; req_otp := Some v |}
                 sess now st
  = (fail "employee not found" 404, sess, set_otp_store (delete identifier) st).
Proof.
  intros Hid Hv Hget Hmax Hlive Heq Hu. unfold HealthcareApp.api_verify_otp. simpl.
  rewrite (falsy_false _ Hid), Hv. simpl. rewrite Hget. simpl.
  rewrite bool_decide_eq_false_2 by lia.
  rewrite bool_decide_eq_false_2 by lia.
  rewrite bool_decide_eq_true_2 by done. simpl. rewrite Hu.
  rewrite set_otp_store_compose. f_equal.
  apply set_otp_store_ext. simpl. apply delete_insert_eq.
Qed.

Lemma hc_verify_otp_calls_app (identifier : string)
    (xs ys : list (scalar * datetime)) (sess : Session) (st : State) :
  verify_otp_calls identifier (xs ++ ys)%list sess st
  = let '(rs, sess1, st1) := verify_otp_calls identifier xs sess st in
    let '(rs', sess2, st2) := verify_otp_calls identifier ys sess1 st1 in
    ((rs ++ rs')%list, sess2, st2).
Proof.
  revert sess st. induction xs as [|[g t] xs IH]; intros sess st; simpl.
  - by destruct (verify_otp_calls identifier ys sess st) as [[??]?].
  - destruct (api_verify_otp _ sess t st) as [[r sess1] st1]. rewrite IH.
    destruct (verify_otp_calls identifier xs sess1 st1) as [[rs sess2] st2].
    by destruct (verify_otp_calls identifier ys sess2 st2) as [[??]?].
Qed.

(** Wrong candidates sent while the record is live and the counter stays
    within the ceiling: each is answered "invalid otp", and the record
    stays, its counter raised by the number of calls. *)
Lemma verify_otp_calls_invalid (identifier : string)
    (guesses : list (scalar * datetime)) (sess : Session) (st : State)
    (record : OtpRecord) :
  identifier ≠ "" →
  otp_store st !! identifier = Some record →
  attempts record + Z.of_nat (length guesses) <= MAX_OTP_ATTEMPTS cfg →
  Forall (λ g, scalar_falsy g.1 = false
               ∧ g.2 <= expires_at record
               ∧ otp record ≠ strip (str g.1)) guesses →
  verify_otp_calls identifier guesses sess st
  = (replicate (length guesses) (fail "invalid otp" 400), sess,
     set_otp_store
       <[identifier := add_attempts (Z.of_nat (length guesses)) record]> st).
Proof.
  intros Hid Hget Hmax Hall. revert st record Hget Hmax Hall.
  induction guesses as [|[v t] gs IH]; intros st record Hget Hmax Hall.
  - simpl. rewrite add_attempts_0. by rewrite set_otp_store_insert_id.
  - apply Forall_cons in Hall as [(Hv & Ht & Hne) Hall]. simpl in Hv, Ht, Hne.
    cbn [verify_otp_calls HealthcareApp.verify_otp_calls].
    rewrite (hc_verify_otp_invalid identifier v sess t st record)
      by (try done; simpl length in Hmax; lia).
    rewrite (IH (set_otp_store <[identifier := add_attempts 1 record]> st)
                (add_attempts 1 record)).
    + lazy beta iota zeta. rewrite set_otp_store_compose. f_equal.
      apply set_otp_store_ext. simpl. rewrite insert_insert_eq.
      rewrite add_attempts_add. do 2 f_equal. lia.
    + simpl. apply lookup_insert_eq.
    + simpl in *. lia.
    + done.
Qed.

(** *** Patient consent *)

Lemma api_request_patient_otp_accepted (phone pid : string) (v : option scalar)
    (sess : Session) (randint : Z) (now : datetime) (st : State) :
  not_employee sess = false →
  phone ≠ "" → pid ≠ "" →
  (∃ p, p ∈ patients st ∧ patient_id p = pid) →
  api_request_patient_otp
    {| req_phone := Some phone; req_patient_id := Some pid;
       req_patient_otp := v |} sess randint now st
  = (Jsonify (JObj [("ok", JBool true);
                    ("message", JStr "OTP sent (dev mode log)")]) 200,
     send_patient_otp_dev_log cfg phone (str_int randint)
       (set_patient_otp_store
          <[phone := {| p_otp := str_int randint;
                        p_expires_at :=
                          now + timedelta_seconds (PATIENT_OTP_TTL_SECONDS cfg);
                        p_attempts := 0;
                        p_patient_id := pid |}]> st)).
Proof.
  intros Hemp Hphone Hpid (p & Hin & Hp).
  unfold HealthcareApp.api_request_patient_otp. simpl.
  rewrite Hemp, (falsy_false _ Hphone), (falsy_false _ Hpid). simpl.
  assert (existsb (λ p, bool_decide (patient_id p = pid)) (patients st) = true)
    as ->; [|done].
  apply existsb_exists. exists p. split.
  - by apply list_elem_of_In.
  - by apply bool_decide_eq_true_2.
Qed.

(** The matching candidate turns the pending request into a grant for
    the subject stored with it. *)
Lemma api_verify_patient_otp_match (phone : string) (pid : option string)
    (v : scalar) (sess : Session) (now : datetime) (st : State)
    (record : PatientOtpRecord) :
  not_employee sess = false →
  phone ≠ "" → scalar_falsy v = false →
  patient_otp_store st !! phone = Some record →
  now <= p_expires_at record →
  p_otp record = strip (str v) →
  api_verify_patient_otp
    {| req_phone := Some phone; req_patient_id := pid;
       req_patient_otp := Some v |} sess now st
  = (patient_otp_verified cfg,
     {| login := login sess;
        patient_access := Some {|
          access_patient_id := p_patient_id record;
          access_expires_at :=
            isoformat (now + timedelta_seconds (PATIENT_ACCESS_SECONDS cfg)) |} |},
     set_patient_otp_store (delete phone) st).
Proof.
  intros Hemp Hphone Hv Hget Hlive Heq.
  unfold HealthcareApp.api_verify_patient_otp. simpl.
  rewrite Hemp, (falsy_false _ Hphone), Hv. simpl. rewrite Hget.
  rewrite bool_decide_eq_false_2 by lia.
  by rewrite bool_decide_eq_true_2.
Qed.

Lemma api_verify_patient_otp_absent (phone : string) (pid : option string)
    (v : scalar) (sess : Session) (now : datetime) (st : State) :
  not_employee sess = false →
  phone ≠ "" → scalar_falsy v = false →
  patient_otp_store st !! phone = None →
  api_verify_patient_otp
    {| req_phone := Some phone; req_patient_id := pid;
       req_patient_otp := Some v |} sess now st
  = (fail "otp not requested for this phone" 400, sess, st).
Proof.
  intros Hemp Hphone Hv Hget.
  unfold HealthcareApp.api_verify_patient_otp. simpl.
  rewrite Hemp, (falsy_false _ Hphone), Hv. simpl. by rewrite Hget.
Qed.

(** The guard of [/api/get-patient] for an employee session holding a
    grant whose expiry parses. *)
Lemma api_get_patient_granted (url : string) (sess : Session) (l : Login)
    (access : Access) (expires : datetime) (patient : Patient)
    (now : datetime) (st : State) :
  login sess = Some l → user_type l = "employee" →
  find_patient url (patients st) = Some patient →
  patient_access sess = Some access →
  fromisoformat (access_expires_at access) = Some expires →
  api_get_patient url sess now st
  = if bool_decide (now > expires)
    then (access_expired, drop_patient_access sess)
    else if bool_decide (access_patient_id access = patient_id patient)
    then (patient_disclosed patient access, sess)
    else (access_mismatch, sess).
Proof.
  intros Hl Hemp Hfind Hacc Hiso. unfold HealthcareApp.api_get_patient.
  rewrite Hl, Hfind, Hemp, Hacc, Hiso. simpl.
  by repeat case_bool_decide.
Qed.

(** The same guard when the session holds no grant. *)
Lemma api_get_patient_no_grant (url : string) (sess : Session) (l : Login)
    (patient : Patient) (now : datetime) (st : State) :
  login sess = Some l → user_type l = "employee" →
  find_patient url (patients st) = Some patient →
  patient_access sess = None →
  api_get_patient url sess now st = (access_required, sess).
Proof.
  intros Hl Hemp Hfind Hacc. unfold HealthcareApp.api_get_patient.
  by rewrite Hl, Hfind, Hemp, Hacc.
Qed.

Lemma not_employee_false (sess : Session) (l : Login) :
  login sess = Some l → user_type l = "employee" → not_employee sess = false.
Proof.
  intros Hl Hemp. unfold not_employee. rewrite Hl.
  by rewrite bool_decide_eq_true_2.
Qed.

(** A pass of the cleanup loop only takes records away. *)
Lemma otp_cleanup_pass_lookup (sweep : datetime) (st : State)
    (identifier : string) (record : OtpRecord) :
  otp_store (otp_cleanup_pass sweep st) !! identifier = Some record →
  otp_store st !! identifier = Some record.
Proof.
  unfold otp_cleanup_pass. simpl. intros Hf.
  by apply map_lookup_filter_Some_1_1 in Hf.
Qed.

(** A verify that finds no record, or only one that is past its expiry,
    fails and leaves no record behind, whatever the candidate. *)
Lemma hc_verify_otp_after_expiry (identifier : string) (v : scalar)
    (sess : Session) (now : datetime) (st : State) :
  identifier ≠ "" → scalar_falsy v = false →
  (∀ record, otp_store st !! identifier = Some record →
             now > expires_at record) →
  let out := api_verify_otp
               {| req_identifier := Some identifier; req_otp := Some v |}
               sess now st in
  (out.1.1 = fail "no OTP requested for this identifier" 400
   ∨ out.1.1 = fail "too many attempts" 429
   ∨ out.1.1 = fail "otp expired" 400)
  ∧ out.1.2 = sess
  ∧ otp_store out.2 !! identifier = None.
Proof.
  intros Hid Hv Hexp out. unfold out.
  destruct (otp_store st !! identifier) as [record|] eqn:Hget.
  - specialize (Hexp record eq_refl).
    destruct (decide (attempts record + 1 > MAX_OTP_ATTEMPTS cfg)) as [Hmax|Hmax].
    + rewrite (hc_verify_otp_too_many identifier v sess now st record) by done.
      simpl. split_and!; [auto | done | apply lookup_delete_eq].
    + rewrite (hc_verify_otp_expired identifier v sess now st record)
        by (try done; lia).
      simpl. split_and!; [auto | done | apply lookup_delete_eq].
  - rewrite (hc_verify_otp_absent identifier v sess now st) by done.
    simpl. split_and!; [auto | done | done].
Qed.

End Facts.

(** The consent scenario on the sample directory: the operator asks for
    PAT0007 over +1-555-0100 and the right code is sent back. *)
Example consent_scenario :
  let ask := {| req_phone := Some "+1-555-0100";
                req_patient_id := Some "PAT0007"; req_patient_otp := None |} in
  let answer := {| req_phone := Some "+1-555-0100"; req_patient_id := None;
                   req_patient_otp := Some (SInt 483920) |} in
  let st0 := (api_request_patient_otp default_config ask Demo.operator
                483920 1000000 Demo.hc_state).2 in
  let '(_, granted, st1) :=
    api_verify_patient_otp Demo.isoformat default_config answer Demo.operator
      31000000 st0 in
  let get url := (api_get_patient Demo.fromisoformat url granted 91000000 st1).1 in
  status (get "PAT0007") = 200
  ∧ status (get "7") = 200
  ∧ get "PAT0099" = access_mismatch
  ∧ get "99" = access_mismatch
  ∧ get "PAT0500" = Jsonify (JObj [("error", JStr "Not found")]) 404.
Proof. vm_compute. by split_and!. Qed.

End HealthcareFacts.

(** ** The specification's claims, settled on the two servers *)

Module Claims.
Import Py PyFacts.

Module A := ApiApp.
Module H := HealthcareApp.
Module S := HealthcareSite.

(** C1. For every identifier holding a freshly requested OTP record, the
    first verify with the exact secret succeeds and deletes the record,
    and a second verify for the same identifier with the same secret
    fails with the not-found failure. Shown for [/api/request_otp] then
    [/api/verify_otp] of api/app.py (clock in seconds), and for
    [/api/request-otp] then [/api/verify-otp] of healthcare_app.py (clock
    in microseconds). The first verify arrives no later than the expiry
    written by the request; the second may arrive at any time. *)
Theorem otp_consumed_once
    (hmac : string → string → string) (jwt_encode : A.Claims → string → string)
    (utc_offset : Z) (acfg : A.Config) (doctor_id : option string)
    (randbelow : nat → Z) (salt jti jti' : string) (now now' now'' : Z)
    (ast : A.State)
    (hcfg : H.Config) (identifier : string) (randint : Z) (sess : H.Session)
    (t t' t'' : H.datetime) (hst : H.State) :
  strip (or_empty doctor_id) ≠ "" →
  0 < A.OTP_LENGTH acfg →
  now' <= now + A.OTP_VALIDITY_SECONDS acfg →
  identifier ≠ "" →
  is_Some (H.USERS_employee hst !! identifier) →
  1 <= H.MAX_OTP_ATTEMPTS hcfg →
  t' <= t + H.timedelta_seconds (H.OTP_TTL_SECONDS hcfg) →
  (let secret := A.generate_otp (A.OTP_LENGTH acfg) randbelow in
   let ask := {| A.req_doctor_id := doctor_id; A.req_otp := None |} in
   let exact := {| A.req_doctor_id := doctor_id; A.req_otp := Some secret |} in
   let st1 := (A.api_request_otp hmac acfg ask randbelow salt now ast).2 in
   let first := A.api_verify_otp hmac jwt_encode utc_offset acfg exact jti now' st1 in
   let second :=
     A.api_verify_otp hmac jwt_encode utc_offset acfg exact jti' now'' first.2 in
   (∃ token expires_at_ts, first.1 = A.otp_verified acfg token expires_at_ts)
   ∧ A.get_otp_record (strip (or_empty doctor_id)) first.2 = None
   ∧ second = (A.otp_not_found, first.2))
  ∧
  (let secret := H._generate_otp randint in
   let ask := {| H.req_identifier := Some identifier; H.req_otp := None |} in
   let exact := {| H.req_identifier := Some identifier;
                   H.req_otp := Some (SStr secret) |} in
   let st1 := (H.api_request_otp hcfg ask randint t hst).2 in
   let first := H.api_verify_otp hcfg exact sess t' st1 in
   let second := H.api_verify_otp hcfg exact first.1.2 t'' first.2 in
   first.1.1 = H.otp_verified
   ∧ H.otp_store first.2 !! identifier = None
   ∧ second = (H.fail "no OTP requested for this identifier" 400,
               first.1.2, first.2)).
Proof.
  intros Hid Hlen Hlive Hident [user Huser] Hmax Hhlive. split.
  - intros secret ask exact st1 first second.
    assert (strip (or_empty (A.req_otp exact)) = secret) as Hsecret
      by apply ApiFacts.strip_generate_otp.
    assert (secret ≠ "") as Hne by by apply ApiFacts.generate_otp_nonempty.
    assert (st1 = A.send_otp_demo (strip (or_empty doctor_id)) secret
              (A.store_otp hmac (strip (or_empty doctor_id)) secret
                 (A.OTP_VALIDITY_SECONDS acfg) salt now ast)) as Hst1.
    { unfold st1. by rewrite (ApiFacts.api_request_otp_accepted hmac acfg ask). }
    assert (first.2 = A.remove_otp (strip (or_empty doctor_id)) st1
            ∧ ∃ token e, first.1 = A.otp_verified acfg token e) as [Hf2 Hf1].
    { unfold first.
      rewrite (ApiFacts.api_verify_otp_match hmac jwt_encode utc_offset acfg
                 exact jti now' st1
                 {| A.h := A.hash_otp hmac secret salt; A.salt := salt;
                    A.expires_at := now + A.OTP_VALIDITY_SECONDS acfg |}).
      - simpl. eauto.
      - done.
      - by rewrite Hsecret.
      - rewrite Hst1. apply ApiFacts.get_otp_record_store.
      - done.
      - by rewrite Hsecret. }
    split_and!; [done | |].
    + rewrite Hf2. apply ApiFacts.get_otp_record_remove.
    + unfold second. apply ApiFacts.api_verify_otp_absent; [done | |].
      * by rewrite Hsecret.
      * rewrite Hf2. apply ApiFacts.get_otp_record_remove.
  - intros secret ask exact st1 first second.
    assert (scalar_falsy (SStr secret) = false) as Hv.
    { apply falsy_false, str_int_nonempty. }
    assert (st1 = (H.request_otp_for hcfg identifier randint t hst).2) as Hst1.
    { unfold st1, ask. by rewrite HealthcareFacts.hc_request_otp_accepted. }
    assert (first = (H.otp_verified,
                     H.employee_session identifier user (H.patient_access sess),
                     H.set_otp_store (delete identifier) st1)) as Hfirst.
    { unfold first, exact.
      apply (HealthcareFacts.hc_verify_otp_match hcfg identifier _ sess t' st1
               {| H.otp := str_int randint;
                  H.expires_at := t + H.timedelta_seconds (H.OTP_TTL_SECONDS hcfg);
                  H.attempts := 0 |}).
      - done.
      - done.
      - rewrite Hst1. apply HealthcareFacts.request_otp_for_record.
      - simpl. lia.
      - done.
      - unfold secret, H._generate_otp. simpl. by rewrite strip_str_int.
      - by rewrite Hst1. }
    split_and!.
    + by rewrite Hfirst.
    + rewrite Hfirst. simpl. apply lookup_delete_eq.
    + unfold second, exact.
      apply HealthcareFacts.hc_verify_otp_absent; [done | done |].
      rewrite Hfirst. simpl. apply lookup_delete_eq.
Qed.

Lemma otp_consumed_once_witness :
  (let secret := A.generate_otp 6 (λ i, Z.of_nat i + 4) in
   let ask := {| A.req_doctor_id := Some " dr-rao "; A.req_otp := None |} in
   let exact := {| A.req_doctor_id := Some " dr-rao ";
                   A.req_otp := Some secret |} in
   let st1 := (A.api_request_otp Demo.hmac A.default_config ask
                 (λ i, Z.of_nat i + 4) "5a17" 1000 Demo.api_state).2 in
   let first := A.api_verify_otp Demo.hmac Demo.jwt_encode 0 A.default_config
                  exact "a1" 1060 st1 in
   let second := A.api_verify_otp Demo.hmac Demo.jwt_encode 0 A.default_config
                   exact "c3" 1070 first.2 in
   (∃ token expires_at_ts,
      first.1 = A.otp_verified A.default_config token expires_at_ts)
   ∧ A.get_otp_record (strip (or_empty (Some " dr-rao "))) first.2 = None
   ∧ second = (A.otp_not_found, first.2))
  ∧
  (let secret := H._generate_otp 483920 in
   let ask := {| H.req_identifier := Some "emp001"; H.req_otp := None |} in
   let exact := {| H.req_identifier := Some "emp001";
                   H.req_otp := Some (SStr secret) |} in
   let st1 := (H.api_request_otp H.default_config ask 483920 5000000
                 Demo.hc_state).2 in
   let first := H.api_verify_otp H.default_config exact Demo.anonymous
                  65000000 st1 in
   let second := H.api_verify_otp H.default_config exact first.1.2
                   66000000 first.2 in
   first.1.1 = H.otp_verified
   ∧ H.otp_store first.2 !! "emp001" = None
   ∧ second = (H.fail "no OTP requested for this identifier" 400,
               first.1.2, first.2)).
Proof.
  apply (otp_consumed_once Demo.hmac Demo.jwt_encode 0 A.default_config
           (Some " dr-rao ") (λ i, Z.of_nat i + 4) "5a17" "a1" "c3"
           1000 1060 1070 Demo.api_state
           H.default_config "emp001" 483920 Demo.anonymous
           5000000 65000000 66000000 Demo.hc_state).
  - vm_compute. discriminate.
  - reflexivity.
  - vm_compute. discriminate.
  - discriminate.
  - vm_compute. eexists. reflexivity.
  - vm_compute. discriminate.
  - vm_compute. discriminate.
Defined.

(** C2. [decode_token_and_validate] accepts a token only if its
    signature verifies under [JWT_SECRET], the clock is before its [exp]
    and no revocation of its [jti] is in force. After [/api/logout] with
    an accepted token, the blacklist holds its [jti] with the token's own
    expiry and every later validation of that token before its expiry is
    turned away as "session invalidated", while another token that was
    accepted at logout time, has another [jti] and is not yet expired
    (for the same subject or not) is still accepted. Clock readings are
    seconds since the epoch, hence not negative. *)
Theorem revoked_session_rejected
    (jwt_verify_signature : string → string → option A.Claims) (cfg : A.Config)
    (header1 header2 : option string) (c1 c2 : A.Claims) (now0 now1 : Z)
    (st : A.State) :
  0 <= now0 → now0 <= now1 →
  (A.decode_token_and_validate jwt_verify_signature cfg header1 now0 st).1
    = inl c1 →
  (A.decode_token_and_validate jwt_verify_signature cfg header2 now0 st).1
    = inl c2 →
  A.jti c2 ≠ A.jti c1 →
  now1 < A.exp c1 → now1 < A.exp c2 →
  (∀ header now s payload s',
     A.decode_token_and_validate jwt_verify_signature cfg header now s
       = (inl payload, s') →
     ∃ scheme token,
       split (or_empty header) = [scheme; token]
       ∧ jwt_verify_signature token (A.JWT_SECRET cfg) = Some payload
       ∧ now < A.exp payload
       ∧ ¬ A.live_entry (A.jti payload) now s)
  ∧ (let st1 := (A.api_logout jwt_verify_signature cfg header1 now0 st).2 in
     A.session_blacklist st1 !! A.jti c1 = Some (A.exp c1)
     ∧ A.decode_token_and_validate jwt_verify_signature cfg header1 now1 st1
       = (inr (Abort 401 "session invalidated"), st1)
     ∧ (A.decode_token_and_validate jwt_verify_signature cfg header2 now1 st1).1
       = inl c2).
Proof.
  intros Hnow0 Hnow1 Hv1 Hv2 Hjti Hexp1 Hexp2. split.
  - intros header now s payload s' Hd.
    apply ApiFacts.decode_token_and_validate_accepted in Hd
      as (scheme & token & Hsplit & _ & Hsig & Hexp & _ & Hlive & _).
    by exists scheme, token.
  - destruct (A.decode_token_and_validate jwt_verify_signature cfg header1 now0 st)
      as [r1 s1] eqn:Hd1.
    destruct (A.decode_token_and_validate jwt_verify_signature cfg header2 now0 st)
      as [r2 s2] eqn:Hd2.
    simpl in Hv1, Hv2. subst r1 r2.
    pose proof (ApiFacts.decode_token_and_validate_present _ _ _ _ _ _ _ Hd1) as Hm1.
    pose proof (ApiFacts.decode_token_and_validate_present _ _ _ _ _ _ _ Hd2) as Hm2.
    rewrite (ApiFacts.api_logout_accepted _ _ _ _ _ _ _ Hd1).
    pose proof (ApiFacts.decode_token_and_validate_issued _ _ _ _ _ _ _ Hd1) as Hi1.
    pose proof (ApiFacts.decode_token_and_validate_issued _ _ _ _ _ _ _ Hd2) as Hi2.
    apply ApiFacts.decode_token_and_validate_accepted in Hd1
      as (sch1 & tok1 & Hsp1 & Hlo1 & Hsig1 & _ & Hj1 & _ & Hs1).
    apply ApiFacts.decode_token_and_validate_accepted in Hd2
      as (sch2 & tok2 & Hsp2 & Hlo2 & Hsig2 & _ & Hj2 & Hlive2 & _).
    intros st1. unfold st1. simpl. split_and!.
    + apply lookup_insert_eq.
    + apply (ApiFacts.decode_token_and_validate_revoked _ _ _ _ _ sch1 tok1 c1);
        try done; [lia |].
      exists (A.exp c1). simpl. split_and!; [apply lookup_insert_eq | lia | lia].
    + rewrite (ApiFacts.decode_token_and_validate_accepts _ _ _ _ _ sch2 tok2 c2);
        try done; [lia |].
      intros (e & He & Hz & Hlt). simpl in He.
      rewrite lookup_insert_ne in He by done.
      rewrite Hs1, ApiFacts.is_blacklisted_other in He by done.
      apply Hlive2. exists e. split_and!; [done | done | lia].
Qed.

Lemma revoked_session_rejected_witness :
  (∀ header now s payload s',
     A.decode_token_and_validate Demo.jwt_verify_signature A.default_config
       header now s = (inl payload, s') →
     ∃ scheme token,
       split (or_empty header) = [scheme; token]
       ∧ Demo.jwt_verify_signature token (A.JWT_SECRET A.default_config)
         = Some payload
       ∧ now < A.exp payload
       ∧ ¬ A.live_entry (A.jti payload) now s)
  ∧ (let st1 := (A.api_logout Demo.jwt_verify_signature A.default_config
                   (Some "Bearer jwt.a1") 1050 Demo.api_state).2 in
     A.session_blacklist st1 !! A.jti Demo.claims_a = Some (A.exp Demo.claims_a)
     ∧ A.decode_token_and_validate Demo.jwt_verify_signature A.default_config
         (Some "Bearer jwt.a1") 1100 st1
       = (inr (Abort 401 "session invalidated"), st1)
     ∧ (A.decode_token_and_validate Demo.jwt_verify_signature A.default_config
          (Some "bearer jwt.b2") 1100 st1).1
       = inl Demo.claims_b).
Proof.
  apply (revoked_session_rejected Demo.jwt_verify_signature A.default_config
           (Some "Bearer jwt.a1") (Some "bearer jwt.b2")
           Demo.claims_a Demo.claims_b 1050 1100 Demo.api_state).
  - lia.
  - lia.
  - vm_compute. reflexivity.
  - vm_compute. reflexivity.
  - vm_compute. discriminate.
  - vm_compute. reflexivity.
  - vm_compute. reflexivity.
Defined.

(** C10. In [/api/verify_otp] of api/app.py a wrong candidate is answered
    with a failure and the state, hence the stored record (which has no
    attempts field), is left as it was: for every run of wrong candidates
    sent while the record is live, of any length, the state after the run
    is the state before it, the record read back is the record stored,
    and the correct secret sent after the run, still within the TTL, is
    accepted. A candidate is wrong when it is empty or when its digest
    under the record's salt is not the stored digest, which is the test
    [hmac.compare_digest] makes; nothing is assumed of the digest
    function. *)
Theorem wrong_guesses_change_nothing
    (hmac : string → string → string) (jwt_encode : A.Claims → string → string)
    (utc_offset : Z) (cfg : A.Config) (doctor_id : option string)
    (secret : string) (guesses : list (option string * string * Z))
    (good : option string) (jti : string) (now : Z) (st : A.State)
    (rec : A.OtpRecord) :
  strip (or_empty doctor_id) ≠ "" → secret ≠ "" →
  A.get_otp_record (strip (or_empty doctor_id)) st = Some rec →
  A.h rec = A.hash_otp hmac secret (A.salt rec) →
  Forall (λ g, (strip (or_empty g.1.1) = ""
                ∨ A.hash_otp hmac (strip (or_empty g.1.1)) (A.salt rec)
                  ≠ A.hash_otp hmac secret (A.salt rec))
               ∧ g.2 <= now) guesses →
  strip (or_empty good) = secret →
  now <= A.expires_at rec →
  let after := A.verify_otp_calls hmac jwt_encode utc_offset cfg doctor_id
                 guesses st in
  after = (A.rejected (strip (or_empty doctor_id)) <$> guesses, st)
  ∧ A.get_otp_record (strip (or_empty doctor_id)) after.2 = Some rec
  ∧ Forall (λ r, r = A.otp_invalid ∨ r = A.otp_required) after.1
  ∧ ∃ token expires_at_ts,
      A.verify_otp_calls hmac jwt_encode utc_offset cfg doctor_id
        (guesses ++ [(good, jti, now)])%list st
      = ((A.rejected (strip (or_empty doctor_id)) <$> guesses)
           ++ [A.otp_verified cfg token expires_at_ts],
         A.remove_otp (strip (or_empty doctor_id)) st)%list.
Proof.
  intros Hid Hsecret Hget Hh Hall Hgood Hlive after.
  assert (after = (A.rejected (strip (or_empty doctor_id)) <$> guesses, st)) as Hrun.
  { apply (ApiFacts.verify_otp_calls_wrong _ _ _ _ _ _ _ rec); [done |].
    eapply Forall_impl; [exact Hall |]. intros [[g j] t] [Hg Ht]. simpl in *.
    split; [lia |]. by rewrite Hh. }
  split_and!.
  - done.
  - by rewrite Hrun.
  - rewrite Hrun. simpl. apply Forall_fmap, Forall_true. intros g.
    unfold compose, A.rejected. destruct (orb _ _); auto.
  - unfold after in Hrun. rewrite ApiFacts.verify_otp_calls_app, Hrun. simpl.
    rewrite (ApiFacts.api_verify_otp_match hmac jwt_encode utc_offset cfg
               {| A.req_doctor_id := doctor_id; A.req_otp := good |} jti now st rec).
    + simpl. eauto.
    + done.
    + simpl. by rewrite Hgood.
    + done.
    + done.
    + simpl. by rewrite Hgood.
Qed.

Lemma wrong_guesses_change_nothing_witness :
  let st := A.store_otp Demo.hmac "dr-rao" "456789" 120 "5a17" 1000
              Demo.api_state in
  let guesses := [(Some "000000", "j1", 1010); (None, "j2", 1020);
                  (Some "456780", "j3", 1030)] in
  let after := A.verify_otp_calls Demo.hmac Demo.jwt_encode 0 A.default_config
                 (Some "dr-rao") guesses st in
  after = (A.rejected (strip (or_empty (Some "dr-rao"))) <$> guesses, st)
  ∧ A.get_otp_record (strip (or_empty (Some "dr-rao"))) after.2
    = Some {| A.h := "5a17456789"; A.salt := "5a17"; A.expires_at := 1120 |}
  ∧ Forall (λ r, r = A.otp_invalid ∨ r = A.otp_required) after.1
  ∧ ∃ token expires_at_ts,
      A.verify_otp_calls Demo.hmac Demo.jwt_encode 0 A.default_config
        (Some "dr-rao") (guesses ++ [(Some " 456789", "j4", 1100)])%list st
      = ((A.rejected (strip (or_empty (Some "dr-rao"))) <$> guesses)
           ++ [A.otp_verified A.default_config token expires_at_ts],
         A.remove_otp (strip (or_empty (Some "dr-rao"))) st)%list.
Proof.
  intros st guesses.
  apply (wrong_guesses_change_nothing Demo.hmac Demo.jwt_encode 0
           A.default_config (Some "dr-rao") "456789" guesses (Some " 456789")
           "j4" 1100 st
           {| A.h := "5a17456789"; A.salt := "5a17"; A.expires_at := 1120 |}).
  - vm_compute. discriminate.
  - discriminate.
  - vm_compute. reflexivity.
  - reflexivity.
  - apply Forall_cons. split.
    { split; [right; vm_compute; discriminate | simpl; lia]. }
    apply Forall_cons. split.
    { split; [left; vm_compute; reflexivity | simpl; lia]. }
    apply Forall_cons. split.
    { split; [right; vm_compute; discriminate | simpl; lia]. }
    constructor.
  - vm_compute. reflexivity.
  - vm_compute. discriminate.
Defined.

(** C3. After the consent OTP that an employee session requested for the
    patient [a] is verified, the session holds a grant for [a]'s
    ['patient_id'], and while the grant is live [/api/get-patient]
    answers that session as follows. The request for [a]'s ['patient_id']
    is answered 200 with a record of the directory that carries this
    ['patient_id']. The request for the ['patient_id'] of any other
    patient [b] of the directory is answered 403 "access_mismatch", where
    the same request is answered 401 "access_required" without the grant
    and 401 "access_expired" after its expiry: three different failures.
    And whatever is asked for, under ['patient_id'] or under ['id'], an
    answer 200 carries a record whose ['patient_id'] is [a]'s.

    The directory is one in which no ['id'] prints as a ['patient_id'],
    as in every directory [generate_patient_data] makes (its
    ['patient_id'] starts with "PAT"); [/api/get-patient] looks a record
    up under either name and takes the first hit. *)
Theorem consent_grant_scoped
    (isoformat : H.datetime → string)
    (fromisoformat : string → option H.datetime)
    (cfg : H.Config) (sess : H.Session) (l : H.Login) (phone : string)
    (a : H.Patient) (randint : Z) (t0 t1 t2 : H.datetime) (st : H.State) :
  (∀ t, fromisoformat (isoformat t) = Some t) →
  H.login sess = Some l → H.user_type l = "employee" →
  phone ≠ "" → H.patient_id a ≠ "" →
  a ∈ H.patients st →
  (∀ p q, p ∈ H.patients st → q ∈ H.patients st →
          str_int (H.id p) ≠ H.patient_id q) →
  t1 <= t0 + H.timedelta_seconds (H.PATIENT_OTP_TTL_SECONDS cfg) →
  t2 <= t1 + H.timedelta_seconds (H.PATIENT_ACCESS_SECONDS cfg) →
  let subject := H.patient_id a in
  let ask := {| H.req_phone := Some phone; H.req_patient_id := Some subject;
                H.req_patient_otp := None |} in
  let answer := {| H.req_phone := Some phone; H.req_patient_id := None;
                   H.req_patient_otp := Some (SStr (H._gen_otp randint)) |} in
  let st0 := (H.api_request_patient_otp cfg ask sess randint t0 st).2 in
  let verified := H.api_verify_patient_otp isoformat cfg answer sess t1 st0 in
  let granted := verified.1.2 in
  let st1 := verified.2 in
  let access := {| H.access_patient_id := subject;
                   H.access_expires_at :=
                     isoformat (t1 + H.timedelta_seconds
                                       (H.PATIENT_ACCESS_SECONDS cfg)) |} in
  let get url s t := H.api_get_patient fromisoformat url s t st1 in
  verified.1.1 = H.patient_otp_verified cfg
  ∧ H.patient_access granted = Some access
  ∧ (∃ p, p ∈ H.patients st ∧ H.patient_id p = subject
          ∧ get subject granted t2 = (H.patient_disclosed p access, granted))
  ∧ (∀ b, b ∈ H.patients st → H.patient_id b ≠ subject →
          get (H.patient_id b) granted t2 = (H.access_mismatch, granted)
          ∧ get (H.patient_id b) (H.drop_patient_access granted) t2
            = (H.access_required, H.drop_patient_access granted)
          ∧ ∀ t3, t3 > t1 + H.timedelta_seconds (H.PATIENT_ACCESS_SECONDS cfg) →
                  get (H.patient_id b) granted t3
                  = (H.access_expired, H.drop_patient_access granted))
  ∧ (∀ url r s, get url granted t2 = (r, s) → status r = 200 →
                ∃ p, p ∈ H.patients st ∧ H.patient_id p = subject
                     ∧ r = H.patient_disclosed p access)
  ∧ H.access_mismatch ≠ H.access_required
  ∧ H.access_mismatch ≠ H.access_expired
  ∧ H.access_required ≠ H.access_expired.
Proof.
  intros Hiso Hl Hemp Hphone Hsubject Ha Hdir Ht1 Ht2
         subject ask answer st0 verified granted st1 access get.
  pose proof (HealthcareFacts.not_employee_false sess l Hl Hemp) as Hne.
  assert (verified = (H.patient_otp_verified cfg,
                      {| H.login := H.login sess;
                         H.patient_access := Some access |},
                      H.set_patient_otp_store (delete phone) st0)) as Hver.
  { unfold verified, answer, st0, ask.
    rewrite (HealthcareFacts.api_request_patient_otp_accepted cfg phone subject)
      by eauto.
    apply (HealthcareFacts.api_verify_patient_otp_match isoformat cfg phone None
             _ sess t1 _
             {| H.p_otp := str_int randint;
                H.p_expires_at :=
                  t0 + H.timedelta_seconds (H.PATIENT_OTP_TTL_SECONDS cfg);
                H.p_attempts := 0; H.p_patient_id := subject |}).
    - done.
    - done.
    - apply falsy_false, str_int_nonempty.
    - simpl. apply lookup_insert_eq.
    - done.
    - unfold H._gen_otp. simpl. by rewrite strip_str_int. }
  assert (H.login granted = Some l) as Hgl by (unfold granted; by rewrite Hver).
  assert (H.patient_access granted = Some access) as Hga
    by (unfold granted; by rewrite Hver).
  assert (H.patients st1 = H.patients st) as Hps.
  { unfold st1. rewrite Hver. unfold st0, ask.
    by rewrite (HealthcareFacts.api_request_patient_otp_accepted cfg phone subject)
      by eauto. }
  assert (∀ b, b ∈ H.patients st →
               ∃ p, H.find_patient (H.patient_id b) (H.patients st1) = Some p
                    ∧ p ∈ H.patients st ∧ H.patient_id p = H.patient_id b)
    as Hfind.
  { intros b Hb. rewrite Hps.
    apply HealthcareFacts.find_patient_by_patient_id; [done |].
    intros p Hp. by apply Hdir. }
  split_and!.
  - by rewrite Hver.
  - done.
  - destruct (Hfind a Ha) as (p & Hf & Hin & Hp). exists p. split_and!; [done.. |].
    unfold get.
    rewrite (HealthcareFacts.api_get_patient_granted fromisoformat subject granted
               l access _ p t2 st1 Hgl Hemp Hf Hga (Hiso _)).
    rewrite bool_decide_eq_false_2 by lia.
    by rewrite bool_decide_eq_true_2.
  - intros b Hb Hother. destruct (Hfind b Hb) as (p & Hf & Hin & Hp).
    unfold get. split_and!.
    + rewrite (HealthcareFacts.api_get_patient_granted fromisoformat _ granted
                 l access _ p t2 st1 Hgl Hemp Hf Hga (Hiso _)).
      rewrite bool_decide_eq_false_2 by lia.
      rewrite bool_decide_eq_false_2; [done |]. simpl. by rewrite Hp.
    + by apply (HealthcareFacts.api_get_patient_no_grant fromisoformat _ _ l p).
    + intros t3 Ht3.
      rewrite (HealthcareFacts.api_get_patient_granted fromisoformat _ granted
                 l access _ p t3 st1 Hgl Hemp Hf Hga (Hiso _)).
      by rewrite bool_decide_eq_true_2.
  - intros url r s Hget Hstatus. unfold get in Hget.
    destruct (H.find_patient url (H.patients st1)) as [p|] eqn:Hf.
    + rewrite (HealthcareFacts.api_get_patient_granted fromisoformat url granted
                 l access _ p t2 st1 Hgl Hemp Hf Hga (Hiso _)) in Hget.
      rewrite bool_decide_eq_false_2 in Hget by lia.
      case_bool_decide as Hsame.
      * injection Hget as <- <-. exists p. split_and!; [| done | done].
        rewrite <- Hps. by apply (HealthcareFacts.find_patient_elem url).
      * injection Hget as <- <-. discriminate Hstatus.
    + unfold H.api_get_patient in Hget. rewrite Hgl, Hf in Hget.
      injection Hget as <- <-. discriminate Hstatus.
  - discriminate.
  - discriminate.
  - discriminate.
Qed.

Lemma consent_grant_scoped_witness :
  let subject := H.patient_id Demo.pat7 in
  let ask := {| H.req_phone := Some "+1-555-0100";
                H.req_patient_id := Some subject;
                H.req_patient_otp := None |} in
  let answer := {| H.req_phone := Some "+1-555-0100"; H.req_patient_id := None;
                   H.req_patient_otp := Some (SStr (H._gen_otp 483920)) |} in
  let st0 := (H.api_request_patient_otp H.default_config ask Demo.operator
                483920 1000000 Demo.hc_state).2 in
  let verified := H.api_verify_patient_otp Demo.isoformat H.default_config
                    answer Demo.operator 31000000 st0 in
  let granted := verified.1.2 in
  let st1 := verified.2 in
  let access := {| H.access_patient_id := subject;
                   H.access_expires_at :=
                     Demo.isoformat
                       (31000000 + H.timedelta_seconds
                                     (H.PATIENT_ACCESS_SECONDS H.default_config)) |} in
  let get url s t := H.api_get_patient Demo.fromisoformat url s t st1 in
  verified.1.1 = H.patient_otp_verified H.default_config
  ∧ H.patient_access granted = Some access
  ∧ (∃ p, p ∈ H.patients Demo.hc_state ∧ H.patient_id p = subject
          ∧ get subject granted 91000000
            = (H.patient_disclosed p access, granted))
  ∧ (∀ b, b ∈ H.patients Demo.hc_state → H.patient_id b ≠ subject →
          get (H.patient_id b) granted 91000000 = (H.access_mismatch, granted)
          ∧ get (H.patient_id b) (H.drop_patient_access granted) 91000000
            = (H.access_required, H.drop_patient_access granted)
          ∧ ∀ t3, t3 > 31000000 + H.timedelta_seconds
                                    (H.PATIENT_ACCESS_SECONDS H.default_config) →
                  get (H.patient_id b) granted t3
                  = (H.access_expired, H.drop_patient_access granted))
  ∧ (∀ url r s, get url granted 91000000 = (r, s) → status r = 200 →
                ∃ p, p ∈ H.patients Demo.hc_state ∧ H.patient_id p = subject
                     ∧ r = H.patient_disclosed p access)
  ∧ H.access_mismatch ≠ H.access_required
  ∧ H.access_mismatch ≠ H.access_expired
  ∧ H.access_required ≠ H.access_expired.
Proof.
  apply (consent_grant_scoped Demo.isoformat Demo.fromisoformat H.default_config
           Demo.operator
           {| H.user_type := "employee"; H.username := "emp001";
              H.user_data := Demo.dr_smith |}
           "+1-555-0100" Demo.pat7 483920 1000000 31000000 91000000
           Demo.hc_state).
  - exact DemoFacts.fromisoformat_isoformat.
  - reflexivity.
  - reflexivity.
  - discriminate.
  - discriminate.
  - apply list_elem_of_here.
  - intros p q Hp Hq. simpl in Hp, Hq.
    apply elem_of_cons in Hp as [-> | Hp];
      [|apply elem_of_cons in Hp as [-> | Hp]; [|by apply elem_of_nil in Hp]];
      (apply elem_of_cons in Hq as [-> | Hq];
       [|apply elem_of_cons in Hq as [-> | Hq]; [|by apply elem_of_nil in Hq]]);
      vm_compute; discriminate.
  - vm_compute. discriminate.
  - vm_compute. discriminate.
Defined.

(** C4, as the code has it. In [/api/verify-otp] of healthcare_app.py the
    counter is raised at every verify and the ceiling is crossed only when
    it exceeds [MAX_OTP_ATTEMPTS]: on a fresh record any N wrong candidates
    with N at most [MAX_OTP_ATTEMPTS], sent while the record is live, are
    each answered "invalid otp" and leave the record in place with its
    counter at N; with N below the ceiling the right secret is then still
    accepted; with N equal to the ceiling the next verify, whatever its
    candidate, is answered "too many attempts" and removes the record, and
    the verify after that finds no record. *)
Theorem attempt_ceiling_is_inclusive
    (cfg : H.Config) (identifier : string) (guesses : list (scalar * H.datetime))
    (extra later good : scalar * H.datetime) (user : H.UserData)
    (sess : H.Session) (st : H.State) (record : H.OtpRecord) :
  identifier ≠ "" →
  H.otp_store st !! identifier = Some record →
  H.attempts record = 0 →
  Z.of_nat (length guesses) <= H.MAX_OTP_ATTEMPTS cfg →
  Forall (λ g, scalar_falsy g.1 = false
               ∧ g.2 <= H.expires_at record
               ∧ H.otp record ≠ strip (str g.1)) guesses →
  scalar_falsy extra.1 = false → scalar_falsy later.1 = false →
  scalar_falsy good.1 = false → good.2 <= H.expires_at record →
  H.otp record = strip (str good.1) →
  H.USERS_employee st !! identifier = Some user →
  H.verify_otp_calls cfg identifier guesses sess st
  = (replicate (length guesses) (H.fail "invalid otp" 400), sess,
     H.set_otp_store
       <[identifier := H.add_attempts (Z.of_nat (length guesses)) record]> st)
  ∧ (Z.of_nat (length guesses) < H.MAX_OTP_ATTEMPTS cfg →
     H.verify_otp_calls cfg identifier (guesses ++ [good])%list sess st
     = ((replicate (length guesses) (H.fail "invalid otp" 400)
           ++ [H.otp_verified])%list,
        H.employee_session identifier user (H.patient_access sess),
        H.set_otp_store (delete identifier) st))
  ∧ (Z.of_nat (length guesses) = H.MAX_OTP_ATTEMPTS cfg →
     H.verify_otp_calls cfg identifier (guesses ++ [extra; later])%list sess st
     = ((replicate (length guesses) (H.fail "invalid otp" 400)
           ++ [H.fail "too many attempts" 429;
               H.fail "no OTP requested for this identifier" 400])%list,
        sess, H.set_otp_store (delete identifier) st)).
Proof.
  intros Hid Hget Hzero Hlen Hall Hextra Hlater Hgood Hgoodt Hgoodotp Huser.
  assert (H.verify_otp_calls cfg identifier guesses sess st
          = (replicate (length guesses) (H.fail "invalid otp" 400), sess,
             H.set_otp_store
               <[identifier := H.add_attempts (Z.of_nat (length guesses)) record]>
               st)) as Hrun.
  { apply HealthcareFacts.verify_otp_calls_invalid; [done | done | lia | done]. }
  split_and!; [done | |].
  - intros Hlt. rewrite HealthcareFacts.hc_verify_otp_calls_app, Hrun.
    destruct good as [g tg]. cbn [H.verify_otp_calls]. simpl in Hgood, Hgoodt, Hgoodotp.
    rewrite (HealthcareFacts.hc_verify_otp_match cfg identifier g sess tg _
               (H.add_attempts (Z.of_nat (length guesses)) record) user).
    + lazy beta iota zeta. f_equal.
      rewrite HealthcareFacts.set_otp_store_compose.
      apply HealthcareFacts.set_otp_store_ext. simpl. apply delete_insert_eq.
    + done.
    + done.
    + simpl. apply lookup_insert_eq.
    + simpl. lia.
    + done.
    + done.
    + done.
  - intros Heq. rewrite HealthcareFacts.hc_verify_otp_calls_app, Hrun.
    destruct extra as [e te], later as [w tw]. cbn [H.verify_otp_calls].
    simpl in Hextra, Hlater.
    rewrite (HealthcareFacts.hc_verify_otp_too_many cfg identifier e sess te _
               (H.add_attempts (Z.of_nat (length guesses)) record)).
    + rewrite HealthcareFacts.set_otp_store_compose.
      rewrite (HealthcareFacts.hc_verify_otp_absent cfg identifier w sess tw).
      * lazy beta iota zeta. f_equal.
        apply HealthcareFacts.set_otp_store_ext. simpl. apply delete_insert_eq.
      * done.
      * done.
      * simpl. rewrite delete_insert_eq. apply lookup_delete_eq.
    + done.
    + done.
    + simpl. apply lookup_insert_eq.
    + simpl. lia.
Qed.

Lemma attempt_ceiling_is_inclusive_witness :
  let st := (H.request_otp_for H.default_config "emp001" 483920 0
               Demo.hc_state).2 in
  let guesses := replicate 5 (SStr "000000", 1000000) in
  let good := (SInt 483920, 3000000) in
  H.verify_otp_calls H.default_config "emp001" guesses Demo.anonymous st
  = (replicate (length guesses) (H.fail "invalid otp" 400), Demo.anonymous,
     H.set_otp_store
       <["emp001" := H.add_attempts (Z.of_nat (length guesses))
                       {| H.otp := "483920"; H.expires_at := 300000000;
                          H.attempts := 0 |}]> st)
  ∧ (Z.of_nat (length guesses) < H.MAX_OTP_ATTEMPTS H.default_config →
     H.verify_otp_calls H.default_config "emp001" (guesses ++ [good])%list
       Demo.anonymous st
     = ((replicate (length guesses) (H.fail "invalid otp" 400)
           ++ [H.otp_verified])%list,
        H.employee_session "emp001" Demo.dr_smith
          (H.patient_access Demo.anonymous),
        H.set_otp_store (delete "emp001") st))
  ∧ (Z.of_nat (length guesses) = H.MAX_OTP_ATTEMPTS H.default_config →
     H.verify_otp_calls H.default_config "emp001"
       (guesses ++ [(SStr "483920", 2000000); (SStr "483920", 2000001)])%list
       Demo.anonymous st
     = ((replicate (length guesses) (H.fail "invalid otp" 400)
           ++ [H.fail "too many attempts" 429;
               H.fail "no OTP requested for this identifier" 400])%list,
        Demo.anonymous, H.set_otp_store (delete "emp001") st)).
Proof.
  intros st guesses good.
  apply (attempt_ceiling_is_inclusive H.default_config "emp001" guesses
           (SStr "483920", 2000000) (SStr "483920", 2000001) good
           Demo.dr_smith Demo.anonymous st
           {| H.otp := "483920"; H.expires_at := 300000000; H.attempts := 0 |}).
  - discriminate.
  - vm_compute. reflexivity.
  - reflexivity.
  - vm_compute. discriminate.
  - repeat constructor; vm_compute; discriminate.
  - reflexivity.
  - reflexivity.
  - reflexivity.
  - vm_compute. discriminate.
  - vm_compute. reflexivity.
  - vm_compute. reflexivity.
Defined.

(** C4 as stated fails under the default ceiling of five: the fifth wrong
    candidate on a fresh record is answered "invalid otp", not "too many
    attempts", and the record is still there after it. *)
Lemma max_th_wrong_attempt_is_invalid :
  let st := (H.request_otp_for H.default_config "emp001" 483920 0
               Demo.hc_state).2 in
  let out := H.verify_otp_calls H.default_config "emp001"
               (replicate 5 (SStr "000000", 1000000)) Demo.anonymous st in
  H.MAX_OTP_ATTEMPTS H.default_config = 5
  ∧ out.1.1 !! 4%nat = Some (H.fail "invalid otp" 400)
  ∧ out.1.1 !! 4%nat ≠ Some (H.fail "too many attempts" 429)
  ∧ is_Some (H.otp_store out.2 !! "emp001").
Proof.
  vm_compute. split_and!; [reflexivity | reflexivity | discriminate |].
  eexists. reflexivity.
Qed.

(** C5, as the code has it. A verify strictly after the record's expiry
    fails and deletes the record, so the next verify finds none; but the
    failure it returns is "otp expired", which has the status of the
    not-found failure and another message. In healthcare_app.py the
    attempt counter is read first, so the expired record is answered
    "too many attempts" when this verify takes the counter over the
    ceiling, and "otp expired" otherwise. *)
Theorem expired_otp_deleted_and_reported
    (hmac : string → string → string) (jwt_encode : A.Claims → string → string)
    (utc_offset : Z) (acfg : A.Config) (data : A.OtpRequest)
    (jti jti' : string) (now now' : Z) (ast : A.State) (arec : A.OtpRecord)
    (hcfg : H.Config) (identifier : string) (v : scalar) (sess : H.Session)
    (t t' : H.datetime) (hst : H.State) (hrec : H.OtpRecord) :
  strip (or_empty (A.req_doctor_id data)) ≠ "" →
  strip (or_empty (A.req_otp data)) ≠ "" →
  A.get_otp_record (strip (or_empty (A.req_doctor_id data))) ast = Some arec →
  now > A.expires_at arec →
  identifier ≠ "" → scalar_falsy v = false →
  H.otp_store hst !! identifier = Some hrec →
  t > H.expires_at hrec →
  (let first := A.api_verify_otp hmac jwt_encode utc_offset acfg data jti now ast in
   first = (A.otp_expired,
            A.remove_otp (strip (or_empty (A.req_doctor_id data))) ast)
   ∧ A.api_verify_otp hmac jwt_encode utc_offset acfg data jti' now' first.2
     = (A.otp_not_found, first.2)
   ∧ A.otp_expired ≠ A.otp_not_found
   ∧ status A.otp_expired = status A.otp_not_found)
  ∧
  (let req := {| H.req_identifier := Some identifier; H.req_otp := Some v |} in
   let first := H.api_verify_otp hcfg req sess t hst in
   first = (if bool_decide (H.attempts hrec + 1 > H.MAX_OTP_ATTEMPTS hcfg)
            then H.fail "too many attempts" 429
            else H.fail "otp expired" 400,
            sess, H.set_otp_store (delete identifier) hst)
   ∧ H.api_verify_otp hcfg req sess t' first.2
     = (H.fail "no OTP requested for this identifier" 400, sess, first.2)
   ∧ H.fail "otp expired" 400 ≠ H.fail "no OTP requested for this identifier" 400).
Proof.
  intros Hid Hotp Hget Hlate Hident Hv Hhget Hhlate. split.
  - intros first.
    assert (first = (A.otp_expired,
                     A.remove_otp (strip (or_empty (A.req_doctor_id data))) ast))
      as Hfirst by by apply (ApiFacts.api_verify_otp_expired _ _ _ _ _ _ _ _ arec).
    split_and!; [done | | discriminate | reflexivity].
    rewrite Hfirst. simpl.
    apply ApiFacts.api_verify_otp_absent; [done | done |].
    apply ApiFacts.get_otp_record_remove.
  - intros req first.
    assert (first = (if bool_decide (H.attempts hrec + 1 > H.MAX_OTP_ATTEMPTS hcfg)
                     then H.fail "too many attempts" 429
                     else H.fail "otp expired" 400,
                     sess, H.set_otp_store (delete identifier) hst)) as Hfirst.
    { unfold first, req. case_bool_decide.
      - by apply (HealthcareFacts.hc_verify_otp_too_many _ _ _ _ _ _ hrec).
      - apply (HealthcareFacts.hc_verify_otp_expired _ _ _ _ _ _ hrec);
          [done | done | done | lia | done]. }
    split_and!; [done | | discriminate].
    rewrite Hfirst. simpl.
    apply HealthcareFacts.hc_verify_otp_absent; [done | done |].
    simpl. apply lookup_delete_eq.
Qed.

Lemma expired_otp_deleted_and_reported_witness :
  let data := {| A.req_doctor_id := Some "dr-rao"; A.req_otp := Some "456789" |} in
  let ast := A.store_otp Demo.hmac "dr-rao" "456789" 120 "5a17" 1000
               Demo.api_state in
  let hst := (H.request_otp_for H.default_config "emp001" 483920 0
                Demo.hc_state).2 in
  (let first := A.api_verify_otp Demo.hmac Demo.jwt_encode 0 A.default_config
                  data "j1" 1121 ast in
   first = (A.otp_expired,
            A.remove_otp (strip (or_empty (A.req_doctor_id data))) ast)
   ∧ A.api_verify_otp Demo.hmac Demo.jwt_encode 0 A.default_config
       data "j2" 1122 first.2
     = (A.otp_not_found, first.2)
   ∧ A.otp_expired ≠ A.otp_not_found
   ∧ status A.otp_expired = status A.otp_not_found)
  ∧
  (let req := {| H.req_identifier := Some "emp001";
                 H.req_otp := Some (SStr "483920") |} in
   let first := H.api_verify_otp H.default_config req Demo.anonymous
                  300000001 hst in
   first = (if bool_decide (0 + 1 > H.MAX_OTP_ATTEMPTS H.default_config)
            then H.fail "too many attempts" 429
            else H.fail "otp expired" 400,
            Demo.anonymous, H.set_otp_store (delete "emp001") hst)
   ∧ H.api_verify_otp H.default_config req Demo.anonymous 300000002 first.2
     = (H.fail "no OTP requested for this identifier" 400, Demo.anonymous,
        first.2)
   ∧ H.fail "otp expired" 400 ≠ H.fail "no OTP requested for this identifier" 400).
Proof.
  intros data ast hst.
  apply (expired_otp_deleted_and_reported Demo.hmac Demo.jwt_encode 0
           A.default_config data "j1" "j2" 1121 1122 ast
           {| A.h := "5a17456789"; A.salt := "5a17"; A.expires_at := 1120 |}
           H.default_config "emp001" (SStr "483920") Demo.anonymous
           300000001 300000002 hst
           {| H.otp := "483920"; H.expires_at := 300000000; H.attempts := 0 |}).
  - vm_compute. discriminate.
  - vm_compute. discriminate.
  - vm_compute. reflexivity.
  - vm_compute. reflexivity.
  - discriminate.
  - reflexivity.
  - vm_compute. reflexivity.
  - vm_compute. reflexivity.
Defined.

(** C5 as stated fails: one second after the expiry of a stored record,
    [/api/verify_otp] answers "otp expired", while for an identifier that
    has no record it answers "no valid otp found ..."; the two failures
    differ. *)
Lemma expired_differs_from_absent :
  let data := {| A.req_doctor_id := Some "dr-rao"; A.req_otp := Some "456789" |} in
  let pending := A.store_otp Demo.hmac "dr-rao" "456789" 120 "5a17" 1000
                   Demo.api_state in
  let expired := (A.api_verify_otp Demo.hmac Demo.jwt_encode 0 A.default_config
                    data "j1" 1121 pending).1 in
  let absent := (A.api_verify_otp Demo.hmac Demo.jwt_encode 0 A.default_config
                   data "j1" 1121 Demo.api_state).1 in
  expired = A.otp_expired ∧ absent = A.otp_not_found ∧ expired ≠ absent.
Proof. vm_compute. split_and!; [reflexivity | reflexivity | discriminate]. Qed.

(** C6, as the code has it. [/api/request_otp] of api/app.py stores the
    digest of the secret under the salt drawn for this record, the salt
    and the expiry, and nothing else: the record depends on the secret
    only through that digest. Its response is the same whatever secret
    and salt are drawn, and the secret goes to the log line handed to the
    delivery stand-in. [/api/request-otp] of healthcare_app.py answers
    without the secret as well, but the record it stores holds the secret
    itself. *)
Theorem request_otp_storage_and_response
    (hmac : string → string → string) (acfg : A.Config)
    (doctor_id : option string) (randbelow : nat → Z) (salt : string) (now : Z)
    (ast : A.State)
    (hcfg : H.Config) (identifier : string) (randint : Z) (t : H.datetime)
    (hst : H.State) :
  strip (or_empty doctor_id) ≠ "" →
  identifier ≠ "" →
  is_Some (H.USERS_employee hst !! identifier) →
  (let id := strip (or_empty doctor_id) in
   let secret := A.generate_otp (A.OTP_LENGTH acfg) randbelow in
   let ask := {| A.req_doctor_id := doctor_id; A.req_otp := None |} in
   let out := A.api_request_otp hmac acfg ask randbelow salt now ast in
   A.get_otp_record id out.2
   = Some {| A.h := hmac salt secret; A.salt := salt;
             A.expires_at := now + A.OTP_VALIDITY_SECONDS acfg |}
   ∧ (∀ other ttl, hmac salt other = hmac salt secret →
        A.store_otp hmac id other ttl salt now ast
        = A.store_otp hmac id secret ttl salt now ast)
   ∧ (∀ randbelow' salt',
        (A.api_request_otp hmac acfg ask randbelow' salt' now ast).1 = out.1)
   ∧ out.1 = A.otp_requested acfg
   ∧ A.logged out.2
     = ("[DEMO OTP] OTP for " +:+ id +:+ " is: " +:+ secret) :: A.logged ast)
  ∧
  (let ask := {| H.req_identifier := Some identifier; H.req_otp := None |} in
   let out := H.api_request_otp hcfg ask randint t hst in
   H.otp_store out.2 !! identifier
   = Some {| H.otp := H._generate_otp randint;
             H.expires_at := t + H.timedelta_seconds (H.OTP_TTL_SECONDS hcfg);
             H.attempts := 0 |}
   ∧ (∀ randint', (H.api_request_otp hcfg ask randint' t hst).1 = out.1)
   ∧ out.1 = H.otp_generated
   ∧ ∃ line, H.console out.2 = line :: H.console hst).
Proof.
  intros Hid Hident Huser. split.
  - intros id secret ask out.
    assert (∀ rb sl, A.api_request_otp hmac acfg ask rb sl now ast
                     = (A.otp_requested acfg,
                        A.send_otp_demo id (A.generate_otp (A.OTP_LENGTH acfg) rb)
                          (A.store_otp hmac id
                             (A.generate_otp (A.OTP_LENGTH acfg) rb)
                             (A.OTP_VALIDITY_SECONDS acfg) sl now ast))) as Hout.
    { intros rb sl. by apply (ApiFacts.api_request_otp_accepted hmac acfg ask). }
    unfold out. rewrite Hout. simpl. split_and!.
    + apply lookup_insert_eq.
    + intros other ttl Heq. unfold A.store_otp, A.hash_otp. by rewrite Heq.
    + intros rb sl. by rewrite Hout.
    + done.
    + done.
  - intros ask out.
    assert (∀ r, H.api_request_otp hcfg ask r t hst
                 = (H.otp_generated, (H.request_otp_for hcfg identifier r t hst).2))
      as Hout.
    { intros r. by apply HealthcareFacts.hc_request_otp_accepted. }
    unfold out. rewrite Hout. split_and!.
    + apply HealthcareFacts.request_otp_for_record.
    + intros r. by rewrite Hout.
    + done.
    + simpl. eauto.
Qed.

Lemma request_otp_storage_and_response_witness :
  (let id := strip (or_empty (Some " dr-rao ")) in
   let secret := A.generate_otp (A.OTP_LENGTH A.default_config)
                   (λ i, Z.of_nat i + 4) in
   let ask := {| A.req_doctor_id := Some " dr-rao "; A.req_otp := None |} in
   let out := A.api_request_otp Demo.hmac A.default_config ask
                (λ i, Z.of_nat i + 4) "5a17" 1000 Demo.api_state in
   A.get_otp_record id out.2
   = Some {| A.h := Demo.hmac "5a17" secret; A.salt := "5a17";
             A.expires_at := 1000 + A.OTP_VALIDITY_SECONDS A.default_config |}
   ∧ (∀ other ttl, Demo.hmac "5a17" other = Demo.hmac "5a17" secret →
        A.store_otp Demo.hmac id other ttl "5a17" 1000 Demo.api_state
        = A.store_otp Demo.hmac id secret ttl "5a17" 1000 Demo.api_state)
   ∧ (∀ randbelow' salt',
        (A.api_request_otp Demo.hmac A.default_config ask randbelow' salt'
           1000 Demo.api_state).1 = out.1)
   ∧ out.1 = A.otp_requested A.default_config
   ∧ A.logged out.2
     = ("[DEMO OTP] OTP for " +:+ id +:+ " is: " +:+ secret)
         :: A.logged Demo.api_state)
  ∧
  (let ask := {| H.req_identifier := Some "emp001"; H.req_otp := None |} in
   let out := H.api_request_otp H.default_config ask 483920 0 Demo.hc_state in
   H.otp_store out.2 !! "emp001"
   = Some {| H.otp := H._generate_otp 483920;
             H.expires_at :=
               0 + H.timedelta_seconds (H.OTP_TTL_SECONDS H.default_config);
             H.attempts := 0 |}
   ∧ (∀ randint',
        (H.api_request_otp H.default_config ask randint' 0 Demo.hc_state).1
        = out.1)
   ∧ out.1 = H.otp_generated
   ∧ ∃ line, H.console out.2 = line :: H.console Demo.hc_state).
Proof.
  apply (request_otp_storage_and_response Demo.hmac A.default_config
           (Some " dr-rao ") (λ i, Z.of_nat i + 4) "5a17" 1000 Demo.api_state
           H.default_config "emp001" 483920 0 Demo.hc_state).
  - vm_compute. discriminate.
  - discriminate.
  - vm_compute. eexists. reflexivity.
Defined.

(** C6 as stated fails in healthcare_app.py: after [/api/request-otp] for
    "emp001" with the draw 483920, the stored record's [otp] field is the
    secret "483920" itself. *)
Lemma raw_secret_stored :
  let ask := {| H.req_identifier := Some "emp001"; H.req_otp := None |} in
  let out := H.api_request_otp H.default_config ask 483920 0 Demo.hc_state in
  H._generate_otp 483920 = "483920"
  ∧ H.otp <$> H.otp_store out.2 !! "emp001" = Some "483920".
Proof. vm_compute. split; reflexivity. Qed.

(** C7, as the code has it. The in-process [get_otp_record] hands back
    whatever is stored, also after the expiry; the check is made by its
    caller: [/api/verify_otp], called strictly after the expiry, answers
    "otp expired" and removes the record, with no cleanup involved (api/app.py
    has none). [is_blacklisted] does check on read: from the expiry of an
    entry on it answers no. In healthcare_app.py, where a cleanup loop
    exists, a verify that comes after the expiry of whatever record is
    stored fails and leaves no record, whether or not a pass of the loop
    ran before it. *)
Theorem expiry_checked_by_reader
    (hmac : string → string → string) (jwt_encode : A.Claims → string → string)
    (utc_offset : Z) (cfg : A.Config) (data : A.OtpRequest)
    (otp salt jti : string) (ttl t0 now : Z) (st : A.State)
    (hcfg : H.Config) (identifier : string) (v : scalar) (sess : H.Session)
    (sweep t : H.datetime) (hst : H.State) :
  strip (or_empty (A.req_doctor_id data)) ≠ "" →
  strip (or_empty (A.req_otp data)) ≠ "" →
  now > t0 + ttl →
  identifier ≠ "" → scalar_falsy v = false →
  (∀ record, H.otp_store hst !! identifier = Some record →
             t > H.expires_at record) →
  (let id := strip (or_empty (A.req_doctor_id data)) in
   let st1 := A.store_otp hmac id otp ttl salt t0 st in
   A.get_otp_record id st1
   = Some {| A.h := hmac salt otp; A.salt := salt; A.expires_at := t0 + ttl |}
   ∧ A.api_verify_otp hmac jwt_encode utc_offset cfg data jti now st1
     = (A.otp_expired, A.remove_otp id st1)
   ∧ A.get_otp_record id (A.remove_otp id st1) = None)
  ∧ (∀ key expiry clock s,
       A.session_blacklist s !! key = Some expiry → clock >= expiry →
       (A.is_blacklisted key clock s).1 = false)
  ∧ (∀ swept, swept = hst ∨ swept = H.otp_cleanup_pass sweep hst →
       let req := {| H.req_identifier := Some identifier; H.req_otp := Some v |} in
       let out := H.api_verify_otp hcfg req sess t swept in
       (out.1.1 = H.fail "no OTP requested for this identifier" 400
        ∨ out.1.1 = H.fail "too many attempts" 429
        ∨ out.1.1 = H.fail "otp expired" 400)
       ∧ H.otp_store out.2 !! identifier = None).
Proof.
  intros Hid Hotp Hlate Hident Hv Hexp. split_and!.
  - intros id st1.
    assert (A.get_otp_record id st1
            = Some {| A.h := hmac salt otp; A.salt := salt;
                      A.expires_at := t0 + ttl |}) as Hget
      by apply ApiFacts.get_otp_record_store.
    split_and!; [done | | apply ApiFacts.get_otp_record_remove].
    by apply (ApiFacts.api_verify_otp_expired _ _ _ _ _ _ _ _ _ Hid Hotp Hget).
  - intros key expiry clock s Hkey Hclock.
    apply ApiFacts.is_blacklisted_false. intros (e & He & _ & Hlt).
    rewrite Hkey in He. injection He as <-. lia.
  - intros swept Hswept req out.
    destruct (HealthcareFacts.hc_verify_otp_after_expiry hcfg identifier v sess
                t swept Hident Hv) as (Hresp & _ & Hgone).
    + intros record Hrec. apply Hexp.
      destruct Hswept as [-> | ->]; [done |].
      by apply HealthcareFacts.otp_cleanup_pass_lookup in Hrec.
    + done.
Qed.

Lemma expiry_checked_by_reader_witness :
  let data := {| A.req_doctor_id := Some "dr-rao"; A.req_otp := Some "456789" |} in
  let hst := (H.request_otp_for H.default_config "emp001" 483920 0
                Demo.hc_state).2 in
  (let id := strip (or_empty (A.req_doctor_id data)) in
   let st1 := A.store_otp Demo.hmac id "456789" 120 "5a17" 1000 Demo.api_state in
   A.get_otp_record id st1
   = Some {| A.h := Demo.hmac "5a17" "456789"; A.salt := "5a17";
             A.expires_at := 1000 + 120 |}
   ∧ A.api_verify_otp Demo.hmac Demo.jwt_encode 0 A.default_config data "j1"
       5000 st1
     = (A.otp_expired, A.remove_otp id st1)
   ∧ A.get_otp_record id (A.remove_otp id st1) = None)
  ∧ (∀ key expiry clock s,
       A.session_blacklist s !! key = Some expiry → clock >= expiry →
       (A.is_blacklisted key clock s).1 = false)
  ∧ (∀ swept, swept = hst ∨ swept = H.otp_cleanup_pass 300000001 hst →
       let req := {| H.req_identifier := Some "emp001";
                     H.req_otp := Some (SStr "483920") |} in
       let out := H.api_verify_otp H.default_config req Demo.anonymous
                    300000002 swept in
       (out.1.1 = H.fail "no OTP requested for this identifier" 400
        ∨ out.1.1 = H.fail "too many attempts" 429
        ∨ out.1.1 = H.fail "otp expired" 400)
       ∧ H.otp_store out.2 !! "emp001" = None).
Proof.
  intros data hst.
  apply (expiry_checked_by_reader Demo.hmac Demo.jwt_encode 0 A.default_config
           data "456789" "5a17" "j1" 120 1000 5000 Demo.api_state
           H.default_config "emp001" (SStr "483920") Demo.anonymous
           300000001 300000002 hst).
  - vm_compute. discriminate.
  - vm_compute. discriminate.
  - lia.
  - discriminate.
  - reflexivity.
  - intros record. unfold hst.
    rewrite HealthcareFacts.request_otp_for_record.
    intros Hrec. injection Hrec as <-. vm_compute. reflexivity.
Defined.

(** C7 as stated fails: [get_otp_record] reads no clock, so a record
    stored at second 1000 for 120 seconds is still returned by a read made
    at second 5000. *)
Lemma get_otp_record_ignores_expiry :
  ¬ (∀ (now : Z) (doctor_id : string) (st : A.State) (rec : A.OtpRecord),
       A.otp_store st !! ("otp:" +:+ doctor_id) = Some rec →
       now > A.expires_at rec →
       A.get_otp_record doctor_id st = None).
Proof.
  intros Hclaim.
  specialize (Hclaim 5000 "dr-rao"
                (A.store_otp Demo.hmac "dr-rao" "456789" 120 "5a17" 1000
                   Demo.api_state)
                {| A.h := "5a17456789"; A.salt := "5a17"; A.expires_at := 1120 |}).
  vm_compute in Hclaim. by specialize (Hclaim eq_refl eq_refl).
Qed.

(** C8, as the code has it. For an identifier without a pending record
    the verify operations do not tell a known identifier from an unknown
    one: the failure is the same, whatever the user directory holds. In
    healthcare_app.py the answer of [/api/verify-otp] depends on the user
    directory in one case only, a candidate that matches a live record
    within its attempts: it is then 200 for a login that is in [USERS]
    and 404 "employee not found" for one that is not, so that this one
    failure does tell. The answer of [/api/verify-patient-otp] never
    depends on the patient directory. The request operations of
    healthcare_app.py do tell: an identifier that is not an employee is
    answered 404 "unknown employee identifier" where a known one is
    answered 200, and a patient id that is in no record is answered 404
    "patient not found". [/api/request_otp] of api/app.py keeps no
    directory and answers every identifier alike.

    [hst] and [hst'] are two states of healthcare_app.py with the same
    OTP stores, and [id3] is a login that [hst'] has and [hst] has not,
    with a record pending. *)
Theorem verify_failure_hides_identifier
    (hmac : string → string → string) (jwt_encode : A.Claims → string → string)
    (utc_offset : Z) (acfg : A.Config) (d1 d2 candidate : option string)
    (randbelow : nat → Z) (salt jti : string) (now : Z) (ast : A.State)
    (isoformat : H.datetime → string)
    (hcfg : H.Config) (id1 id2 id3 phone subject : string) (v : option scalar)
    (good : scalar) (record : H.OtpRecord)
    (sess : H.Session) (randint : Z) (t : H.datetime) (hst hst' : H.State) :
  strip (or_empty d1) ≠ "" → strip (or_empty d2) ≠ "" →
  A.get_otp_record (strip (or_empty d1)) ast = None →
  A.get_otp_record (strip (or_empty d2)) ast = None →
  id1 ≠ "" → id2 ≠ "" → id3 ≠ "" →
  H.otp_store hst !! id1 = None → H.otp_store hst !! id2 = None →
  H.USERS_employee hst !! id1 = None →
  is_Some (H.USERS_employee hst !! id2) →
  H.otp_store hst' = H.otp_store hst →
  H.patient_otp_store hst' = H.patient_otp_store hst →
  H.otp_store hst !! id3 = Some record →
  H.USERS_employee hst !! id3 = None →
  is_Some (H.USERS_employee hst' !! id3) →
  scalar_falsy good = false →
  H.otp record = strip (str good) →
  H.attempts record + 1 <= H.MAX_OTP_ATTEMPTS hcfg →
  t <= H.expires_at record →
  H.not_employee sess = false → phone ≠ "" → subject ≠ "" →
  (∀ p, p ∈ H.patients hst → H.patient_id p ≠ subject) →
  (let verify d := (A.api_verify_otp hmac jwt_encode utc_offset acfg
                      {| A.req_doctor_id := d; A.req_otp := candidate |}
                      jti now ast).1 in
   let request d := (A.api_request_otp hmac acfg
                       {| A.req_doctor_id := d; A.req_otp := None |}
                       randbelow salt now ast).1 in
   verify d1 = verify d2 ∧ request d1 = request d2)
  ∧
  (let verify st i c := (H.api_verify_otp hcfg
                           {| H.req_identifier := i; H.req_otp := c |}
                           sess t st).1.1 in
   let consent st data := (H.api_verify_patient_otp isoformat hcfg data
                             sess t st).1.1 in
   let request i := (H.api_request_otp hcfg
                       {| H.req_identifier := Some i; H.req_otp := None |}
                       randint t hst).1 in
   verify hst (Some id1) v = verify hst (Some id2) v
   ∧ (∀ i c, verify hst i c ≠ verify hst' i c →
             ∃ rec w, c = Some w
                      ∧ H.otp_store hst !! or_empty i = Some rec
                      ∧ H.attempts rec + 1 <= H.MAX_OTP_ATTEMPTS hcfg
                      ∧ t <= H.expires_at rec
                      ∧ H.otp rec = strip (str w))
   ∧ verify hst (Some id3) (Some good) = H.fail "employee not found" 404
   ∧ verify hst' (Some id3) (Some good) = H.otp_verified
   ∧ (∀ data, consent hst data = consent hst' data)
   ∧ request id1 = H.fail "unknown employee identifier" 404
   ∧ request id2 = H.otp_generated
   ∧ (H.api_request_patient_otp hcfg
        {| H.req_phone := Some phone; H.req_patient_id := Some subject;
           H.req_patient_otp := None |} sess randint t hst).1
     = H.fail "patient not found" 404).
Proof.
  intros Hd1 Hd2 Hg1 Hg2 Hi1 Hi2 Hi3 Hs1 Hs2 Hu1 Hu2 Hotps Hpotps
         Hrec Hu3 Hu3' Hgood Hmatch Hwithin Hlive Hemp Hphone Hsubject Hnone.
  split.
  - intros verify request. split.
    + unfold verify, A.api_verify_otp. simpl.
      rewrite (falsy_false _ Hd1), (falsy_false _ Hd2), Hg1, Hg2. simpl.
      by destruct (falsy _).
    + unfold request.
      rewrite !ApiFacts.api_request_otp_accepted by done. done.
  - intros verify consent request. split_and!.
    + unfold verify, H.api_verify_otp. simpl.
      rewrite (falsy_false _ Hi1), (falsy_false _ Hi2), Hs1, Hs2. simpl.
      by destruct (scalar_missing v).
    + intros i c Hdiff. unfold verify, H.api_verify_otp in Hdiff.
      simpl in Hdiff. rewrite Hotps in Hdiff.
      destruct (missing i || scalar_missing c) eqn:Hmiss; [done |].
      destruct (H.otp_store hst !! or_empty i) as [rec|] eqn:Hlook; [|done].
      simpl in Hdiff.
      destruct c as [w|]; [|by rewrite orb_true_r in Hmiss].
      simpl in Hdiff.
      case_bool_decide as Hmax; [done |].
      case_bool_decide as Hexp; [done |].
      case_bool_decide as Hsame; [|done].
      exists rec, w. split_and!; [done | done | lia | lia | done].
    + unfold verify.
      by rewrite (HealthcareFacts.hc_verify_otp_match_gone hcfg id3 good sess t
                    hst record Hi3 Hgood Hrec Hwithin Hlive Hmatch Hu3).
    + unfold verify. destruct Hu3' as [user Hu3'].
      rewrite (HealthcareFacts.hc_verify_otp_match hcfg id3 good sess t hst'
                 record user); [done | done | done | | done | done | done | done].
      by rewrite Hotps.
    + intros data. unfold consent, H.api_verify_patient_otp.
      rewrite Hpotps. destruct (H.not_employee sess); [done |].
      destruct (missing _ || scalar_missing _); [done |].
      destruct (H.patient_otp_store hst !! _) as [rec|]; [|done].
      simpl. by repeat case_bool_decide.
    + unfold request, H.api_request_otp. simpl.
      by rewrite (falsy_false _ Hi1), Hu1.
    + unfold request. by rewrite HealthcareFacts.hc_request_otp_accepted.
    + unfold H.api_request_patient_otp. simpl.
      rewrite Hemp, (falsy_false _ Hphone), (falsy_false _ Hsubject). simpl.
      assert (existsb (λ p, bool_decide (H.patient_id p = subject))
                      (H.patients hst) = false) as ->; [|done].
      apply not_true_is_false. intros (p & Hin & Hp)%existsb_exists.
      apply bool_decide_eq_true in Hp.
      by apply (Hnone p); [apply list_elem_of_In |].
Qed.

Lemma verify_failure_hides_identifier_witness :
  let smith := {| S.e_id := 1; S.e_employee_id := "EMP0001";
                  S.e_name := "Dr. John Smith"; S.e_role := "Doctor";
                  S.e_department := "Cardiology";
                  S.e_email := "employee1@healthcare.com";
                  S.e_phone := "+1-200-100-1000";
                  S.e_joining_date := "2024-01-15";
                  S.e_notice_period_days := 30;
                  S.e_previous_hospital := "City Hospital";
                  S.e_previous_experience_years := 4;
                  S.e_current_salary := 90000;
                  S.e_status := "Active";
                  S.e_last_updated := "2025-11-21T10:00:00" |} in
  let no_fields := {| S.f_name := None; S.f_role := None;
                      S.f_department := None; S.f_email := None;
                      S.f_phone := None; S.f_status := None;
                      S.f_password := None |} in
  let admin := H.employee_session "admin" S.admin_user None in
  let site0 := S.set_employees (λ _, [smith]) S.sample_site in
  let site1 :=
    S.set_app (λ st, (H.api_request_otp H.default_config
                        {| H.req_identifier := Some "emp001";
                           H.req_otp := None |} 483920 0 st).2) site0 in
  let site2 := (S.api_modify_employee 1 S.DELETE no_fields admin
                  "2025-11-22T09:00:00" site1).2 in
  let hst' := S.app site1 in
  let hst := S.app site2 in
  (let verify d := (A.api_verify_otp Demo.hmac Demo.jwt_encode 0
                      A.default_config
                      {| A.req_doctor_id := d; A.req_otp := Some "456789" |}
                      "j1" 1000 Demo.api_state).1 in
   let request d := (A.api_request_otp Demo.hmac A.default_config
                       {| A.req_doctor_id := d; A.req_otp := None |}
                       (λ i, Z.of_nat i + 4) "5a17" 1000 Demo.api_state).1 in
   verify (Some "dr-who") = verify (Some "dr-rao")
   ∧ request (Some "dr-who") = request (Some "dr-rao"))
  ∧
  (let verify st i c := (H.api_verify_otp H.default_config
                           {| H.req_identifier := i; H.req_otp := c |}
                           Demo.operator 60000000 st).1.1 in
   let consent st data := (H.api_verify_patient_otp Demo.isoformat
                             H.default_config data
                             Demo.operator 60000000 st).1.1 in
   let request i := (H.api_request_otp H.default_config
                       {| H.req_identifier := Some i; H.req_otp := None |}
                       483920 60000000 hst).1 in
   verify hst (Some "nobody") (Some (SStr "483920"))
   = verify hst (Some "admin") (Some (SStr "483920"))
   ∧ (∀ i c, verify hst i c ≠ verify hst' i c →
             ∃ rec w, c = Some w
                      ∧ H.otp_store hst !! or_empty i = Some rec
                      ∧ H.attempts rec + 1 <= H.MAX_OTP_ATTEMPTS H.default_config
                      ∧ 60000000 <= H.expires_at rec
                      ∧ H.otp rec = strip (str w))
   ∧ verify hst (Some "emp001") (Some (SStr "483920"))
     = H.fail "employee not found" 404
   ∧ verify hst' (Some "emp001") (Some (SStr "483920")) = H.otp_verified
   ∧ (∀ data, consent hst data = consent hst' data)
   ∧ request "nobody" = H.fail "unknown employee identifier" 404
   ∧ request "admin" = H.otp_generated
   ∧ (H.api_request_patient_otp H.default_config
        {| H.req_phone := Some "+1-555-0100";
           H.req_patient_id := Some "PAT0500";
           H.req_patient_otp := None |} Demo.operator 483920 60000000 hst).1
     = H.fail "patient not found" 404).
Proof.
  intros smith no_fields admin site0 site1 site2 hst' hst.
  apply (verify_failure_hides_identifier Demo.hmac Demo.jwt_encode 0
           A.default_config (Some "dr-who") (Some "dr-rao") (Some "456789")
           (λ i, Z.of_nat i + 4) "5a17" "j1" 1000 Demo.api_state
           Demo.isoformat
           H.default_config "nobody" "admin" "emp001" "+1-555-0100" "PAT0500"
           (Some (SStr "483920")) (SStr "483920")
           {| H.otp := "483920"; H.expires_at := 300000000; H.attempts := 0 |}
           Demo.operator 483920 60000000 hst hst').
  - vm_compute. discriminate.
  - vm_compute. discriminate.
  - vm_compute. reflexivity.
  - vm_compute. reflexivity.
  - discriminate.
  - discriminate.
  - discriminate.
  - vm_compute. reflexivity.
  - vm_compute. reflexivity.
  - vm_compute. reflexivity.
  - vm_compute. eexists. reflexivity.
  - reflexivity.
  - reflexivity.
  - vm_compute. reflexivity.
  - vm_compute. reflexivity.
  - vm_compute. eexists. reflexivity.
  - reflexivity.
  - reflexivity.
  - vm_compute. discriminate.
  - vm_compute. discriminate.
  - reflexivity.
  - discriminate.
  - discriminate.
  - intros p Hp. simpl in Hp.
    apply elem_of_cons in Hp as [-> | Hp]; [discriminate |].
    apply elem_of_cons in Hp as [-> | Hp]; [discriminate |].
    by apply elem_of_nil in Hp.
Defined.

(** C8 as stated fails for the request operation of healthcare_app.py:
    "nobody" is no employee and "emp001" is one with no pending secret,
    and [/api/request-otp] answers the first with 404 "unknown employee
    identifier" and the second with 200. *)
Lemma request_otp_reveals_unknown_identifier :
  let request i := (H.api_request_otp H.default_config
                      {| H.req_identifier := Some i; H.req_otp := None |}
                      483920 0 Demo.hc_state).1 in
  H.USERS_employee Demo.hc_state !! "nobody" = None
  ∧ is_Some (H.USERS_employee Demo.hc_state !! "emp001")
  ∧ H.otp_store Demo.hc_state !! "emp001" = None
  ∧ request "nobody" = H.fail "unknown employee identifier" 404
  ∧ request "emp001" = H.otp_generated
  ∧ request "nobody" ≠ request "emp001".
Proof.
  vm_compute. split_and!; try reflexivity; [by eexists | discriminate].
Qed.

End Claims.

(** ** Further properties of src/api/app.py *)

Module ApiExtras.
Import Py PyFacts PyText.

Module A := ApiApp.
Module P := ApiPatient.

Lemma all_digits_app (s r : string) :
  all_digits (s +:+ r) = all_digits s && all_digits r.
Proof.
  induction s as [|c s IH]; [done |].
  rewrite app_cons. simpl. by rewrite IH, andb_assoc.
Qed.

Lemma length_app (s r : string) :
  String.length (s +:+ r) = (String.length s + String.length r)%nat.
Proof.
  induction s as [|c s IH]; [done |].
  rewrite app_cons. simpl. by rewrite IH.
Qed.

Lemma pretty_N_char_isdigit (x : N) : isdigit (pretty_N_char x) = true.
Proof. unfold pretty_N_char. by repeat case_match. Qed.

Lemma pretty_N_go_all_digits (x : N) (s : string) :
  all_digits s = true → all_digits (pretty_N_go x s) = true.
Proof.
  revert s. induction (N.lt_wf_0 x) as [x _ IH]. intros s Hs.
  destruct (decide (x = 0%N)) as [->|Hx].
  - by rewrite pretty_N_go_0.
  - rewrite pretty_N_go_step by lia. apply IH.
    + apply N.div_lt; lia.
    + simpl. by rewrite pretty_N_char_isdigit, Hs.
Qed.

(** The decimal print of a natural number is made of digits. *)
Lemma str_int_all_digits (n : Z) : 0 <= n → all_digits (str_int n) = true.
Proof.
  intros Hn. unfold str_int, pretty, pretty_Z. destruct n as [|p|p]; [done | | lia].
  unfold pretty, pretty_positive, pretty, pretty_N. case_decide; [done |].
  by apply pretty_N_go_all_digits.
Qed.

(** A number of [k + 1] decimal places prints on [k + 1] characters. *)
Lemma pretty_N_go_length (k : nat) (x : N) (s : string) :
  (10 ^ N.of_nat k <= x < 10 ^ N.of_nat (S k))%N →
  String.length (pretty_N_go x s) = (S k + String.length s)%nat.
Proof.
  revert x s. induction k as [|k IH]; intros x s Hx.
  - change (10 ^ N.of_nat 0)%N with 1%N in Hx.
    change (10 ^ N.of_nat 1)%N with 10%N in Hx.
    rewrite pretty_N_go_step by lia.
    replace (x `div` 10)%N with 0%N by (symmetry; apply N.div_small; lia).
    by rewrite pretty_N_go_0.
  - rewrite !Nat2N.inj_succ, !N.pow_succ_r' in Hx.
    rewrite pretty_N_go_step by lia.
    rewrite IH.
    + simpl. lia.
    + rewrite Nat2N.inj_succ, N.pow_succ_r'. split.
      * apply N.div_le_lower_bound; lia.
      * apply N.Div0.div_lt_upper_bound; lia.
Qed.

Lemma str_int_length (k : nat) (n : Z) :
  10 ^ Z.of_nat k <= n < 10 ^ Z.of_nat (S k) →
  String.length (str_int n) = S k.
Proof.
  intros Hn. assert (0 < n) as Hpos by (pose proof (Z.pow_pos_nonneg 10 (Z.of_nat k)); lia).
  unfold str_int, pretty, pretty_Z. destruct n as [|p|p]; [lia | | lia].
  unfold pretty, pretty_positive, pretty, pretty_N. case_decide; [done |].
  rewrite (pretty_N_go_length k); [simpl; lia |].
  assert (Z.of_N (10 ^ N.of_nat k) = 10 ^ Z.of_nat k) as Hk.
  { rewrite N2Z.inj_pow. by rewrite nat_N_Z. }
  assert (Z.of_N (10 ^ N.of_nat (S k)) = 10 ^ Z.of_nat (S k)) as HSk.
  { rewrite N2Z.inj_pow. by rewrite nat_N_Z. }
  lia.
Qed.

Lemma str_int_digit (d : Z) :
  0 <= d < 10 → String.length (str_int d) = 1%nat ∧ all_digits (str_int d) = true.
Proof.
  intros Hd. split; [|apply str_int_all_digits; lia].
  destruct (decide (d = 0)) as [->|Hz]; [done |].
  apply (str_int_length 0). simpl. lia.
Qed.

(** X1. The secrets are decimal strings of the advertised length:
    [generate_otp] of api/app.py, fed draws of [secrets.randbelow(10)],
    returns exactly [length] digits (none for a length below one), and
    [_generate_otp] of healthcare_app.py, fed a draw of
    [random.randint(100000, 999999)], returns six digits. *)
Theorem generated_otp_is_decimal
    (length : Z) (randbelow : nat → Z) (randint : Z) :
  (∀ i, 0 <= randbelow i < 10) →
  100000 <= randint <= 999999 →
  (String.length (A.generate_otp length randbelow) = Z.to_nat length
   ∧ all_digits (A.generate_otp length randbelow) = true)
  ∧ (String.length (HealthcareApp._generate_otp randint) = 6%nat
     ∧ all_digits (HealthcareApp._generate_otp randint) = true).
Proof.
  intros Hdraws Hrand. split.
  - unfold A.generate_otp.
    assert (∀ l : list nat,
              String.length
                (foldr (λ i digits, str_int (randbelow i) +:+ digits) "" l)
              = List.length l
              ∧ all_digits
                  (foldr (λ i digits, str_int (randbelow i) +:+ digits) "" l)
                = true) as Hall.
    { induction l as [|i l [IHlen IHdig]]; [done |].
      simpl. destruct (str_int_digit (randbelow i) (Hdraws i)) as [Hlen Hdig].
      by rewrite length_app, all_digits_app, Hlen, Hdig, IHlen, IHdig. }
    destruct (Hall (seq 0 (Z.to_nat length))) as [Hlen Hdig].
    split; [|done]. rewrite Hlen. apply length_seq.
  - unfold HealthcareApp._generate_otp. split.
    + apply (str_int_length 5). simpl. lia.
    + apply str_int_all_digits. lia.
Qed.

Lemma generated_otp_is_decimal_witness :
  (String.length (A.generate_otp 6 (λ i, Z.of_nat i mod 10)) = Z.to_nat 6
   ∧ all_digits (A.generate_otp 6 (λ i, Z.of_nat i mod 10)) = true)
  ∧ (String.length (HealthcareApp._generate_otp 483920) = 6%nat
     ∧ all_digits (HealthcareApp._generate_otp 483920) = true).
Proof.
  apply (generated_otp_is_decimal 6 (λ i, Z.of_nat i mod 10) 483920).
  - intros i. apply Z.mod_pos_bound. lia.
  - lia.
Defined.

Section Facts.

Variable hmac : string → string → string.
Variable jwt_encode : A.Claims → string → string.
Variable jwt_verify_signature : string → string → option A.Claims.
Variable utc_offset : Z.
Variable cfg : A.Config.

#[local] Abbreviation decode := (A.decode_token_and_validate jwt_verify_signature cfg).
#[local] Abbreviation logout := (A.api_logout jwt_verify_signature cfg).
#[local] Abbreviation get_patient := (P.api_get_patient jwt_verify_signature cfg).
#[local] Abbreviation verify_otp :=
  (A.api_verify_otp hmac jwt_encode utc_offset cfg).
#[local] Abbreviation request_otp := (A.api_request_otp hmac cfg).

(** Every refusal of [decode_token_and_validate] is an [abort(401, ...)]. *)
Lemma decode_refusal_is_401 (auth_header : option string) (now : Z)
    (st st' : A.State) (r : response) :
  decode auth_header now st = (inr r, st') →
  ∃ description, r = Abort 401 description.
Proof.
  unfold A.decode_token_and_validate, A.jwt_decode.
  destruct (missing auth_header); [intros [= <- _]; eauto |].
  destruct (split (or_empty auth_header)) as [|scheme [|token [|]]];
    try (intros [= <- _]; eauto).
  case_bool_decide; simpl; [|intros [= <- _]; eauto].
  destruct (jwt_verify_signature token (A.JWT_SECRET cfg)) as [c|];
    [|intros [= <- _]; eauto].
  case_bool_decide; [intros [= <- _]; eauto |].
  case_bool_decide; [intros [= <- _]; eauto |].
  destruct (falsy (A.jti c)); [intros [= <- _]; eauto |].
  destruct (A.is_blacklisted (A.jti c) now st) as [[] st1];
    [intros [= <- _]; eauto | done].
Qed.

(** An issued token past its [exp] is turned away as expired, revoked
    or not. *)
Lemma decode_expired (auth_header : option string) (now : Z) (st : A.State)
    (scheme token : string) (payload : A.Claims) :
  missing auth_header = false →
  split (or_empty auth_header) = [scheme; token] →
  lower scheme = "bearer" →
  jwt_verify_signature token (A.JWT_SECRET cfg) = Some payload →
  A.iat payload <= now →
  A.exp payload <= now →
  decode auth_header now st = (inr (Abort 401 "token expired"), st).
Proof.
  intros Hm Hsplit Hs Hv Hi He.
  unfold A.decode_token_and_validate, A.jwt_decode.
  rewrite Hm, Hsplit, Hv. rewrite bool_decide_eq_true_2 by done. simpl.
  rewrite bool_decide_eq_false_2 by lia.
  by rewrite bool_decide_eq_true_2.
Qed.

Lemma bearer_parts (token : string) :
  nospace token = true → token ≠ "" →
  missing (P.bearer token) = false
  ∧ split (or_empty (P.bearer token)) = ["Bearer"; token].
Proof.
  intros Hw Hne. split; [done |]. by apply split_bearer.
Qed.

Lemma is_blacklisted_absent (jti : string) (now : Z) (st : A.State) :
  A.session_blacklist st !! jti = None →
  A.is_blacklisted jti now st = (false, st).
Proof. intros Hn. unfold A.is_blacklisted. by rewrite Hn. Qed.

End Facts.

(** X2. [/api/patient/<patient_id>] of api/app.py answers with a patient
    record, or with "patient not found", only to a request whose token
    verifies under [JWT_SECRET], is not yet expired and has no revocation
    in force; every other request is answered by an [abort(401)]. *)
Theorem patient_endpoint_needs_session
    (jwt_verify_signature : string → string → option A.Claims) (cfg : A.Config)
    (patient_id : string) (auth_header : option string) (now : Z)
    (st st' : A.State) (r : response) :
  P.api_get_patient jwt_verify_signature cfg patient_id auth_header now st
    = (r, st') →
  (∃ description, r = Abort 401 description)
  ∨ (∃ payload scheme token,
       split (or_empty auth_header) = [scheme; token]
       ∧ jwt_verify_signature token (A.JWT_SECRET cfg) = Some payload
       ∧ now < A.exp payload
       ∧ ¬ A.live_entry (A.jti payload) now st
       ∧ match P.PATIENT_DB !! patient_id with
         | Some rec =>
             r = Jsonify (JObj [("ok", JBool true); ("patient", rec)]) 200
         | None =>
             r = Jsonify (JObj [("error", JStr "patient not found")]) 404
         end).
Proof.
  unfold P.api_get_patient.
  destruct (A.decode_token_and_validate jwt_verify_signature cfg auth_header now st)
    as [[payload|aborted] s1] eqn:Hd.
  - intros Hr. right.
    apply ApiFacts.decode_token_and_validate_accepted in Hd
      as (scheme & token & Hsplit & _ & Hsig & Hexp & _ & Hlive & _).
    exists payload, scheme, token. split_and!; try done.
    destruct (P.PATIENT_DB !! patient_id); by injection Hr as <- _.
  - intros [= <- _]. left. by eapply decode_refusal_is_401.
Qed.

Lemma patient_endpoint_needs_session_witness :
  (∃ description, Jsonify (JObj [("error", JStr "patient not found")]) 404
                  = Abort 401 description)
  ∨ (∃ payload scheme token,
       split (or_empty (Some "bearer jwt.b2")) = [scheme; token]
       ∧ Demo.jwt_verify_signature token (A.JWT_SECRET A.default_config)
         = Some payload
       ∧ 1100 < A.exp payload
       ∧ ¬ A.live_entry (A.jti payload) 1100 Demo.api_state
       ∧ match P.PATIENT_DB !! "suresh" with
         | Some rec =>
             Jsonify (JObj [("error", JStr "patient not found")]) 404
             = Jsonify (JObj [("ok", JBool true); ("patient", rec)]) 200
         | None =>
             Jsonify (JObj [("error", JStr "patient not found")]) 404
             = Jsonify (JObj [("error", JStr "patient not found")]) 404
         end).
Proof.
  apply (patient_endpoint_needs_session Demo.jwt_verify_signature
           A.default_config "suresh" (Some "bearer jwt.b2") 1100
           Demo.api_state Demo.api_state).
  vm_compute. reflexivity.
Defined.

(** X3. The life of a session in api/app.py. A verify that matches a live
    record answers with the token that [jwt.encode] made of the claims
    [sub] = the identifier, [exp] = now + [SESSION_EXPIRY_SECONDS],
    [iat] = now and the drawn [jti]. Provided PyJWT verifies what it
    signed, the token is one word and the [jti] is fresh: the token opens
    [/api/patient/ramesh] at every time before [exp] and is refused as
    expired from [exp] on; [/api/logout] with it succeeds once, and from
    then on both endpoints refuse it, as invalidated before [exp] and as
    expired after. *)
Theorem session_lifecycle
    (hmac : string → string → string) (jwt_encode : A.Claims → string → string)
    (jwt_verify_signature : string → string → option A.Claims)
    (utc_offset : Z) (cfg : A.Config) (data : A.OtpRequest) (jti : string)
    (now t_use t_out t_after : Z) (st : A.State) (rec : A.OtpRecord) :
  let id := strip (or_empty (A.req_doctor_id data)) in
  let otp_in := strip (or_empty (A.req_otp data)) in
  let claims := {| A.sub := id; A.exp := now + A.SESSION_EXPIRY_SECONDS cfg;
                   A.iat := now; A.jti := jti |} in
  let token := jwt_encode claims (A.JWT_SECRET cfg) in
  id ≠ "" → otp_in ≠ "" →
  A.get_otp_record id st = Some rec →
  now <= A.expires_at rec →
  A.h rec = A.hash_otp hmac otp_in (A.salt rec) →
  jwt_verify_signature token (A.JWT_SECRET cfg) = Some claims →
  nospace token = true → token ≠ "" → jti ≠ "" →
  A.session_blacklist st !! jti = None →
  0 <= now →
  now <= t_use < A.exp claims →
  now <= t_out < A.exp claims →
  t_out <= t_after →
  let verified := A.api_verify_otp hmac jwt_encode utc_offset cfg data jti now st in
  let st1 := verified.2 in
  let ramesh := P.api_get_patient jwt_verify_signature cfg "ramesh" (P.bearer token) in
  let out := A.api_logout jwt_verify_signature cfg (P.bearer token) t_out st1 in
  let refusal :=
    Abort 401 (if bool_decide (A.exp claims <= t_after)
               then "token expired" else "session invalidated") in
  verified.1 = A.otp_verified cfg token (A.exp claims - utc_offset)
  ∧ (∃ rec, ramesh t_use st1
            = (Jsonify (JObj [("ok", JBool true); ("patient", rec)]) 200, st1))
  ∧ (∀ t, A.exp claims <= t →
          ramesh t st1 = (Abort 401 "token expired", st1))
  ∧ status out.1 = 200
  ∧ ramesh t_after out.2 = (refusal, out.2)
  ∧ A.api_logout jwt_verify_signature cfg (P.bearer token) t_after out.2
    = (refusal, out.2).
Proof.
  intros id otp_in claims token Hid Hotp Hget Hlive Hh Hsig Hword Htok Hjti
         Hfresh Hnow Huse Hout Hafter verified st1 ramesh out refusal.
  destruct (bearer_parts token Hword Htok) as [Hm Hsplit].
  assert (verified = (A.otp_verified cfg token (A.exp claims - utc_offset),
                      A.remove_otp id st)) as Hver.
  { unfold verified.
    by rewrite (ApiFacts.api_verify_otp_match hmac jwt_encode utc_offset cfg
                  data jti now st rec). }
  assert (st1 = A.remove_otp id st) as Hst1 by (unfold st1; by rewrite Hver).
  assert (A.session_blacklist st1 !! jti = None) as Hfresh1 by by rewrite Hst1.
  assert (∀ t, now <= t → t < A.exp claims →
               A.decode_token_and_validate jwt_verify_signature cfg
                 (P.bearer token) t st1 = (inl claims, st1)) as Hok.
  { intros t Hissued Ht.
    rewrite (ApiFacts.decode_token_and_validate_accepts jwt_verify_signature cfg
               (P.bearer token) t st1 "Bearer" token claims); try done.
    - by rewrite (is_blacklisted_absent _ _ _ Hfresh1).
    - intros (e & He & _). simpl in He. by rewrite Hfresh1 in He. }
  assert (out = (Jsonify (JObj [("ok", JBool true);
                                ("message", JStr "logged out")]) 200,
                 A.blacklist_session jti (A.exp claims) st1)) as Hlogout.
  { unfold out.
    by rewrite (ApiFacts.api_logout_accepted jwt_verify_signature cfg _ _ _ _ _
                  (Hok t_out (proj1 Hout) (proj2 Hout))). }
  assert (A.decode_token_and_validate jwt_verify_signature cfg
            (P.bearer token) t_after out.2 = (inr refusal, out.2)) as Hrefused.
  { unfold refusal. case_bool_decide as Hexp.
    - apply (decode_expired jwt_verify_signature cfg _ _ _ "Bearer" token claims);
        try done. simpl. lia.
    - apply (ApiFacts.decode_token_and_validate_revoked jwt_verify_signature cfg
               _ _ _ "Bearer" token claims); try done; [simpl; lia | lia |].
      rewrite Hlogout. exists (A.exp claims).
      split_and!; [apply lookup_insert_eq | lia | lia]. }
  split_and!.
  - by rewrite Hver.
  - unfold ramesh, P.api_get_patient.
    rewrite (Hok t_use (proj1 Huse) (proj2 Huse)).
    eexists. reflexivity.
  - intros t Ht. unfold ramesh, P.api_get_patient.
    rewrite (decode_expired jwt_verify_signature cfg _ _ _ "Bearer" token claims);
      try done.
    simpl in *. lia.
  - by rewrite Hlogout.
  - unfold ramesh, P.api_get_patient. by rewrite Hrefused.
  - unfold A.api_logout. by rewrite Hrefused.
Qed.

Lemma session_lifecycle_witness :
  let data := {| A.req_doctor_id := Some "dr-rao"; A.req_otp := Some "456789" |} in
  let st := A.store_otp Demo.hmac "dr-rao" "456789" 120 "5a17" 990
              Demo.api_state in
  let claims := Demo.claims_a in
  let token := "jwt.a1" in
  let verified := A.api_verify_otp Demo.hmac Demo.jwt_encode 0 A.default_config
                    data "a1" 1000 st in
  let st1 := verified.2 in
  let ramesh := P.api_get_patient Demo.jwt_verify_signature A.default_config
                  "ramesh" (P.bearer token) in
  let out := A.api_logout Demo.jwt_verify_signature A.default_config
               (P.bearer token) 1060 st1 in
  let refusal :=
    Abort 401 (if bool_decide (A.exp claims <= 1090)
               then "token expired" else "session invalidated") in
  verified.1 = A.otp_verified A.default_config token (A.exp claims - 0)
  ∧ (∃ rec, ramesh 1030 st1
            = (Jsonify (JObj [("ok", JBool true); ("patient", rec)]) 200, st1))
  ∧ (∀ t, A.exp claims <= t →
          ramesh t st1 = (Abort 401 "token expired", st1))
  ∧ status out.1 = 200
  ∧ ramesh 1090 out.2 = (refusal, out.2)
  ∧ A.api_logout Demo.jwt_verify_signature A.default_config (P.bearer token)
      1090 out.2
    = (refusal, out.2).
Proof.
  intros data st.
  apply (session_lifecycle Demo.hmac Demo.jwt_encode Demo.jwt_verify_signature 0
           A.default_config data "a1" 1000 1030 1060 1090 st
           {| A.h := "5a17456789"; A.salt := "5a17"; A.expires_at := 1110 |}).
  - discriminate.
  - discriminate.
  - vm_compute. reflexivity.
  - vm_compute. discriminate.
  - reflexivity.
  - vm_compute. reflexivity.
  - reflexivity.
  - discriminate.
  - discriminate.
  - reflexivity.
  - lia.
  - vm_compute. split; [discriminate | reflexivity].
  - vm_compute. split; [discriminate | reflexivity].
  - lia.
Defined.

Lemma otp_key_inj (a b : string) : "otp:" +:+ a = "otp:" +:+ b → a = b.
Proof. intros Heq. exact (String.app_inj "otp:" a b Heq). Qed.

(** The state [decode_token_and_validate] hands back is the one it was
    given, up to the dead entry [is_blacklisted] may have dropped. *)
Lemma decode_state (jwt_verify_signature : string → string → option A.Claims)
    (cfg : A.Config) (auth_header : option string) (now : Z) (st : A.State) :
  let st' := (A.decode_token_and_validate jwt_verify_signature cfg
                auth_header now st).2 in
  st' = st ∨ ∃ jti, st' = (A.is_blacklisted jti now st).2.
Proof.
  unfold A.decode_token_and_validate.
  destruct (missing auth_header); [by left |].
  destruct (split (or_empty auth_header)) as [|scheme [|token [|]]];
    try by left.
  case_bool_decide; simpl; [|by left].
  destruct (A.jwt_decode jwt_verify_signature token (A.JWT_SECRET cfg) now)
    as [c| |]; try by left.
  destruct (falsy (A.jti c)); [by left |].
  right. exists (A.jti c).
  by destruct (A.is_blacklisted (A.jti c) now st) as [[] st1].
Qed.

Lemma is_blacklisted_keeps_live (jti queried : string) (now t : Z) (st : A.State) :
  now <= t → A.live_entry jti t st →
  A.live_entry jti t (A.is_blacklisted queried now st).2.
Proof.
  intros Hle (e & He & Hz & Hlt).
  destruct (decide (queried = jti)) as [->|Hne].
  - unfold A.is_blacklisted. rewrite He.
    rewrite bool_decide_eq_false_2 by done.
    rewrite bool_decide_eq_false_2 by lia. by exists e.
  - exists e. by rewrite ApiFacts.is_blacklisted_other.
Qed.

(** X4. No request to api/app.py lifts a revocation that is still in
    force: an entry of the blacklist that is live at some time is still
    live at that time after any request handled at or before it, be it a
    request or verify of an OTP, a validation, a patient read or a
    logout. *)
Theorem revocation_outlives_requests
    (hmac : string → string → string) (jwt_encode : A.Claims → string → string)
    (jwt_verify_signature : string → string → option A.Claims)
    (utc_offset : Z) (cfg : A.Config) (revoked : string) (now t : Z)
    (st : A.State) (data : A.OtpRequest) (randbelow : nat → Z)
    (salt jti patient_id : string) (auth_header : option string) :
  now <= t →
  A.live_entry revoked t st →
  A.live_entry revoked t
    (A.api_request_otp hmac cfg data randbelow salt now st).2
  ∧ A.live_entry revoked t
      (A.api_verify_otp hmac jwt_encode utc_offset cfg data jti now st).2
  ∧ A.live_entry revoked t
      (A.decode_token_and_validate jwt_verify_signature cfg auth_header now st).2
  ∧ A.live_entry revoked t
      (P.api_get_patient jwt_verify_signature cfg patient_id auth_header now st).2
  ∧ A.live_entry revoked t
      (A.api_logout jwt_verify_signature cfg auth_header now st).2.
Proof.
  intros Hle Hlive.
  assert (A.live_entry revoked t
            (A.decode_token_and_validate jwt_verify_signature cfg
               auth_header now st).2) as Hdecode.
  { destruct (decode_state jwt_verify_signature cfg auth_header now st)
      as [-> | [j ->]]; [done |].
    by apply is_blacklisted_keeps_live. }
  split_and!.
  - unfold A.api_request_otp. by case_match.
  - unfold A.api_verify_otp. by repeat case_match.
  - done.
  - unfold P.api_get_patient.
    destruct (A.decode_token_and_validate jwt_verify_signature cfg auth_header now st)
      as [[payload|aborted] s1]; [|done].
    by case_match.
  - unfold A.api_logout.
    destruct (A.decode_token_and_validate jwt_verify_signature cfg auth_header now st)
      as [[payload|aborted] s1] eqn:Hd; [|done].
    simpl in Hdecode. destruct (falsy (A.jti payload)); [done |].
    apply ApiFacts.decode_token_and_validate_accepted in Hd
      as (_ & _ & _ & _ & _ & _ & _ & Hnot & _).
    destruct Hdecode as (e & He & Hz & Hlt).
    exists e. simpl. rewrite lookup_insert_ne; [done |].
    intros Heq. apply Hnot. rewrite Heq.
    by apply (ApiFacts.live_entry_later revoked now t).
Qed.

Lemma revocation_outlives_requests_witness :
  let st := A.blacklist_session "a1" 1120 Demo.api_state in
  let data := {| A.req_doctor_id := Some "dr-rao"; A.req_otp := Some "456789" |} in
  A.live_entry "a1" 1100
    (A.api_request_otp Demo.hmac A.default_config data (λ i, Z.of_nat i)
       "5a17" 1050 st).2
  ∧ A.live_entry "a1" 1100
      (A.api_verify_otp Demo.hmac Demo.jwt_encode 0 A.default_config data
         "j9" 1050 st).2
  ∧ A.live_entry "a1" 1100
      (A.decode_token_and_validate Demo.jwt_verify_signature A.default_config
         (P.bearer "jwt.a1") 1050 st).2
  ∧ A.live_entry "a1" 1100
      (P.api_get_patient Demo.jwt_verify_signature A.default_config "ramesh"
         (P.bearer "jwt.a1") 1050 st).2
  ∧ A.live_entry "a1" 1100
      (A.api_logout Demo.jwt_verify_signature A.default_config
         (P.bearer "jwt.a1") 1050 st).2.
Proof.
  intros st data.
  apply (revocation_outlives_requests Demo.hmac Demo.jwt_encode
           Demo.jwt_verify_signature 0 A.default_config "a1" 1050 1100 st data
           (λ i, Z.of_nat i) "5a17" "j9" "ramesh" (P.bearer "jwt.a1")).
  - lia.
  - exists 1120. split_and!; [reflexivity | discriminate | reflexivity].
Defined.

(** X5. The blacklist of api/app.py is written only by a logout that
    presents a token verifying under [JWT_SECRET]: an entry found after
    [/api/logout] was there before, or it is the [jti] of the presented
    token with that token's own [exp]. *)
Theorem blacklist_written_by_valid_logout
    (jwt_verify_signature : string → string → option A.Claims) (cfg : A.Config)
    (auth_header : option string) (now : Z) (st : A.State)
    (jti : string) (expiry : Z) :
  A.session_blacklist (A.api_logout jwt_verify_signature cfg auth_header now st).2
    !! jti = Some expiry →
  A.session_blacklist st !! jti = Some expiry
  ∨ ∃ scheme token payload,
      split (or_empty auth_header) = [scheme; token]
      ∧ jwt_verify_signature token (A.JWT_SECRET cfg) = Some payload
      ∧ now < A.exp payload
      ∧ A.jti payload = jti ∧ A.exp payload = expiry.
Proof.
  assert (∀ j s, A.session_blacklist (A.is_blacklisted j now s).2 !! jti
                 = Some expiry →
                 A.session_blacklist s !! jti = Some expiry) as Hread.
  { intros j s. unfold A.is_blacklisted.
    destruct (A.session_blacklist s !! j) as [e|]; [|done].
    repeat case_bool_decide; simpl; try done.
    intros Hl. destruct (decide (j = jti)) as [->|Hne].
    - by rewrite lookup_delete_eq in Hl.
    - by rewrite lookup_delete_ne in Hl. }
  unfold A.api_logout.
  destruct (A.decode_token_and_validate jwt_verify_signature cfg auth_header now st)
    as [[payload|aborted] s1] eqn:Hd.
  - apply ApiFacts.decode_token_and_validate_accepted in Hd
      as (scheme & token & Hsplit & _ & Hsig & Hexp & Hj & _ & ->).
    rewrite (falsy_false _ Hj). simpl.
    destruct (decide (A.jti payload = jti)) as [Heq|Hne].
    + rewrite Heq, lookup_insert_eq. intros [= <-]. right.
      by exists scheme, token, payload.
    + rewrite lookup_insert_ne by done. intros Hl. left. by eapply Hread.
  - intros Hl. left.
    destruct (decode_state jwt_verify_signature cfg auth_header now st)
      as [Hs | [j Hs]]; rewrite Hd in Hs; simpl in Hs; subst s1.
    + done.
    + by eapply Hread.
Qed.

Lemma blacklist_written_by_valid_logout_witness :
  A.session_blacklist Demo.api_state !! "a1" = Some 1120
  ∨ ∃ scheme token payload,
      split (or_empty (P.bearer "jwt.a1")) = [scheme; token]
      ∧ Demo.jwt_verify_signature token (A.JWT_SECRET A.default_config)
        = Some payload
      ∧ 1050 < A.exp payload
      ∧ A.jti payload = "a1" ∧ A.exp payload = 1120.
Proof.
  apply (blacklist_written_by_valid_logout Demo.jwt_verify_signature
           A.default_config (P.bearer "jwt.a1") 1050 Demo.api_state "a1" 1120).
  vm_compute. reflexivity.
Defined.

(** X6. The OTP endpoints of api/app.py work on one record: a request or
    a verify for one doctor leaves the record of every other doctor, and
    the blacklist, as they were. *)
Theorem otp_endpoints_touch_one_record
    (hmac : string → string → string) (jwt_encode : A.Claims → string → string)
    (utc_offset : Z) (cfg : A.Config) (data : A.OtpRequest)
    (randbelow : nat → Z) (salt jti other : string) (now : Z) (st : A.State) :
  other ≠ strip (or_empty (A.req_doctor_id data)) →
  let requested := (A.api_request_otp hmac cfg data randbelow salt now st).2 in
  let verified :=
    (A.api_verify_otp hmac jwt_encode utc_offset cfg data jti now st).2 in
  A.get_otp_record other requested = A.get_otp_record other st
  ∧ A.get_otp_record other verified = A.get_otp_record other st
  ∧ A.session_blacklist requested = A.session_blacklist st
  ∧ A.session_blacklist verified = A.session_blacklist st.
Proof.
  intros Hother requested verified.
  assert ("otp:" +:+ strip (or_empty (A.req_doctor_id data)) ≠ "otp:" +:+ other)
    as Hkey by (intros Heq%otp_key_inj; by apply Hother).
  unfold requested, verified, A.api_request_otp, A.api_verify_otp,
    A.get_otp_record, A.remove_otp, A.store_otp, A.send_otp_demo.
  split_and!.
  - case_match; simpl; [done |]. by rewrite lookup_insert_ne.
  - repeat case_match; simpl; try done; by rewrite lookup_delete_ne.
  - by case_match.
  - by repeat case_match.
Qed.

Lemma otp_endpoints_touch_one_record_witness :
  let st := A.store_otp Demo.hmac "dr-lee" "111111" 120 "77" 1000
              Demo.api_state in
  let data := {| A.req_doctor_id := Some "dr-rao"; A.req_otp := Some "456789" |} in
  let requested := (A.api_request_otp Demo.hmac A.default_config data
                      (λ i, Z.of_nat i) "5a17" 1010 st).2 in
  let verified := (A.api_verify_otp Demo.hmac Demo.jwt_encode 0
                     A.default_config data "j1" 1010 st).2 in
  A.get_otp_record "dr-lee" requested = A.get_otp_record "dr-lee" st
  ∧ A.get_otp_record "dr-lee" verified = A.get_otp_record "dr-lee" st
  ∧ A.session_blacklist requested = A.session_blacklist st
  ∧ A.session_blacklist verified = A.session_blacklist st.
Proof.
  intros st data.
  apply (otp_endpoints_touch_one_record Demo.hmac Demo.jwt_encode 0
           A.default_config data (λ i, Z.of_nat i) "5a17" "j1" "dr-lee" 1010 st).
  vm_compute. discriminate.
Defined.

End ApiExtras.

(** ** Further properties of src/healthcare_app.py *)

Module HealthcareExtras.
Import Py PyFacts PyText.

Module H := HealthcareApp.
Module S := HealthcareSite.

(** X7. [calculate_age] counts the birthdays that have passed: the
    anniversary of the date of birth numbered by the result is today or
    earlier, and the next one is still to come. *)
Theorem calculate_age_counts_birthdays (dob today : S.date) :
  let age := S.calculate_age dob today in
  S.date_le (S.anniversary age dob) today
  ∧ S.date_lt today (S.anniversary (age + 1) dob).
Proof.
  destruct dob as [dy dm dd], today as [ty tm td].
  unfold S.calculate_age, S.date_le, S.date_lt, S.anniversary, S.tuple_lt,
    S.int_of_bool. simpl.
  repeat case_bool_decide; simpl; lia.
Qed.

(** X8. [/api/get-patient] of healthcare_app.py hands out a record only
    to the patient it belongs to, or to an employee session that holds a
    grant for that very patient and reads it no later than the grant's
    expiry; the session is left as it was. *)
Theorem patient_record_disclosure_is_authorised
    (fromisoformat : string → option H.datetime) (url : string)
    (sess sess' : H.Session) (now : H.datetime) (st : H.State) (r : response) :
  H.api_get_patient fromisoformat url sess now st = (r, sess') →
  status r = 200 →
  ∃ l p,
    H.login sess = Some l
    ∧ H.find_patient url (H.patients st) = Some p
    ∧ sess' = sess
    ∧ ((H.user_type l = "patient"
        ∧ (H.user_patient_id (H.user_data l) = Some (SInt (H.id p))
           ∨ H.user_patient_id (H.user_data l) = Some (SStr (H.patient_id p)))
        ∧ r = Jsonify (JObj [("patient", H.patient_json p)]) 200)
       ∨ (H.user_type l = "employee"
          ∧ ∃ access expires,
              H.patient_access sess = Some access
              ∧ fromisoformat (H.access_expires_at access) = Some expires
              ∧ now <= expires
              ∧ H.access_patient_id access = H.patient_id p
              ∧ r = H.patient_disclosed p access)).
Proof.
  unfold H.api_get_patient.
  destruct (H.login sess) as [l|] eqn:Hl; [|by intros [= <- _]].
  destruct (H.find_patient url (H.patients st)) as [p|] eqn:Hp;
    [|by intros [= <- _]].
  case_bool_decide as Hpat.
  - intros Hr Hs. exists l, p. split_and!; try done.
    + destruct (H.user_patient_id (H.user_data l)) as [[spid|ipid]|];
        try case_bool_decide; by injection Hr as <- <-.
    + left. split; [done |].
      destruct (H.user_patient_id (H.user_data l)) as [[spid|ipid]|];
        try case_bool_decide; injection Hr as <- <-; try done; subst; auto.
  - case_bool_decide as Hemp; [|by intros [= <- _]].
    destruct (H.patient_access sess) as [access|] eqn:Ha; [|by intros [= <- _]].
    destruct (fromisoformat (H.access_expires_at access)) as [expires|] eqn:He;
      [|by intros [= <- _]].
    case_bool_decide as Hlate; [by intros [= <- _] |].
    case_bool_decide as Hsame; simpl; [|by intros [= <- _]].
    intros [= <- <-] _. exists l, p. split_and!; try done.
    right. split; [done |]. exists access, expires. split_and!; first [done | lia].
Qed.

Lemma patient_record_disclosure_is_authorised_witness :
  let granted :=
    H.employee_session "emp001" Demo.dr_smith
      (Some {| H.access_patient_id := "PAT0007";
               H.access_expires_at := Demo.isoformat 151000000 |}) in
  let r := H.patient_disclosed Demo.pat7
             {| H.access_patient_id := "PAT0007";
                H.access_expires_at := Demo.isoformat 151000000 |} in
  ∃ l p,
    H.login granted = Some l
    ∧ H.find_patient "7" (H.patients Demo.hc_state) = Some p
    ∧ granted = granted
    ∧ ((H.user_type l = "patient"
        ∧ (H.user_patient_id (H.user_data l) = Some (SInt (H.id p))
           ∨ H.user_patient_id (H.user_data l) = Some (SStr (H.patient_id p)))
        ∧ r = Jsonify (JObj [("patient", H.patient_json p)]) 200)
       ∨ (H.user_type l = "employee"
          ∧ ∃ access expires,
              H.patient_access granted = Some access
              ∧ Demo.fromisoformat (H.access_expires_at access) = Some expires
              ∧ 91000000 <= expires
              ∧ H.access_patient_id access = H.patient_id p
              ∧ r = H.patient_disclosed p access)).
Proof.
  intros granted r.
  apply (patient_record_disclosure_is_authorised Demo.fromisoformat "7"
           granted granted 91000000 Demo.hc_state r).
  - vm_compute. reflexivity.
  - reflexivity.
Defined.

(** X9. [/api/revoke-patient-access] ends the grant of an employee
    session and nothing else: the login stays, every later read of an
    existing patient through that session is answered "access_required",
    and a second revocation changes nothing more. *)
Theorem revoke_ends_grant
    (fromisoformat : string → option H.datetime) (sess : H.Session) (l : H.Login) :
  H.login sess = Some l → H.user_type l = "employee" →
  let out := H.api_revoke_patient_access sess in
  out.1 = Jsonify (JObj [("ok", JBool true)]) 200
  ∧ H.login out.2 = H.login sess
  ∧ H.patient_access out.2 = None
  ∧ H.api_revoke_patient_access out.2 = out
  ∧ ∀ url now st p,
      H.find_patient url (H.patients st) = Some p →
      H.api_get_patient fromisoformat url out.2 now st
      = (H.access_required, out.2).
Proof.
  intros Hl Hemp out.
  pose proof (HealthcareFacts.not_employee_false sess l Hl Hemp) as Hne.
  assert (out = (Jsonify (JObj [("ok", JBool true)]) 200,
                 H.drop_patient_access sess)) as Hout.
  { unfold out, H.api_revoke_patient_access. by rewrite Hne. }
  rewrite Hout. simpl. split_and!; try done.
  - unfold H.api_revoke_patient_access, H.not_employee. simpl. rewrite Hl.
    by rewrite bool_decide_eq_true_2.
  - intros url now st p Hfind.
    by apply (HealthcareFacts.api_get_patient_no_grant fromisoformat url _ l p).
Qed.

Lemma revoke_ends_grant_witness :
  let sess :=
    H.employee_session "emp001" Demo.dr_smith
      (Some {| H.access_patient_id := "PAT0007";
               H.access_expires_at := Demo.isoformat 151000000 |}) in
  let out := H.api_revoke_patient_access sess in
  out.1 = Jsonify (JObj [("ok", JBool true)]) 200
  ∧ H.login out.2 = H.login sess
  ∧ H.patient_access out.2 = None
  ∧ H.api_revoke_patient_access out.2 = out
  ∧ ∀ url now st p,
      H.find_patient url (H.patients st) = Some p →
      H.api_get_patient Demo.fromisoformat url out.2 now st
      = (H.access_required, out.2).
Proof.
  intros sess.
  apply (revoke_ends_grant Demo.fromisoformat sess
           {| H.user_type := "employee"; H.username := "emp001";
              H.user_data := Demo.dr_smith |}).
  - reflexivity.
  - reflexivity.
Defined.

(** X10. [/api/verify-otp] answers 200 only for a pending record of the
    identifier that is within its attempts, not expired and equal to the
    stripped candidate, and for an identifier still in [USERS]; the
    session it returns is then that employee's, with the grant the
    session held before, and the record is gone. *)
Theorem otp_login_only_by_matching_otp
    (cfg : H.Config) (data : H.OtpRequest) (sess : H.Session) (now : H.datetime)
    (st : H.State) :
  let out := H.api_verify_otp cfg data sess now st in
  status out.1.1 = 200 →
  ∃ identifier v record user,
    H.req_identifier data = Some identifier
    ∧ H.req_otp data = Some v
    ∧ H.otp_store st !! identifier = Some record
    ∧ H.attempts record + 1 <= H.MAX_OTP_ATTEMPTS cfg
    ∧ now <= H.expires_at record
    ∧ H.otp record = strip (str v)
    ∧ H.USERS_employee st !! identifier = Some user
    ∧ out = (H.otp_verified,
             H.employee_session identifier user (H.patient_access sess),
             H.set_otp_store (delete identifier) st).
Proof.
  intros out. unfold out, H.api_verify_otp.
  destruct data as [[identifier|] [v|]]; simpl; try done;
    try (by destruct (falsy identifier)).
  destruct (falsy identifier || scalar_falsy v); [done |].
  destruct (H.otp_store st !! identifier) as [record|] eqn:Hget; [|done].
  simpl. case_bool_decide as Hmax; [done |].
  case_bool_decide as Hlate; [done |].
  case_bool_decide as Hotp; simpl; [|done].
  destruct (H.USERS_employee st !! identifier) as [user|] eqn:Hu; [|done].
  intros _. exists identifier, v, record, user.
  split_and!; try done; try lia.
  rewrite HealthcareFacts.set_otp_store_compose. f_equal.
  apply HealthcareFacts.set_otp_store_ext. simpl. apply delete_insert_eq.
Qed.

Lemma otp_login_only_by_matching_otp_witness :
  let st := (H.request_otp_for H.default_config "emp001" 483920 0
               Demo.hc_state).2 in
  let data := {| H.req_identifier := Some "emp001";
                 H.req_otp := Some (SInt 483920) |} in
  let out := H.api_verify_otp H.default_config data Demo.anonymous 5000000 st in
  ∃ identifier v record user,
    H.req_identifier data = Some identifier
    ∧ H.req_otp data = Some v
    ∧ H.otp_store st !! identifier = Some record
    ∧ H.attempts record + 1 <= H.MAX_OTP_ATTEMPTS H.default_config
    ∧ 5000000 <= H.expires_at record
    ∧ H.otp record = strip (str v)
    ∧ H.USERS_employee st !! identifier = Some user
    ∧ out = (H.otp_verified,
             H.employee_session identifier user (H.patient_access Demo.anonymous),
             H.set_otp_store (delete identifier) st).
Proof.
  intros st data.
  apply (otp_login_only_by_matching_otp H.default_config data Demo.anonymous
           5000000 st).
  vm_compute. reflexivity.
Defined.

(** X11. [/api/verify-patient-otp] answers 200, and writes a grant, only
    for an employee session and a pending request for the phone that is
    not expired and equal to the stripped candidate; the grant is for the
    patient stored with the request and runs [PATIENT_ACCESS_SECONDS]
    from the verification. Any other answer leaves the session as it
    was. *)
Theorem grant_only_by_matching_otp
    (isoformat : H.datetime → string) (cfg : H.Config)
    (data : H.PatientOtpRequest) (sess : H.Session) (now : H.datetime)
    (st : H.State) :
  let out := H.api_verify_patient_otp isoformat cfg data sess now st in
  out.1.2 ≠ sess ∨ status out.1.1 = 200 →
  ∃ phone v record,
    H.not_employee sess = false
    ∧ H.req_phone data = Some phone
    ∧ H.req_patient_otp data = Some v
    ∧ H.patient_otp_store st !! phone = Some record
    ∧ now <= H.p_expires_at record
    ∧ H.p_otp record = strip (str v)
    ∧ out = (H.patient_otp_verified cfg,
             {| H.login := H.login sess;
                H.patient_access := Some {|
                  H.access_patient_id := H.p_patient_id record;
                  H.access_expires_at :=
                    isoformat (now + H.timedelta_seconds
                                       (H.PATIENT_ACCESS_SECONDS cfg)) |} |},
             H.set_patient_otp_store (delete phone) st).
Proof.
  intros out. unfold out, H.api_verify_patient_otp.
  destruct (H.not_employee sess) eqn:Hemp; [by intros [|] |].
  destruct data as [[phone|] pid [v|]]; simpl;
    try (by intros [|]); try (destruct (falsy phone); by intros [|]).
  destruct (falsy phone || scalar_falsy v); [by intros [|] |].
  destruct (H.patient_otp_store st !! phone) as [record|] eqn:Hget;
    [|by intros [|]].
  case_bool_decide as Hlate; [by intros [|] |].
  case_bool_decide as Hotp; simpl.
  - intros _. exists phone, v, record. split_and!; first [done | lia].
  - case_bool_decide; by intros [|].
Qed.

Lemma grant_only_by_matching_otp_witness :
  let st := (H.api_request_patient_otp H.default_config
               {| H.req_phone := Some "+1-555-0100";
                  H.req_patient_id := Some "PAT0007";
                  H.req_patient_otp := None |}
               Demo.operator 483920 1000000 Demo.hc_state).2 in
  let data := {| H.req_phone := Some "+1-555-0100"; H.req_patient_id := None;
                 H.req_patient_otp := Some (SStr " 483920 ") |} in
  let out := H.api_verify_patient_otp Demo.isoformat H.default_config data
               Demo.operator 31000000 st in
  ∃ phone v record,
    H.not_employee Demo.operator = false
    ∧ H.req_phone data = Some phone
    ∧ H.req_patient_otp data = Some v
    ∧ H.patient_otp_store st !! phone = Some record
    ∧ 31000000 <= H.p_expires_at record
    ∧ H.p_otp record = strip (str v)
    ∧ out = (H.patient_otp_verified H.default_config,
             {| H.login := H.login Demo.operator;
                H.patient_access := Some {|
                  H.access_patient_id := H.p_patient_id record;
                  H.access_expires_at :=
                    Demo.isoformat
                      (31000000 + H.timedelta_seconds
                                    (H.PATIENT_ACCESS_SECONDS H.default_config)) |} |},
             H.set_patient_otp_store (delete phone) st).
Proof.
  intros st data.
  apply (grant_only_by_matching_otp Demo.isoformat H.default_config data
           Demo.operator 31000000 st).
  right. vm_compute. reflexivity.
Defined.

(** X12. The employee OTP endpoints of healthcare_app.py work on one
    record: a request or a verify for one identifier leaves the record of
    every other identifier, the user directory, the pending consent
    requests and the patient list as they were, and a verify that is not
    answered 200 leaves the session as it was. *)
Theorem employee_otp_touches_one_record
    (cfg : H.Config) (data : H.OtpRequest) (randint : Z) (sess : H.Session)
    (now : H.datetime) (st : H.State) (other : string) :
  other ≠ or_empty (H.req_identifier data) →
  let requested := (H.api_request_otp cfg data randint now st).2 in
  let verified := H.api_verify_otp cfg data sess now st in
  (H.otp_store requested !! other = H.otp_store st !! other
   ∧ H.USERS_employee requested = H.USERS_employee st
   ∧ H.patient_otp_store requested = H.patient_otp_store st
   ∧ H.patients requested = H.patients st)
  ∧ (H.otp_store verified.2 !! other = H.otp_store st !! other
     ∧ H.USERS_employee verified.2 = H.USERS_employee st
     ∧ H.patient_otp_store verified.2 = H.patient_otp_store st
     ∧ H.patients verified.2 = H.patients st)
  ∧ (status verified.1.1 = 200 ∨ verified.1.2 = sess).
Proof.
  intros Hother requested verified.
  unfold requested, verified, H.api_request_otp, H.api_verify_otp,
    H.request_otp_for, H.send_otp_dev_log.
  split_and!.
  - repeat case_match; simpl; try done. by rewrite lookup_insert_ne.
  - by repeat case_match.
  - by repeat case_match.
  - by repeat case_match.
  - repeat case_match; simpl; try done;
      rewrite ?lookup_delete_ne, ?lookup_insert_ne; done.
  - by repeat case_match.
  - by repeat case_match.
  - by repeat case_match.
  - repeat case_match; simpl; auto.
Qed.

Lemma employee_otp_touches_one_record_witness :
  let st := (H.request_otp_for H.default_config "admin" 111111 0
               Demo.hc_state).2 in
  let data := {| H.req_identifier := Some "emp001";
                 H.req_otp := Some (SStr "000000") |} in
  let requested := (H.api_request_otp H.default_config data 483920 5 st).2 in
  let verified := H.api_verify_otp H.default_config data Demo.anonymous 5 st in
  (H.otp_store requested !! "admin" = H.otp_store st !! "admin"
   ∧ H.USERS_employee requested = H.USERS_employee st
   ∧ H.patient_otp_store requested = H.patient_otp_store st
   ∧ H.patients requested = H.patients st)
  ∧ (H.otp_store verified.2 !! "admin" = H.otp_store st !! "admin"
     ∧ H.USERS_employee verified.2 = H.USERS_employee st
     ∧ H.patient_otp_store verified.2 = H.patient_otp_store st
     ∧ H.patients verified.2 = H.patients st)
  ∧ (status verified.1.1 = 200 ∨ verified.1.2 = Demo.anonymous).
Proof.
  intros st data.
  apply (employee_otp_touches_one_record H.default_config data 483920
           Demo.anonymous 5 st "admin").
  vm_compute. discriminate.
Defined.

Lemma set_patient_otp_store_compose
    (f g : gmap string H.PatientOtpRecord → gmap string H.PatientOtpRecord)
    (st : H.State) :
  H.set_patient_otp_store f (H.set_patient_otp_store g st)
  = H.set_patient_otp_store (f ∘ g) st.
Proof. reflexivity. Qed.

Lemma set_patient_otp_store_ext
    (f g : gmap string H.PatientOtpRecord → gmap string H.PatientOtpRecord)
    (st : H.State) :
  f (H.patient_otp_store st) = g (H.patient_otp_store st) →
  H.set_patient_otp_store f st = H.set_patient_otp_store g st.
Proof. intros Heq. unfold H.set_patient_otp_store. by rewrite Heq. Qed.

Lemma add_mismatches_0 (record : H.PatientOtpRecord) :
  S.add_mismatches 0 record = record.
Proof. destruct record. unfold S.add_mismatches. simpl. by rewrite Z.add_0_r. Qed.

Section Consent.

Variable isoformat : H.datetime → string.
Variable cfg : H.Config.

#[local] Abbreviation verify_patient_otp := (H.api_verify_patient_otp isoformat cfg).
#[local] Abbreviation patient_otp_calls := (S.verify_patient_otp_calls isoformat cfg).

(** A mismatch is counted, and the sixth one drops the request. *)
Lemma consent_mismatch (phone : string) (v : scalar) (sess : H.Session)
    (now : H.datetime) (st : H.State) (record : H.PatientOtpRecord) :
  H.not_employee sess = false →
  phone ≠ "" → scalar_falsy v = false →
  H.patient_otp_store st !! phone = Some record →
  now <= H.p_expires_at record →
  H.p_otp record ≠ strip (str v) →
  verify_patient_otp
    {| H.req_phone := Some phone; H.req_patient_id := None;
       H.req_patient_otp := Some v |} sess now st
  = if bool_decide (H.p_attempts record + 1 > 5)
    then (H.fail "too many attempts" 429, sess,
          H.set_patient_otp_store (delete phone) st)
    else (H.fail "invalid otp" 400, sess,
          H.set_patient_otp_store <[phone := S.add_mismatches 1 record]> st).
Proof.
  intros Hemp Hphone Hv Hget Hlive Hne.
  unfold H.api_verify_patient_otp. simpl.
  rewrite Hemp, (falsy_false _ Hphone), Hv. simpl. rewrite Hget.
  rewrite bool_decide_eq_false_2 by lia.
  rewrite bool_decide_eq_false_2 by done. simpl.
  case_bool_decide; [|done].
  rewrite set_patient_otp_store_compose. f_equal.
  apply set_patient_otp_store_ext. simpl. apply delete_insert_eq.
Qed.

Lemma patient_otp_calls_app (phone : string)
    (xs ys : list (scalar * H.datetime)) (sess : H.Session) (st : H.State) :
  patient_otp_calls phone (xs ++ ys)%list sess st
  = let '(rs, sess1, st1) := patient_otp_calls phone xs sess st in
    let '(rs', sess2, st2) := patient_otp_calls phone ys sess1 st1 in
    ((rs ++ rs')%list, sess2, st2).
Proof.
  revert sess st. induction xs as [|[g t] xs IH]; intros sess st; simpl.
  - by destruct (patient_otp_calls phone ys sess st) as [[??]?].
  - destruct (verify_patient_otp _ sess t st) as [[r sess1] st1]. rewrite IH.
    destruct (patient_otp_calls phone xs sess1 st1) as [[rs sess2] st2].
    by destruct (patient_otp_calls phone ys sess2 st2) as [[??]?].
Qed.

Lemma patient_otp_calls_invalid (phone : string)
    (guesses : list (scalar * H.datetime)) (sess : H.Session) (st : H.State)
    (record : H.PatientOtpRecord) :
  H.not_employee sess = false → phone ≠ "" →
  H.patient_otp_store st !! phone = Some record →
  H.p_attempts record + Z.of_nat (length guesses) <= 5 →
  Forall (λ g, scalar_falsy g.1 = false
               ∧ g.2 <= H.p_expires_at record
               ∧ H.p_otp record ≠ strip (str g.1)) guesses →
  patient_otp_calls phone guesses sess st
  = (replicate (length guesses) (H.fail "invalid otp" 400), sess,
     H.set_patient_otp_store
       <[phone := S.add_mismatches (Z.of_nat (length guesses)) record]> st).
Proof.
  intros Hemp Hphone Hget Hmax Hall. revert st record Hget Hmax Hall.
  induction guesses as [|[v t] gs IH]; intros st record Hget Hmax Hall.
  - simpl. rewrite add_mismatches_0. destruct st.
    unfold H.set_patient_otp_store. simpl in *. by rewrite insert_id.
  - apply Forall_cons in Hall as [(Hv & Ht & Hne) Hall]. simpl in Hv, Ht, Hne.
    cbn [S.verify_patient_otp_calls].
    rewrite (consent_mismatch phone v sess t st record) by done.
    rewrite bool_decide_eq_false_2 by (simpl length in Hmax; lia).
    rewrite (IH (H.set_patient_otp_store <[phone := S.add_mismatches 1 record]> st)
                (S.add_mismatches 1 record)).
    + lazy beta iota zeta. rewrite set_patient_otp_store_compose. f_equal.
      apply set_patient_otp_store_ext. simpl. rewrite insert_insert_eq.
      unfold S.add_mismatches. simpl. do 2 f_equal. lia.
    + simpl. apply lookup_insert_eq.
    + simpl in *. lia.
    + done.
Qed.

End Consent.

(** X13. The consent OTP tolerates five mismatches, whatever
    [MAX_OTP_ATTEMPTS] is, and counts nothing else: on a fresh request any
    N wrong codes with N at most five, sent before the expiry, are each
    answered "invalid otp" and leave the request pending; the right code
    sent after them is still accepted, also after the fifth; a sixth
    wrong code is answered "too many attempts" and drops the request. *)
Theorem consent_otp_allows_five_mismatches
    (isoformat : H.datetime → string) (cfg : H.Config) (phone : string)
    (guesses : list (scalar * H.datetime)) (good extra : scalar * H.datetime)
    (sess : H.Session) (st : H.State) (record : H.PatientOtpRecord) :
  H.not_employee sess = false → phone ≠ "" →
  H.patient_otp_store st !! phone = Some record →
  H.p_attempts record = 0 →
  (length guesses <= 5)%nat →
  Forall (λ g, scalar_falsy g.1 = false
               ∧ g.2 <= H.p_expires_at record
               ∧ H.p_otp record ≠ strip (str g.1)) (extra :: guesses) →
  scalar_falsy good.1 = false → good.2 <= H.p_expires_at record →
  H.p_otp record = strip (str good.1) →
  let invalid := replicate (length guesses) (H.fail "invalid otp" 400) in
  S.verify_patient_otp_calls isoformat cfg phone guesses sess st
  = (invalid, sess,
     H.set_patient_otp_store
       <[phone := S.add_mismatches (Z.of_nat (length guesses)) record]> st)
  ∧ S.verify_patient_otp_calls isoformat cfg phone (guesses ++ [good])%list sess st
    = ((invalid ++ [H.patient_otp_verified cfg])%list,
       {| H.login := H.login sess;
          H.patient_access := Some {|
            H.access_patient_id := H.p_patient_id record;
            H.access_expires_at :=
              isoformat (good.2 + H.timedelta_seconds
                                    (H.PATIENT_ACCESS_SECONDS cfg)) |} |},
       H.set_patient_otp_store (delete phone) st)
  ∧ (length guesses = 5%nat →
     S.verify_patient_otp_calls isoformat cfg phone (guesses ++ [extra])%list sess st
     = ((invalid ++ [H.fail "too many attempts" 429])%list, sess,
        H.set_patient_otp_store (delete phone) st)).
Proof.
  intros Hemp Hphone Hget Hzero Hlen Hall Hgood Hgoodt Hgoodotp invalid.
  apply Forall_cons in Hall as [(Hev & Het & Hene) Hall].
  assert (S.verify_patient_otp_calls isoformat cfg phone guesses sess st
          = (invalid, sess,
             H.set_patient_otp_store
               <[phone := S.add_mismatches (Z.of_nat (length guesses)) record]>
               st)) as Hrun.
  { apply patient_otp_calls_invalid; [done | done | done | lia | done]. }
  split_and!; [done | |].
  - rewrite patient_otp_calls_app, Hrun.
    destruct good as [g tg]. cbn [S.verify_patient_otp_calls].
    simpl in Hgood, Hgoodt, Hgoodotp.
    rewrite (HealthcareFacts.api_verify_patient_otp_match isoformat cfg phone None
               g sess tg _
               (S.add_mismatches (Z.of_nat (length guesses)) record));
      [| done | done | done | simpl; apply lookup_insert_eq | done | done].
    lazy beta iota zeta. f_equal.
    rewrite set_patient_otp_store_compose.
    apply set_patient_otp_store_ext. simpl. apply delete_insert_eq.
  - intros Hfive. rewrite patient_otp_calls_app, Hrun.
    destruct extra as [e te]. cbn [S.verify_patient_otp_calls].
    simpl in Hev, Het, Hene.
    rewrite (consent_mismatch isoformat cfg phone e sess te _
               (S.add_mismatches (Z.of_nat (length guesses)) record));
      [| done | done | done | simpl; apply lookup_insert_eq | done | done].
    rewrite bool_decide_eq_true_2 by (simpl; lia).
    lazy beta iota zeta. f_equal.
    rewrite set_patient_otp_store_compose.
    apply set_patient_otp_store_ext. simpl. apply delete_insert_eq.
Qed.

Lemma consent_otp_allows_five_mismatches_witness :
  let cfg := {| H.OTP_TTL_SECONDS := 300; H.MAX_OTP_ATTEMPTS := 2;
                H.PATIENT_OTP_TTL_SECONDS := 300;
                H.PATIENT_ACCESS_SECONDS := 120 |} in
  let record := {| H.p_otp := "483920"; H.p_expires_at := 301000000;
                   H.p_attempts := 0; H.p_patient_id := "PAT0007" |} in
  let st := H.set_patient_otp_store <["+1-555-0100" := record]> Demo.hc_state in
  let guesses := replicate 5 (SStr "000000", 2000000) in
  let good := (SInt 483920, 3000000) in
  let extra := (SStr "999999", 3000000) in
  let invalid := replicate (length guesses) (H.fail "invalid otp" 400) in
  S.verify_patient_otp_calls Demo.isoformat cfg "+1-555-0100" guesses
    Demo.operator st
  = (invalid, Demo.operator,
     H.set_patient_otp_store
       <["+1-555-0100" := S.add_mismatches (Z.of_nat (length guesses)) record]> st)
  ∧ S.verify_patient_otp_calls Demo.isoformat cfg "+1-555-0100"
      (guesses ++ [good])%list Demo.operator st
    = ((invalid ++ [H.patient_otp_verified cfg])%list,
       {| H.login := H.login Demo.operator;
          H.patient_access := Some {|
            H.access_patient_id := H.p_patient_id record;
            H.access_expires_at :=
              Demo.isoformat (good.2 + H.timedelta_seconds
                                         (H.PATIENT_ACCESS_SECONDS cfg)) |} |},
       H.set_patient_otp_store (delete "+1-555-0100") st)
  ∧ (length guesses = 5%nat →
     S.verify_patient_otp_calls Demo.isoformat cfg "+1-555-0100"
       (guesses ++ [extra])%list Demo.operator st
     = ((invalid ++ [H.fail "too many attempts" 429])%list, Demo.operator,
        H.set_patient_otp_store (delete "+1-555-0100") st)).
Proof.
  intros cfg record st guesses good extra.
  apply (consent_otp_allows_five_mismatches Demo.isoformat cfg "+1-555-0100"
           guesses good extra Demo.operator st record).
  - reflexivity.
  - discriminate.
  - vm_compute. reflexivity.
  - reflexivity.
  - vm_compute. lia.
  - repeat constructor; vm_compute; discriminate.
  - reflexivity.
  - vm_compute. discriminate.
  - vm_compute. reflexivity.
Defined.

Lemma otp_cleanup_pass_spec (sweep : H.datetime) (st : H.State)
    (identifier : string) (record : H.OtpRecord) :
  H.otp_store (H.otp_cleanup_pass sweep st) !! identifier = Some record
  ↔ H.otp_store st !! identifier = Some record ∧ sweep <= H.expires_at record.
Proof.
  unfold H.otp_cleanup_pass. simpl. rewrite map_lookup_filter_Some. simpl.
  split; intros [? ?]; (split; [done | lia]).
Qed.

(** X14. A pass of [otp_cleanup_task] removes the records that expired
    before the moment of the pass and no other; a second pass at the same
    moment removes nothing more, and no verify made from that moment on
    can tell whether the pass ran: it is answered 200 after the pass
    exactly when it would have been without it, with the same response
    and session. *)
Theorem cleanup_pass_is_transparent
    (cfg : H.Config) (data : H.OtpRequest) (sess : H.Session)
    (sweep now : H.datetime) (st : H.State) :
  sweep <= now →
  let swept := H.otp_cleanup_pass sweep st in
  (∀ identifier record,
     H.otp_store swept !! identifier = Some record
     ↔ H.otp_store st !! identifier = Some record
       ∧ sweep <= H.expires_at record)
  ∧ H.otp_cleanup_pass sweep swept = swept
  ∧ (status (H.api_verify_otp cfg data sess now swept).1.1 = 200
     ↔ status (H.api_verify_otp cfg data sess now st).1.1 = 200)
  ∧ (status (H.api_verify_otp cfg data sess now st).1.1 = 200 →
     (H.api_verify_otp cfg data sess now swept).1
     = (H.api_verify_otp cfg data sess now st).1).
Proof.
  intros Hle swept.
  assert (status (H.api_verify_otp cfg data sess now swept).1.1 = 200
          ∨ status (H.api_verify_otp cfg data sess now st).1.1 = 200 →
          (H.api_verify_otp cfg data sess now swept).1
          = (H.api_verify_otp cfg data sess now st).1) as Hsame.
  { unfold H.api_verify_otp.
    destruct (missing (H.req_identifier data) || scalar_missing (H.req_otp data));
      [done |].
    set (identifier := or_empty (H.req_identifier data)).
    destruct (H.otp_store st !! identifier) as [record|] eqn:Hget.
    - destruct (decide (sweep <= H.expires_at record)) as [Hkeep|Hdrop].
      + assert (H.otp_store swept !! identifier = Some record) as ->
          by by apply otp_cleanup_pass_spec.
        simpl. by repeat case_match.
      + assert (H.otp_store swept !! identifier = None) as ->.
        { destruct (H.otp_store swept !! identifier) as [r|] eqn:Hs; [|done].
          apply otp_cleanup_pass_spec in Hs as [Hs ?].
          rewrite Hget in Hs. injection Hs as <-. lia. }
        simpl. case_bool_decide; [by intros [|] |].
        rewrite bool_decide_eq_true_2 by lia. by intros [|].
    - assert (H.otp_store swept !! identifier = None) as ->; [|done].
      destruct (H.otp_store swept !! identifier) as [r|] eqn:Hs; [|done].
      apply otp_cleanup_pass_spec in Hs as [Hs _]. by rewrite Hget in Hs. }
  split_and!.
  - intros identifier record. apply otp_cleanup_pass_spec.
  - unfold swept, H.otp_cleanup_pass.
    rewrite HealthcareFacts.set_otp_store_compose.
    apply HealthcareFacts.set_otp_store_ext. simpl.
    apply map_filter_id. intros i x Hx.
    by apply map_lookup_filter_Some_1_2 in Hx.
  - split; intros Hs.
    + rewrite <- Hsame by auto. done.
    + rewrite Hsame by auto. done.
  - intros Hs. apply Hsame. auto.
Qed.

Lemma cleanup_pass_is_transparent_witness :
  let st := (H.request_otp_for H.default_config "emp001" 483920 0
               Demo.hc_state).2 in
  let data := {| H.req_identifier := Some "emp001";
                 H.req_otp := Some (SStr "483920") |} in
  let swept := H.otp_cleanup_pass 60000000 st in
  (∀ identifier record,
     H.otp_store swept !! identifier = Some record
     ↔ H.otp_store st !! identifier = Some record
       ∧ 60000000 <= H.expires_at record)
  ∧ H.otp_cleanup_pass 60000000 swept = swept
  ∧ (status (H.api_verify_otp H.default_config data Demo.anonymous
               61000000 swept).1.1 = 200
     ↔ status (H.api_verify_otp H.default_config data Demo.anonymous
                 61000000 st).1.1 = 200)
  ∧ (status (H.api_verify_otp H.default_config data Demo.anonymous
               61000000 st).1.1 = 200 →
     (H.api_verify_otp H.default_config data Demo.anonymous 61000000 swept).1
     = (H.api_verify_otp H.default_config data Demo.anonymous 61000000 st).1).
Proof.
  intros st data.
  apply (cleanup_pass_is_transparent H.default_config data Demo.anonymous
           60000000 61000000 st).
  lia.
Defined.

(** X15. A grant lives in the browser session, not with the employee:
    when a session that holds a live grant logs in again through the
    employee OTP, as the same or as another employee, the grant is kept
    and the patient it names is still disclosed. *)
Theorem grant_survives_otp_login
    (fromisoformat : string → option H.datetime) (cfg : H.Config)
    (sess : H.Session) (access : H.Access) (expires : H.datetime)
    (identifier : string) (v : scalar) (now later : H.datetime) (st : H.State)
    (record : H.OtpRecord) (user : H.UserData) (url : string) (p : H.Patient) :
  H.patient_access sess = Some access →
  fromisoformat (H.access_expires_at access) = Some expires →
  later <= expires →
  H.find_patient url (H.patients st) = Some p →
  H.access_patient_id access = H.patient_id p →
  identifier ≠ "" → scalar_falsy v = false →
  H.otp_store st !! identifier = Some record →
  H.attempts record + 1 <= H.MAX_OTP_ATTEMPTS cfg →
  now <= H.expires_at record →
  H.otp record = strip (str v) →
  H.USERS_employee st !! identifier = Some user →
  let out := H.api_verify_otp cfg
               {| H.req_identifier := Some identifier; H.req_otp := Some v |}
               sess now st in
  out.1.1 = H.otp_verified
  ∧ out.1.2 = H.employee_session identifier user (Some access)
  ∧ H.api_get_patient fromisoformat url out.1.2 later out.2
    = (H.patient_disclosed p access, out.1.2).
Proof.
  intros Hacc Hiso Hlater Hfind Hsame Hid Hv Hget Hmax Hlive Hotp Huser out.
  assert (out = (H.otp_verified,
                 H.employee_session identifier user (Some access),
                 H.set_otp_store (delete identifier) st)) as Hout.
  { unfold out. rewrite <- Hacc.
    by apply (HealthcareFacts.hc_verify_otp_match cfg identifier v sess now st
                record user). }
  rewrite Hout. simpl. split_and!; [done | done |].
  rewrite (HealthcareFacts.api_get_patient_granted fromisoformat url
             (H.employee_session identifier user (Some access))
             {| H.user_type := "employee"; H.username := identifier;
                H.user_data := user |} access expires p later
             (H.set_otp_store (delete identifier) st)
             eq_refl eq_refl Hfind eq_refl Hiso).
  rewrite bool_decide_eq_false_2 by lia.
  by rewrite bool_decide_eq_true_2.
Qed.

Lemma grant_survives_otp_login_witness :
  let access := {| H.access_patient_id := "PAT0007";
                   H.access_expires_at := Demo.isoformat 151000000 |} in
  let sess := H.employee_session "emp001" Demo.dr_smith (Some access) in
  let st := (H.request_otp_for H.default_config "admin" 111111 0
               S.sample_site.(S.app)).2 in
  let out := H.api_verify_otp H.default_config
               {| H.req_identifier := Some "admin";
                  H.req_otp := Some (SStr "111111") |} sess 60000000 st in
  out.1.1 = H.otp_verified
  ∧ out.1.2 = H.employee_session "admin" S.admin_user (Some access)
  ∧ H.api_get_patient Demo.fromisoformat "PAT0007" out.1.2 90000000 out.2
    = (H.patient_disclosed Demo.pat7 access, out.1.2).
Proof.
  intros access sess st.
  apply (grant_survives_otp_login Demo.fromisoformat H.default_config sess
           access 151000000 "admin" (SStr "111111") 60000000 90000000 st
           {| H.otp := "111111"; H.expires_at := 300000000; H.attempts := 0 |}
           S.admin_user "PAT0007" Demo.pat7).
  - reflexivity.
  - vm_compute. reflexivity.
  - lia.
  - vm_compute. reflexivity.
  - reflexivity.
  - discriminate.
  - reflexivity.
  - vm_compute. reflexivity.
  - vm_compute. discriminate.
  - vm_compute. discriminate.
  - vm_compute. reflexivity.
  - vm_compute. reflexivity.
Defined.

(** *** Identifiers of the generated directory *)

Lemma pretty_N_go_head (x : N) (s : string) :
  (0 < x)%N →
  ∃ c r, pretty_N_go x s = String c r ∧ isdigit c = true ∧ c ≠ "0"%char.
Proof.
  revert s. induction (N.lt_wf_0 x) as [x _ IH]. intros s Hx.
  rewrite pretty_N_go_step by done.
  destruct (decide (x `div` 10 = 0)%N) as [Hz|Hnz].
  - rewrite Hz, pretty_N_go_0.
    exists (pretty_N_char (x `mod` 10)), s.
    split_and!; [done | apply ApiExtras.pretty_N_char_isdigit |].
    assert (x < 10)%N as Hlt by by apply N.div_small_iff.
    rewrite N.mod_small by done.
    assert (x = 1 ∨ x = 2 ∨ x = 3 ∨ x = 4 ∨ x = 5 ∨ x = 6 ∨ x = 7 ∨ x = 8 ∨ x = 9)%N
      as Hcases by lia.
    destruct Hcases as [->|[->|[->|[->|[->|[->|[->|[->| ->]]]]]]]]; discriminate.
  - apply IH; [apply N.div_lt; lia | by apply N.neq_0_lt_0].
Qed.

(** A positive number prints with a leading digit other than zero. *)
Lemma str_int_head (n : Z) :
  1 <= n → ∃ c r, str_int n = String c r ∧ isdigit c = true ∧ c ≠ "0"%char.
Proof.
  intros Hn. unfold str_int, pretty, pretty_Z. destruct n as [|p|p]; [lia | | lia].
  unfold pretty, pretty_positive, pretty, pretty_N. case_decide; [done |].
  by apply pretty_N_go_head.
Qed.

Lemma zfill_digit_head (width : nat) (c : ascii) (r : string) :
  isdigit c = true →
  zfill width (String c r)
  = zeros (width - String.length (String c r)) +:+ String c r.
Proof.
  intros Hc. unfold zfill.
  destruct c as [[] [] [] [] [] [] [] []];
    first [reflexivity | (vm_compute in Hc; discriminate Hc)].
Qed.

Lemma zeros_app_inj (k k' : nat) (c c' : ascii) (r r' : string) :
  c ≠ "0"%char → c' ≠ "0"%char →
  zeros k +:+ String c r = zeros k' +:+ String c' r' →
  String c r = String c' r'.
Proof.
  intros Hc Hc'. revert k'. induction k as [|k IH]; intros [|k']; simpl.
  - done.
  - rewrite app_cons. intros [= -> _]. done.
  - rewrite app_cons. intros [= <- _]. done.
  - rewrite !app_cons. intros [= Heq]. by apply (IH k').
Qed.

(** Padding with zeros keeps positive numbers apart. *)
Lemma zfill_str_int_inj (width : nat) (a b : Z) :
  1 <= a → 1 <= b →
  zfill width (str_int a) = zfill width (str_int b) → a = b.
Proof.
  intros Ha Hb.
  destruct (str_int_head a Ha) as (c & r & Hsa & Hda & Hza).
  destruct (str_int_head b Hb) as (c' & r' & Hsb & Hdb & Hzb).
  rewrite Hsa, Hsb, !zfill_digit_head by done.
  intros Heq%zeros_app_inj; [|done..].
  rewrite <- Hsa, <- Hsb in Heq. unfold str_int in Heq.
  by apply (inj pretty) in Heq.
Qed.

Lemma str_int_not_pat (n : Z) (r : string) : 0 <= n → str_int n ≠ "PAT" +:+ r.
Proof.
  intros Hn Heq. pose proof (ApiExtras.str_int_all_digits n Hn) as Hd.
  rewrite Heq in Hd. done.
Qed.

(** In a directory made by [generate_patient_data], and in what is left
    of one after deletions, no ['id'] prints as a ['patient_id']. *)
Lemma generated_ids_are_not_patient_ids (count : Z)
    (fields : nat → list (string * json)) (ps : list H.Patient) (p q : H.Patient) :
  ps ⊆ S.generate_patient_data count fields →
  p ∈ ps → q ∈ ps → str_int (H.id p) ≠ H.patient_id q.
Proof.
  intros Hsub Hp%Hsub Hq%Hsub. unfold S.generate_patient_data in Hp, Hq.
  apply list_elem_of_fmap in Hp as (i & -> & _).
  apply list_elem_of_fmap in Hq as (j & -> & _).
  simpl. apply str_int_not_pat. lia.
Qed.

Lemma find_fmap_seq {A : Type} (P : A → bool) (f : nat → A) (a n i : nat) :
  (a <= i < a + n)%nat →
  P (f i) = true →
  (∀ j, (a <= j < i)%nat → P (f j) = false) →
  List.find P (f <$> seq a n) = Some (f i).
Proof.
  revert a. induction n as [|n IH]; intros a Hi Hp Hbefore; [lia |].
  simpl. destruct (decide (a = i)) as [->|Hne].
  - by rewrite Hp.
  - rewrite Hbefore by lia. apply IH; [lia | done |].
    intros j Hj. apply Hbefore. lia.
Qed.

(** X16. In a directory made by [generate_patient_data] every patient is
    found by [/api/get-patient] under both of its names: for each [k]
    from 1 to [count], the lookup of ["PAT"] followed by the zero-padded
    [k], and the lookup of the decimal [k], return the record whose
    ['id'] is [k]; the directory has [count] records. *)
Theorem generated_directory_resolves
    (count : Z) (fields : nat → list (string * json)) (k : Z) :
  1 <= k <= count →
  let ps := S.generate_patient_data count fields in
  let p := {| H.id := k;
              H.patient_id := "PAT" +:+ zfill 4 (str_int k);
              H.details := fields (Z.to_nat (k - 1)) |} in
  H.find_patient (H.patient_id p) ps = Some p
  ∧ H.find_patient (str_int k) ps = Some p
  ∧ length ps = Z.to_nat count.
Proof.
  intros Hk ps p.
  set (f := λ i : nat,
         {| H.id := Z.of_nat i + 1;
            H.patient_id := "PAT" +:+ zfill 4 (str_int (Z.of_nat i + 1));
            H.details := fields i |}).
  assert (p = f (Z.to_nat (k - 1))) as Hp.
  { unfold p, f. by replace (Z.of_nat (Z.to_nat (k - 1)) + 1) with k by lia. }
  unfold ps, S.generate_patient_data, H.find_patient. fold f. split_and!.
  - rewrite Hp. apply find_fmap_seq; [lia | |].
    + simpl. by rewrite bool_decide_eq_true_2.
    + intros j Hj. simpl. apply orb_false_intro.
      * apply bool_decide_eq_false_2.
        intros Heq%(inj (String.app "PAT")).
        apply zfill_str_int_inj in Heq; lia.
      * apply bool_decide_eq_false_2. apply str_int_not_pat. lia.
  - rewrite Hp. apply find_fmap_seq; [lia | |].
    + simpl. apply orb_true_intro. right. apply bool_decide_eq_true_2.
      f_equal. lia.
    + intros j Hj. simpl. apply orb_false_intro.
      * apply bool_decide_eq_false_2. intros Heq. symmetry in Heq.
        by apply str_int_not_pat in Heq; [|lia].
      * apply bool_decide_eq_false_2. unfold str_int.
        intros Heq%(inj pretty). lia.
  - by rewrite length_fmap, length_seq.
Qed.

Lemma generated_directory_resolves_witness :
  let fields := λ i : nat, [("age", JInt (Z.of_nat i + 18))] in
  let ps := S.generate_patient_data 300 fields in
  let p := {| H.id := 7;
              H.patient_id := "PAT" +:+ zfill 4 (str_int 7);
              H.details := fields (Z.to_nat (7 - 1)) |} in
  H.find_patient (H.patient_id p) ps = Some p
  ∧ H.find_patient (str_int 7) ps = Some p
  ∧ length ps = Z.to_nat 300.
Proof.
  intros fields.
  apply (generated_directory_resolves 300 fields 7). lia.
Defined.

(** *** Patient login by OTP *)

(** X17. A patient who logs in through [/api/request-patient-login-otp]
    and [/api/verify-patient-login-otp] gets a patient session, uses up
    the OTP, leaves the employee OTP store alone, and can then read
    through [/api/get-patient] the record whose ['id'] is the
    [patient_id] of the login, and no other record. *)
Theorem patient_otp_login_reads_own_record
    (fromisoformat : string → option H.datetime) (cfg : H.Config) (ttl : Z)
    (identifier : string) (randint : Z) (sess : H.Session)
    (t t' now : H.datetime) (site : S.Site) (user : H.UserData) (n : Z)
    (url : string) (p : H.Patient) :
  identifier ≠ "" →
  H.USERS_patient (S.app site) !! identifier = Some user →
  H.user_patient_id user = Some (SInt n) →
  1 <= H.MAX_OTP_ATTEMPTS cfg →
  t' <= t + H.timedelta_seconds ttl →
  H.find_patient url (H.patients (S.app site)) = Some p →
  let ask := {| H.req_identifier := Some identifier; H.req_otp := None |} in
  let answer := {| H.req_identifier := Some identifier;
                   H.req_otp := Some (SStr (H._generate_otp randint)) |} in
  let site1 := (S.api_request_patient_login_otp ttl ask randint t site).2 in
  let out := S.api_verify_patient_login_otp cfg answer sess t' site1 in
  status out.1.1 = 200
  ∧ H.login out.1.2 = Some {| H.user_type := "patient";
                              H.username := identifier; H.user_data := user |}
  ∧ S.patient_login_otp_store out.2 !! identifier = None
  ∧ H.otp_store (S.app out.2) = H.otp_store (S.app site)
  ∧ H.api_get_patient fromisoformat url out.1.2 now (S.app out.2)
    = (if bool_decide (n = H.id p)
       then Jsonify (JObj [("patient", H.patient_json p)]) 200
       else H.unauthorized,
       out.1.2).
Proof.
  intros Hid Huser Hpid Hmax Hlive Hfind ask answer site1 out.
  assert (site1
          = S.set_app
              (H.print ("[DEV-PATIENT-LOGIN-OTP] Identifier=" +:+ identifier +:+
                        " OTP=" +:+ H._generate_otp randint +:+ " (valid " +:+
                        str_int ttl +:+ "s)"))
              (S.set_patient_login_otp_store
                 <[identifier := {| H.otp := H._generate_otp randint;
                                    H.expires_at := t + H.timedelta_seconds ttl;
                                    H.attempts := 0 |}]> site)) as Hsite1.
  { unfold site1, S.api_request_patient_login_otp, ask. simpl.
    by rewrite (falsy_false _ Hid), Huser. }
  assert (out.1.1 = Jsonify (JObj [("ok", JBool true);
                                   ("message", JStr "OTP verified");
                                   ("redirect", JStr "/patient_dashboard")]) 200
          ∧ out.1.2 = {| H.login := Some {| H.user_type := "patient";
                                            H.username := identifier;
                                            H.user_data := user |};
                         H.patient_access := H.patient_access sess |}
          ∧ S.patient_login_otp_store out.2 !! identifier = None
          ∧ S.app out.2 = S.app site1) as (Hr & Hs & Hgone & Happ).
  { unfold out, S.api_verify_patient_login_otp, answer, H._generate_otp. simpl.
    rewrite (falsy_false _ Hid).
    rewrite (falsy_false _ (str_int_nonempty randint)). simpl.
    rewrite Hsite1. simpl. rewrite lookup_insert_eq. simpl.
    rewrite bool_decide_eq_false_2 by lia.
    rewrite bool_decide_eq_false_2 by lia.
    unfold H._generate_otp. rewrite strip_str_int.
    rewrite bool_decide_eq_true_2 by done. simpl.
    rewrite Huser. simpl. split_and!; try done.
    apply lookup_delete_eq. }
  split_and!.
  - by rewrite Hr.
  - by rewrite Hs.
  - done.
  - by rewrite Happ, Hsite1.
  - rewrite Happ, Hs, Hsite1. unfold H.api_get_patient. simpl.
    rewrite Hfind, Hpid. by case_bool_decide.
Qed.

Lemma patient_otp_login_reads_own_record_witness :
  let ask := {| H.req_identifier := Some "pat001"; H.req_otp := None |} in
  let answer := {| H.req_identifier := Some "pat001";
                   H.req_otp := Some (SStr (H._generate_otp 483920)) |} in
  let site1 := (S.api_request_patient_login_otp 300 ask 483920 0
                  S.sample_site).2 in
  let out := S.api_verify_patient_login_otp H.default_config answer
               Demo.anonymous 5000000 site1 in
  status out.1.1 = 200
  ∧ H.login out.1.2 = Some {| H.user_type := "patient";
                              H.username := "pat001";
                              H.user_data := S.pat001 |}
  ∧ S.patient_login_otp_store out.2 !! "pat001" = None
  ∧ H.otp_store (S.app out.2) = H.otp_store (S.app S.sample_site)
  ∧ H.api_get_patient Demo.fromisoformat "PAT0099" out.1.2 6000000 (S.app out.2)
    = (if bool_decide (7 = H.id Demo.pat99)
       then Jsonify (JObj [("patient", H.patient_json Demo.pat99)]) 200
       else H.unauthorized,
       out.1.2).
Proof.
  apply (patient_otp_login_reads_own_record Demo.fromisoformat H.default_config
           300 "pat001" 483920 Demo.anonymous 0 5000000 6000000 S.sample_site
           S.pat001 7 "PAT0099" Demo.pat99).
  - discriminate.
  - vm_compute. reflexivity.
  - reflexivity.
  - vm_compute. discriminate.
  - vm_compute. discriminate.
  - vm_compute. reflexivity.
Defined.

(** *** The employee directory *)

Lemma foldl_max_bound (es : list S.Employee) (m : Z) :
  m <= foldl (λ m e, Z.max m (S.e_id e)) m es
  ∧ ∀ e, e ∈ es → S.e_id e <= foldl (λ m e, Z.max m (S.e_id e)) m es.
Proof.
  revert m. induction es as [|e es IH]; intros m; simpl.
  - split; [lia |]. intros e He. by apply elem_of_nil in He.
  - destruct (IH (Z.max m (S.e_id e))) as [Hm Hall]. split; [lia |].
    intros e' [-> | He']%elem_of_cons; [lia | by apply Hall].
Qed.

Lemma max_id_bound (es : list S.Employee) (e : S.Employee) :
  e ∈ es → S.e_id e <= S.max_id es.
Proof.
  destruct es as [|e0 es]; [by intros ?%elem_of_nil |].
  unfold S.max_id. destruct (foldl_max_bound es (S.e_id e0)) as [Hm Hall].
  intros [-> | He]%elem_of_cons; [done | by apply Hall].
Qed.

Lemma pop_first_spec (emp_id : Z) (es rest : list S.Employee) (removed : S.Employee) :
  S.pop_first emp_id es = Some (removed, rest) →
  S.e_id removed = emp_id ∧ es ≡ₚ removed :: rest.
Proof.
  revert rest. induction es as [|e es IH]; intros rest; simpl; [done |].
  case_bool_decide as He.
  - by intros [= <- <-].
  - destruct (S.pop_first emp_id es) as [[r rest']|]; [|done].
    intros [= <- <-]. destruct (IH rest' eq_refl) as [Hid Hperm].
    split; [done |]. rewrite Hperm. apply Permutation_swap.
Qed.

Lemma pop_first_found (emp_id : Z) (es : list S.Employee) :
  (∃ e, e ∈ es ∧ S.e_id e = emp_id) → is_Some (S.pop_first emp_id es).
Proof.
  induction es as [|e es IH]; intros (e' & Hin & Hid); simpl.
  - by apply elem_of_nil in Hin.
  - case_bool_decide as He; [eauto |].
    apply elem_of_cons in Hin as [-> | Hin]; [done |].
    destruct IH as [[r rest] ->]; eauto.
Qed.

Lemma update_first_ids (emp_id : Z) (f : S.Employee → S.Employee)
    (es es' : list S.Employee) (emp : S.Employee) :
  (∀ e, S.e_id (f e) = S.e_id e) →
  S.update_first emp_id f es = Some (emp, es') →
  S.e_id <$> es' = S.e_id <$> es
  ∧ S.e_id emp = emp_id
  ∧ emp ∈ es'
  ∧ ∃ e, e ∈ es ∧ emp = f e.
Proof.
  intros Hf. revert es'. induction es as [|e es IH]; intros es'; simpl; [done |].
  case_bool_decide as He.
  - intros [= <- <-]. rewrite !fmap_cons, Hf. split_and!; try done.
    + apply list_elem_of_here.
    + exists e. split; [apply list_elem_of_here | done].
  - destruct (S.update_first emp_id f es) as [[emp' rest]|]; [|done].
    intros [= <- <-]. destruct (IH rest eq_refl) as (Hids & Hid & Hin & e0 & He0 & Hemp).
    rewrite !fmap_cons, Hids. split_and!; try done.
    + by apply list_elem_of_further.
    + exists e0. split; [by apply list_elem_of_further | done].
Qed.

Lemma update_first_none (emp_id : Z) (f : S.Employee → S.Employee)
    (es : list S.Employee) :
  S.update_first emp_id f es = None → ∀ e, e ∈ es → S.e_id e ≠ emp_id.
Proof.
  induction es as [|e es IH]; simpl; [by intros _ e ?%elem_of_nil |].
  case_bool_decide as He; [done |].
  destruct (S.update_first emp_id f es) as [[emp' rest]|]; [done |].
  intros _ e' [-> | Hin]%elem_of_cons; [done | by apply IH].
Qed.

(** [update_first] rewrites the first employee with the id, where it
    stands, and leaves the employees before and after it alone. *)
Lemma update_first_split (emp_id : Z) (f : S.Employee → S.Employee)
    (es es' : list S.Employee) (emp : S.Employee) :
  S.update_first emp_id f es = Some (emp, es') →
  ∃ before old after,
    es = (before ++ old :: after)%list
    ∧ (∀ e, e ∈ before → S.e_id e ≠ emp_id)
    ∧ S.e_id old = emp_id
    ∧ emp = f old
    ∧ es' = (before ++ emp :: after)%list.
Proof.
  revert es'. induction es as [|e es IH]; intros es'; simpl; [done |].
  case_bool_decide as He.
  - intros [= <- <-]. exists [], e, es. split_and!; try done.
    by intros e' ?%elem_of_nil.
  - destruct (S.update_first emp_id f es) as [[emp' rest]|]; [|done].
    intros [= <- <-].
    destruct (IH rest eq_refl) as (before & old & after & -> & Hb & Hid & Hemp & ->).
    exists (e :: before), old, after. split_and!; try done.
    intros e' [-> | Hin]%elem_of_cons; [done | by apply Hb].
Qed.

(** X18. Only an administrator's session changes the employee directory:
    for any other session, adding, updating, deleting an employee and
    changing a password are all answered 403 "unauthorized" and leave the
    site as it was. A session is an administrator's exactly when it is
    logged in as an employee whose role is "Administrator". *)
Theorem employee_directory_needs_admin
    (data : S.EmployeeForm) (sess : H.Session) (today now_iso : string)
    (site : S.Site) (emp_id : Z) (method : S.Method)
    (new_password : option string) :
  S._is_admin_session sess = false →
  S.api_add_employee data sess today now_iso site
  = (S.refused "unauthorized" 403, site)
  ∧ S.api_modify_employee emp_id method data sess now_iso site
    = (S.refused "unauthorized" 403, site)
  ∧ S.api_change_employee_password emp_id new_password sess site
    = (S.refused "unauthorized" 403, site)
  ∧ ∀ s, S._is_admin_session s = true
         ↔ ∃ l, H.login s = Some l ∧ H.user_type l = "employee"
                ∧ H.role (H.user_data l) = Some "Administrator".
Proof.
  intros Hadmin. unfold S.api_add_employee, S.api_modify_employee,
    S.api_change_employee_password. rewrite Hadmin. simpl.
  split_and!; try done.
  intros s. unfold S._is_admin_session.
  destruct (H.login s) as [l|]; [|split; [done | by intros (l & ? & _)]].
  rewrite andb_true_iff, !bool_decide_eq_true. split.
  - intros [? ?]. by exists l.
  - by intros (l' & [= <-] & ? & ?).
Qed.

Lemma employee_directory_needs_admin_witness :
  let data := {| S.f_name := Some "Eve"; S.f_role := Some "Administrator";
                 S.f_department := None; S.f_email := None; S.f_phone := None;
                 S.f_status := None; S.f_password := Some "x" |} in
  S.api_add_employee data Demo.operator "2025-11-21" "2025-11-21T10:00:00"
    S.sample_site
  = (S.refused "unauthorized" 403, S.sample_site)
  ∧ S.api_modify_employee 1 S.DELETE data Demo.operator "2025-11-21T10:00:00"
      S.sample_site
    = (S.refused "unauthorized" 403, S.sample_site)
  ∧ S.api_change_employee_password 0 (Some "x") Demo.operator S.sample_site
    = (S.refused "unauthorized" 403, S.sample_site)
  ∧ ∀ s, S._is_admin_session s = true
         ↔ ∃ l, H.login s = Some l ∧ H.user_type l = "employee"
                ∧ H.role (H.user_data l) = Some "Administrator".
Proof.
  intros data.
  apply (employee_directory_needs_admin data Demo.operator "2025-11-21"
           "2025-11-21T10:00:00" S.sample_site 1 S.DELETE (Some "x")).
  reflexivity.
Defined.

(** X19. [POST /api/employees] by an administrator, with a name and a
    role, appends one employee whose ['id'] is one more than the largest
    in the directory (1 in an empty one), hence larger than every id in
    use: ids that were distinct stay distinct. With a password it also
    writes the login ["emp"] followed by the zero-padded id, over
    whatever login had that name, and the employee OTP can at once be
    requested for it; without one the logins are untouched. *)
Theorem add_employee_gets_fresh_id
    (cfg : H.Config) (data : S.EmployeeForm) (sess : H.Session)
    (today now_iso : string) (site : S.Site) (randint : Z) (now : H.datetime) :
  S._is_admin_session sess = true →
  or_empty (S.f_name data) ≠ "" → or_empty (S.f_role data) ≠ "" →
  let out := S.api_add_employee data sess today now_iso site in
  let new_id := S.max_id (S.employees site) + 1 in
  let username := "emp" +:+ zfill 3 (str_int new_id) in
  ∃ e,
    S.employees out.2 = (S.employees site ++ [e])%list
    ∧ out.1 = Jsonify (JObj [("success", JBool true);
                             ("employee", S.employee_json e)]) 200
    ∧ S.e_id e = new_id
    ∧ S.e_employee_id e = "EMP" +:+ zfill 4 (str_int new_id)
    ∧ S.e_name e = or_empty (S.f_name data)
    ∧ S.e_role e = or_empty (S.f_role data)
    ∧ (∀ e', e' ∈ S.employees site → S.e_id e' < S.e_id e)
    ∧ (NoDup (S.e_id <$> S.employees site) →
       NoDup (S.e_id <$> S.employees out.2))
    ∧ (if missing (S.f_password data)
       then S.app out.2 = S.app site
       else
         H.USERS_employee (S.app out.2) !! username
         = Some {| H.password := or_empty (S.f_password data);
                   H.name := S.e_name e; H.role := Some (S.e_role e);
                   H.employee_id := Some new_id; H.user_patient_id := None |}
         ∧ (H.api_request_otp cfg
              {| H.req_identifier := Some username; H.req_otp := None |}
              randint now (S.app out.2)).1 = H.otp_generated).
Proof.
  intros Hadmin Hname Hrole out new_id username.
  assert (missing (S.f_name data) = false) as Hmn.
  { destruct (S.f_name data); [by apply falsy_false | done]. }
  assert (missing (S.f_role data) = false) as Hmr.
  { destruct (S.f_role data); [by apply falsy_false | done]. }
  unfold out, S.api_add_employee. rewrite Hadmin, Hmn, Hmr. simpl.
  eexists. split_and!; try reflexivity.
  - destruct (missing (S.f_password data)); reflexivity.
  - intros e' He'. simpl. pose proof (max_id_bound _ _ He'). lia.
  - intros Hnd.
    assert (S.e_id <$> S.employees
              (if missing (S.f_password data)
               then S.set_employees (λ es, es ++ [_])%list site
               else S.set_app _ (S.set_employees (λ es, es ++ [_])%list site))
            = ((S.e_id <$> S.employees site) ++ [new_id])%list) as ->.
    { destruct (missing (S.f_password data)); simpl; by rewrite fmap_app. }
    apply NoDup_app. split_and!; [done | | apply NoDup_singleton].
    intros x Hx [= ->]%list_elem_of_singleton.
    apply list_elem_of_fmap in Hx as (e' & Heq & He').
    pose proof (max_id_bound _ _ He'). unfold new_id in Heq. lia.
  - destruct (missing (S.f_password data)) eqn:Hpw; [done |].
    assert (username ≠ "") as Hu by (unfold username; by rewrite app_cons).
    split; [simpl; apply lookup_insert_eq |].
    rewrite HealthcareFacts.hc_request_otp_accepted; [done | done |].
    simpl. rewrite lookup_insert_eq. eauto.
Qed.

Lemma add_employee_gets_fresh_id_witness :
  let data := {| S.f_name := Some "Eve Adams"; S.f_role := Some "Nurse";
                 S.f_department := Some "Cardiology"; S.f_email := None;
                 S.f_phone := None; S.f_status := None;
                 S.f_password := Some "s3cret" |} in
  let sess := H.employee_session "admin" S.admin_user None in
  let out := S.api_add_employee data sess "2025-11-21" "2025-11-21T10:00:00"
               S.sample_site in
  let new_id := S.max_id (S.employees S.sample_site) + 1 in
  let username := "emp" +:+ zfill 3 (str_int new_id) in
  ∃ e,
    S.employees out.2 = (S.employees S.sample_site ++ [e])%list
    ∧ out.1 = Jsonify (JObj [("success", JBool true);
                             ("employee", S.employee_json e)]) 200
    ∧ S.e_id e = new_id
    ∧ S.e_employee_id e = "EMP" +:+ zfill 4 (str_int new_id)
    ∧ S.e_name e = or_empty (S.f_name data)
    ∧ S.e_role e = or_empty (S.f_role data)
    ∧ (∀ e', e' ∈ S.employees S.sample_site → S.e_id e' < S.e_id e)
    ∧ (NoDup (S.e_id <$> S.employees S.sample_site) →
       NoDup (S.e_id <$> S.employees out.2))
    ∧ (if missing (S.f_password data)
       then S.app out.2 = S.app S.sample_site
       else
         H.USERS_employee (S.app out.2) !! username
         = Some {| H.password := or_empty (S.f_password data);
                   H.name := S.e_name e; H.role := Some (S.e_role e);
                   H.employee_id := Some new_id; H.user_patient_id := None |}
         ∧ (H.api_request_otp H.default_config
              {| H.req_identifier := Some username; H.req_otp := None |}
              483920 0 (S.app out.2)).1 = H.otp_generated).
Proof.
  intros data sess.
  apply (add_employee_gets_fresh_id H.default_config data sess "2025-11-21"
           "2025-11-21T10:00:00" S.sample_site 483920 0).
  - reflexivity.
  - discriminate.
  - discriminate.
Defined.

(** X20. [DELETE /api/employees/<id>] by an administrator takes the first
    employee with that id out of the directory and every login of that
    id out of [USERS], and nothing else. From then on the employee OTP
    cannot be requested for a removed login (404 "unknown employee
    identifier"), and an OTP that was pending for it is refused even with
    the right secret: 404 "employee not found", no session, and the
    record is used up. *)
Theorem delete_employee_revokes_login
    (cfg : H.Config) (emp_id : Z) (data : S.EmployeeForm) (sess : H.Session)
    (now_iso : string) (site : S.Site) :
  S._is_admin_session sess = true →
  (∃ e, e ∈ S.employees site ∧ S.e_id e = emp_id) →
  let out := S.api_modify_employee emp_id S.DELETE data sess now_iso site in
  (∃ removed,
     out.1 = Jsonify (JObj [("success", JBool true);
                            ("removed", S.employee_json removed)]) 200
     ∧ S.e_id removed = emp_id
     ∧ S.employees site ≡ₚ removed :: S.employees out.2)
  ∧ (∀ uname ud,
       H.USERS_employee (S.app out.2) !! uname = Some ud
       ↔ H.USERS_employee (S.app site) !! uname = Some ud
         ∧ H.employee_id ud ≠ Some emp_id)
  ∧ H.otp_store (S.app out.2) = H.otp_store (S.app site)
  ∧ (∀ uname ud randint now,
       uname ≠ "" →
       H.USERS_employee (S.app site) !! uname = Some ud →
       H.employee_id ud = Some emp_id →
       (H.api_request_otp cfg
          {| H.req_identifier := Some uname; H.req_otp := None |}
          randint now (S.app out.2)).1
       = H.fail "unknown employee identifier" 404)
  ∧ (∀ uname ud v record client now,
       uname ≠ "" → scalar_falsy v = false →
       H.USERS_employee (S.app site) !! uname = Some ud →
       H.employee_id ud = Some emp_id →
       H.otp_store (S.app site) !! uname = Some record →
       H.attempts record + 1 <= H.MAX_OTP_ATTEMPTS cfg →
       now <= H.expires_at record →
       H.otp record = strip (str v) →
       let answer := H.api_verify_otp cfg
                       {| H.req_identifier := Some uname; H.req_otp := Some v |}
                       client now (S.app out.2) in
       answer.1 = (H.fail "employee not found" 404, client)
       ∧ H.otp_store answer.2 !! uname = None).
Proof.
  intros Hadmin Hfound out.
  destruct (pop_first_found emp_id (S.employees site) Hfound)
    as [[removed rest] Hpop].
  destruct (pop_first_spec _ _ _ _ Hpop) as [Hid Hperm].
  assert (out = (Jsonify (JObj [("success", JBool true);
                                ("removed", S.employee_json removed)]) 200,
                 S.set_app
                   (S.set_USERS_employee
                      (filter (λ kv, ¬ S.is_login_of emp_id kv.2)))
                   (S.set_employees (λ _, rest) site))) as Hout.
  { unfold out, S.api_modify_employee. by rewrite Hadmin, Hpop. }
  assert (∀ uname ud,
            H.USERS_employee (S.app out.2) !! uname = Some ud
            ↔ H.USERS_employee (S.app site) !! uname = Some ud
              ∧ H.employee_id ud ≠ Some emp_id) as Husers.
  { intros uname ud. rewrite Hout. simpl.
    by rewrite map_lookup_filter_Some. }
  assert (∀ uname ud,
            H.USERS_employee (S.app site) !! uname = Some ud →
            H.employee_id ud = Some emp_id →
            H.USERS_employee (S.app out.2) !! uname = None) as Hgone.
  { intros uname ud Hu He.
    destruct (H.USERS_employee (S.app out.2) !! uname) as [ud'|] eqn:Hl; [|done].
    apply Husers in Hl as [Hl Hne]. rewrite Hu in Hl. by injection Hl as <-. }
  split_and!.
  - exists removed. by rewrite Hout.
  - done.
  - by rewrite Hout.
  - intros uname ud randint now Hu Hlook He.
    unfold H.api_request_otp. simpl.
    by rewrite (falsy_false _ Hu), (Hgone uname ud Hlook He).
  - intros uname ud v record client now Hu Hv Hlook He Hrec Hmax Hlive Hotp answer.
    assert (H.otp_store (S.app out.2) !! uname = Some record) as Hrec'
      by by rewrite Hout.
    unfold answer, H.api_verify_otp. simpl.
    rewrite (falsy_false _ Hu), Hv. simpl. rewrite Hrec'. simpl.
    rewrite bool_decide_eq_false_2 by lia.
    rewrite bool_decide_eq_false_2 by lia.
    rewrite bool_decide_eq_true_2 by done. simpl.
    rewrite (Hgone uname ud Hlook He). simpl.
    split; [done | apply lookup_delete_eq].
Qed.

Lemma delete_employee_revokes_login_witness :
  let smith := {| S.e_id := 1; S.e_employee_id := "EMP0001";
                  S.e_name := "Dr. John Smith"; S.e_role := "Doctor";
                  S.e_department := "Cardiology";
                  S.e_email := "employee1@healthcare.com";
                  S.e_phone := "+1-200-100-1000";
                  S.e_joining_date := "2024-01-15";
                  S.e_notice_period_days := 30;
                  S.e_previous_hospital := "City Hospital";
                  S.e_previous_experience_years := 4;
                  S.e_current_salary := 90000;
                  S.e_status := "Active";
                  S.e_last_updated := "2025-11-21T10:00:00" |} in
  let site := S.set_employees (λ _, [smith]) S.sample_site in
  let sess := H.employee_session "admin" S.admin_user None in
  let data := {| S.f_name := None; S.f_role := None; S.f_department := None;
                 S.f_email := None; S.f_phone := None; S.f_status := None;
                 S.f_password := None |} in
  let out := S.api_modify_employee 1 S.DELETE data sess "2025-11-22T09:00:00"
               site in
  (∃ removed,
     out.1 = Jsonify (JObj [("success", JBool true);
                            ("removed", S.employee_json removed)]) 200
     ∧ S.e_id removed = 1
     ∧ S.employees site ≡ₚ removed :: S.employees out.2)
  ∧ (∀ uname ud,
       H.USERS_employee (S.app out.2) !! uname = Some ud
       ↔ H.USERS_employee (S.app site) !! uname = Some ud
         ∧ H.employee_id ud ≠ Some 1)
  ∧ H.otp_store (S.app out.2) = H.otp_store (S.app site)
  ∧ (∀ uname ud randint now,
       uname ≠ "" →
       H.USERS_employee (S.app site) !! uname = Some ud →
       H.employee_id ud = Some 1 →
       (H.api_request_otp H.default_config
          {| H.req_identifier := Some uname; H.req_otp := None |}
          randint now (S.app out.2)).1
       = H.fail "unknown employee identifier" 404)
  ∧ (∀ uname ud v record client now,
       uname ≠ "" → scalar_falsy v = false →
       H.USERS_employee (S.app site) !! uname = Some ud →
       H.employee_id ud = Some 1 →
       H.otp_store (S.app site) !! uname = Some record →
       H.attempts record + 1 <= H.MAX_OTP_ATTEMPTS H.default_config →
       now <= H.expires_at record →
       H.otp record = strip (str v) →
       let answer := H.api_verify_otp H.default_config
                       {| H.req_identifier := Some uname; H.req_otp := Some v |}
                       client now (S.app out.2) in
       answer.1 = (H.fail "employee not found" 404, client)
       ∧ H.otp_store answer.2 !! uname = None).
Proof.
  intros smith site sess data.
  apply (delete_employee_revokes_login H.default_config 1 data sess
           "2025-11-22T09:00:00" site).
  - reflexivity.
  - exists smith. split; [apply list_elem_of_here | reflexivity].
Defined.

(** X21. [PUT /api/employees/<id>] by an administrator never changes an
    id: the list of ids in the directory is the same afterwards, found or
    not. When an employee has the id, the first such employee takes the
    fields present in the form and keeps the others, where it stands in
    the directory, the employees before and after it being as they were;
    and every login of that id shows the employee's name and role
    afterwards, with its password unchanged; logins of other ids are as
    before. When none has it, the answer is 404 and nothing changes. *)
Theorem update_employee_keeps_ids
    (emp_id : Z) (data : S.EmployeeForm) (sess : H.Session)
    (now_iso : string) (site : S.Site) :
  S._is_admin_session sess = true →
  let out := S.api_modify_employee emp_id S.PUT data sess now_iso site in
  S.e_id <$> S.employees out.2 = S.e_id <$> S.employees site
  ∧ ((∀ e, e ∈ S.employees site → S.e_id e ≠ emp_id)
     ∧ out = (S.refused "not found" 404, site)
     ∨ ∃ old emp,
         old ∈ S.employees site ∧ S.e_id old = emp_id
         ∧ emp = S.apply_form data now_iso old
         ∧ emp ∈ S.employees out.2
         ∧ out.1 = Jsonify (JObj [("success", JBool true);
                                  ("employee", S.employee_json emp)]) 200
         ∧ (∃ before after,
              S.employees site = (before ++ old :: after)%list
              ∧ (∀ e, e ∈ before → S.e_id e ≠ emp_id)
              ∧ S.employees out.2 = (before ++ emp :: after)%list)
         ∧ ∀ uname ud,
             H.USERS_employee (S.app site) !! uname = Some ud →
             H.USERS_employee (S.app out.2) !! uname
             = Some (if bool_decide (H.employee_id ud = Some emp_id)
                     then {| H.password := H.password ud;
                             H.name := S.e_name emp;
                             H.role := Some (S.e_role emp);
                             H.employee_id := H.employee_id ud;
                             H.user_patient_id := H.user_patient_id ud |}
                     else ud)).
Proof.
  intros Hadmin out. unfold out, S.api_modify_employee. rewrite Hadmin. simpl.
  destruct (S.update_first emp_id (S.apply_form data now_iso) (S.employees site))
    as [[emp es]|] eqn:Hup.
  - destruct (update_first_ids emp_id (S.apply_form data now_iso) _ _ _
                (λ e, eq_refl) Hup)
      as (Hids & _ & Hin & _).
    destruct (update_first_split _ _ _ _ _ Hup)
      as (before & old & after & Hsite & Hbefore & Hid & Hemp & Hes).
    simpl. split; [done |]. right. exists old, emp. split_and!; try done.
    + rewrite Hsite. apply elem_of_app. right. apply list_elem_of_here.
    + by exists before, after.
    + intros uname ud Hu. rewrite lookup_fmap, Hu. simpl.
      unfold S.sync_login. f_equal.
      destruct (decide (S.is_login_of emp_id ud)) as [Hl | Hl].
      * by rewrite bool_decide_eq_true_2.
      * by rewrite bool_decide_eq_false_2.
  - split; [done |]. left. split; [|done].
    by apply (update_first_none _ _ _ Hup).
Qed.

Lemma update_employee_keeps_ids_witness :
  let smith := {| S.e_id := 1; S.e_employee_id := "EMP0001";
                  S.e_name := "Dr. John Smith"; S.e_role := "Doctor";
                  S.e_department := "Cardiology";
                  S.e_email := "employee1@healthcare.com";
                  S.e_phone := "+1-200-100-1000";
                  S.e_joining_date := "2024-01-15";
                  S.e_notice_period_days := 30;
                  S.e_previous_hospital := "City Hospital";
                  S.e_previous_experience_years := 4;
                  S.e_current_salary := 90000;
                  S.e_status := "Active";
                  S.e_last_updated := "2025-11-21T10:00:00" |} in
  let site := S.set_employees (λ _, [smith]) S.sample_site in
  let sess := H.employee_session "admin" S.admin_user None in
  let data := {| S.f_name := None; S.f_role := Some "Surgeon";
                 S.f_department := Some "Surgery"; S.f_email := None;
                 S.f_phone := None; S.f_status := None; S.f_password := None |} in
  let out := S.api_modify_employee 1 S.PUT data sess "2025-11-22T09:00:00" site in
  S.e_id <$> S.employees out.2 = S.e_id <$> S.employees site
  ∧ ((∀ e, e ∈ S.employees site → S.e_id e ≠ 1)
     ∧ out = (S.refused "not found" 404, site)
     ∨ ∃ old emp,
         old ∈ S.employees site ∧ S.e_id old = 1
         ∧ emp = S.apply_form data "2025-11-22T09:00:00" old
         ∧ emp ∈ S.employees out.2
         ∧ out.1 = Jsonify (JObj [("success", JBool true);
                                  ("employee", S.employee_json emp)]) 200
         ∧ (∃ before after,
              S.employees site = (before ++ old :: after)%list
              ∧ (∀ e, e ∈ before → S.e_id e ≠ 1)
              ∧ S.employees out.2 = (before ++ emp :: after)%list)
         ∧ ∀ uname ud,
             H.USERS_employee (S.app site) !! uname = Some ud →
             H.USERS_employee (S.app out.2) !! uname
             = Some (if bool_decide (H.employee_id ud = Some 1)
                     then {| H.password := H.password ud;
                             H.name := S.e_name emp;
                             H.role := Some (S.e_role emp);
                             H.employee_id := H.employee_id ud;
                             H.user_patient_id := H.user_patient_id ud |}
                     else ud)).
Proof.
  intros smith site sess data.
  apply (update_employee_keeps_ids 1 data sess "2025-11-22T09:00:00" site).
  reflexivity.
Defined.

End HealthcareExtras.
